(** * kurl (YOURLS shortener add-on): the API orchestration layer

    A shallow embedding of [helpers.js] (the [window.Helpers] module), of
    [background.js] and of the handlers of [popup.js] that call the
    background script, and the properties of that code that the
    specification states, with further properties read off the code.

    Layout:
    - [Js]: the ECMAScript data the add-on manipulates (strings as sequences
      of code units, JSON-like values, the regular-expression fragment the
      source uses);
    - [Platform]: what the browser provides ([URL], [JSON.parse], [i18n],
      storage, permissions, [fetch], notifications), as an interface;
    - [Helpers], [Background] and [Popup]: the functions of the three source
      files;
    - [Reference]: one concrete platform, used to run the code on inputs;
    - [Spec]: the vocabulary of the specification and of the further
      properties;
    - the theorems: the patterns of the source as string functions, then
      the Redirect Cleaner, the Keyword Resolver, the API client, the
      operations, the Action Router and the base URL; then the calls of the
      listener, the selection, short URLs, the prefill and the popup. *)

From Stdlib Require Import String Ascii List Bool Arith ZArith Lia DecimalString DecimalN.
Import ListNotations.
Open Scope string_scope.
Open Scope nat_scope.
Set Warnings "-register-all".

(* ================================================================== *)
(** * ECMAScript data *)
(* ================================================================== *)

Module Js.

(** ** Strings

    A JavaScript string is a sequence of code units.  The embedding uses
    [string], whose characters are the code units 0..255 (the Latin-1 range);
    every string constant of the source is in that range. *)

Definition code (c : ascii) : nat := nat_of_ascii c.

(** [WhiteSpace] and [LineTerminator] of ECMA-262 within the range: TAB, LF,
    VT, FF, CR, SP and NBSP.  This is the set of [\s] and of [trim]. *)
Definition isWhiteSpace (c : ascii) : bool :=
  let n := code c in
  ((9 <=? n) && (n <=? 13)) || (n =? 32) || (n =? 160).

(** [LineTerminator] within the range: the characters [.] refuses. *)
Definition isLineTerminator (c : ascii) : bool :=
  let n := code c in (n =? 10) || (n =? 13).

(** ASCII upper-casing: the [Canonicalize] of a case-insensitive pattern
    without the [u] flag never maps a character outside ASCII to one inside,
    so against the ASCII literals of the source it is this function. *)
Definition upper (c : ascii) : ascii :=
  let n := code c in
  if (97 <=? n) && (n <=? 122) then ascii_of_nat (n - 32) else c.

Definition lower (c : ascii) : ascii :=
  let n := code c in
  if (65 <=? n) && (n <=? 90) then ascii_of_nat (n + 32) else c.

Fixpoint map_string (f : ascii -> ascii) (s : string) : string :=
  match s with
  | EmptyString => EmptyString
  | String c s' => String (f c) (map_string f s')
  end.

Fixpoint filter_string (p : ascii -> bool) (s : string) : string :=
  match s with
  | EmptyString => EmptyString
  | String c s' => if p c then String c (filter_string p s') else filter_string p s'
  end.

Fixpoint forall_string (p : ascii -> bool) (s : string) : bool :=
  match s with
  | EmptyString => true
  | String c s' => p c && forall_string p s'
  end.

Fixpoint rev_string (s : string) : string :=
  match s with
  | EmptyString => EmptyString
  | String c s' => rev_string s' ++ String c EmptyString
  end.

(** [s.trimStart()], [s.trimEnd()], [s.trim()]. *)
Fixpoint trimStart (s : string) : string :=
  match s with
  | EmptyString => EmptyString
  | String c s' => if isWhiteSpace c then trimStart s' else s
  end.

Fixpoint trimEnd (s : string) : string :=
  match s with
  | EmptyString => EmptyString
  | String c s' =>
      match trimEnd s' with
      | EmptyString => if isWhiteSpace c then EmptyString else String c EmptyString
      | t => String c t
      end
  end.

Definition trim (s : string) : string := trimEnd (trimStart s).

(** [s.startsWith(p)]. *)
Definition startsWith (s p : string) : bool := String.prefix p s.

(** [s.slice(0, n)]: the first [n] code units (all of [s] when it is shorter). *)
Fixpoint slice0 (n : nat) (s : string) : string :=
  match n, s with
  | S n', String c s' => String c (slice0 n' s')
  | _, _ => EmptyString
  end.

(** [s.substring(n)]: [s] without its first [n] code units. *)
Fixpoint substring_from (n : nat) (s : string) : string :=
  match n, s with
  | S n', String _ s' => substring_from n' s'
  | _, _ => s
  end.

(** [s.split(sep)] for a one-character separator: never the empty list. *)
Fixpoint split (sep : ascii) (s : string) : list string :=
  match s with
  | EmptyString => [EmptyString]
  | String c s' =>
      if Ascii.eqb c sep then EmptyString :: split sep s'
      else match split sep s' with
           | [] => [String c EmptyString]
           | w :: ws => String c w :: ws
           end
  end.

(** Pushing a character on the first segment. *)
Definition push_head (c : ascii) (l : list string) : list string :=
  match l with
  | [] => [String c ""]
  | w :: ws => String c w :: ws
  end.

(** [a.pop()] as an expression: the last element, [None] for [undefined]. *)
Fixpoint pop (l : list string) : option string :=
  match l with
  | [] => None
  | [x] => Some x
  | _ :: l' => pop l'
  end.

(** A string is falsy exactly when it is empty. *)
Definition truthy_string (s : string) : bool :=
  match s with EmptyString => false | _ => true end.

(** Decimal rendering of the numbers the code interpolates. *)
Definition string_of_nat (n : nat) : string := NilZero.string_of_uint (Nat.to_uint n).
Definition string_of_Z (z : Z) : string := NilZero.string_of_int (Z.to_int z).

(** ** Values

    The values that cross the add-on's boundaries are JSON-like: parsed
    response bodies, messages (structured clones) and replies.  Numbers are
    carried by their integer value; objects are property lists in insertion
    order, read by the first entry of a name. *)

Inductive value : Type :=
| VUndefined
| VNull
| VBool (b : bool)
| VNum (z : Z)
| VStr (s : string)
| VArr (items : list value)
| VObj (props : list (string * value)).

(** [ToBoolean]. *)
Definition truthy (v : value) : bool :=
  match v with
  | VUndefined | VNull => false
  | VBool b => b
  | VNum z => negb (z =? 0)%Z
  | VStr s => truthy_string s
  | VArr _ | VObj _ => true
  end.

Definition nullish (v : value) : bool :=
  match v with VUndefined | VNull => true | _ => false end.

Fixpoint join (sep : string) (l : list string) : string :=
  match l with
  | [] => EmptyString
  | [x] => x
  | x :: l' => x ++ sep ++ join sep l'
  end.

(** [String(v)] ([ToString]): an array joins its elements with commas, a
    nullish element giving the empty string; a plain object is
    ["[object Object]"]. *)
Fixpoint ToString (v : value) : string :=
  match v with
  | VUndefined => "undefined"
  | VNull => "null"
  | VBool true => "true"
  | VBool false => "false"
  | VNum z => string_of_Z z
  | VStr s => s
  | VArr items =>
      join "," (map (fun x => if nullish x then EmptyString else ToString x) items)
  | VObj _ => "[object Object]"
  end.

Fixpoint lookup (k : string) (props : list (string * value)) : option value :=
  match props with
  | [] => None
  | (k', v) :: rest => if String.eqb k' k then Some v else lookup k rest
  end.

(** [v.k] on a value that is not nullish: an object gives its property, a
    primitive or an array has none of the names the source reads (the one
    inherited name among them, [String.prototype.link], is only read as
    [json.link?.shorturl], which is [undefined] either way).  Where the
    source reads a property of a possibly nullish value without a guard, the
    embedding raises the [TypeError] before calling [prop]. *)
Definition prop (v : value) (k : string) : value :=
  match v with
  | VObj props => match lookup k props with Some x => x | None => VUndefined end
  | _ => VUndefined
  end.

(** [v?.k]. *)
Definition opt_prop (v : value) (k : string) : value :=
  if nullish v then VUndefined else prop v k.

(** [a || b] and [a ?? b]. *)
Definition or_else (a b : value) : value := if truthy a then a else b.
Definition coalesce (a b : value) : value := if nullish a then b else a.

(** [a === b] against a string or a number constant. *)
Definition strict_eq_string (v : value) (s : string) : bool :=
  match v with VStr t => String.eqb t s | _ => false end.
Definition strict_eq_num (v : value) (z : Z) : bool :=
  match v with VNum n => (n =? z)%Z | _ => false end.

(** ** Errors: an [Error] object is its [name] and [message]. *)

Record exn : Type := mkExn { name : string; message : string }.

Definition Error (m : string) : exn := mkExn "Error" m.

(** [Error.prototype.toString]. *)
Definition exn_toString (e : exn) : string :=
  match name e, message e with
  | EmptyString, m => m
  | n, EmptyString => n
  | n, m => n ++ ": " ++ m
  end.

(** [String(e?.message || e)] for a caught error [e]. *)
Definition caught_message (e : exn) : string :=
  if truthy_string (message e) then message e else exn_toString e.

(** ** Regular expressions

    The patterns of the source use literal characters, the classes [.], [\s]
    and [\S], the greedy quantifiers [+], [*] and [?] on a single character
    or class, one capture group, and [$].  [exec] is the backtracking matcher
    of ECMA-262 for that fragment, in continuation-passing style: the
    continuation is the rest of the pattern, and a quantifier tries the
    longest repetition first. *)

Inductive atom : Type :=
| Chr (c : ascii)     (* a literal character *)
| Dot                 (* .   *)
| Space               (* \s  *)
| NonSpace.           (* \S  *)

Inductive regex : Type :=
| Eps
| One (a : atom)
| Plus (a : atom)     (* a+ *)
| Star (a : atom)     (* a* *)
| Opt (a : atom)      (* a? *)
| Cat (r1 r2 : regex)
| Group (r : regex)   (* ( r ), the capture group *)
| Eos.                (* $ without the m flag *)

(** [i] is the [i] flag. *)
Definition atom_match (i : bool) (a : atom) (c : ascii) : bool :=
  match a with
  | Chr x => if i then Ascii.eqb (upper c) (upper x) else Ascii.eqb c x
  | Dot => negb (isLineTerminator c)
  | Space => isWhiteSpace c
  | NonSpace => negb (isWhiteSpace c)
  end.

(** Greedy repetition of a one-character test, then the continuation. *)
Fixpoint repeat_greedy {X : Type} (p : ascii -> bool) (s : string)
    (k : string -> option X) : option X :=
  match s with
  | String c s' =>
      if p c
      then match repeat_greedy p s' k with
           | Some x => Some x
           | None => k s
           end
      else k s
  | EmptyString => k s
  end.

(** The part of [s] consumed when [rest] is what remains of it. *)
Definition consumed (s rest : string) : string :=
  slice0 (String.length s - String.length rest) s.

Fixpoint exec {X : Type} (i : bool) (r : regex) (s : string) (cap : option string)
    (k : string -> option string -> option X) : option X :=
  match r with
  | Eps => k s cap
  | One a =>
      match s with
      | String c s' => if atom_match i a c then k s' cap else None
      | EmptyString => None
      end
  | Plus a =>
      match s with
      | String c s' =>
          if atom_match i a c
          then repeat_greedy (atom_match i a) s' (fun rest => k rest cap)
          else None
      | EmptyString => None
      end
  | Star a => repeat_greedy (atom_match i a) s (fun rest => k rest cap)
  | Opt a =>
      match s with
      | String c s' =>
          if atom_match i a c
          then match k s' cap with
               | Some x => Some x
               | None => k s cap
               end
          else k s cap
      | EmptyString => k s cap
      end
  | Cat r1 r2 => exec i r1 s cap (fun s1 cap1 => exec i r2 s1 cap1 k)
  | Group r1 => exec i r1 s cap (fun s1 _ => k s1 (Some (consumed s s1)))
  | Eos =>
      match s with
      | EmptyString => k s cap
      | String _ _ => None
      end
  end.

(** A match found by scanning start positions from the left: the text before
    the match, the text after it, and the capture. *)
Record found : Type := mkFound { before : string; after : string; capture : option string }.

Definition match_here (i : bool) (r : regex) (s : string) : option found :=
  exec i r s None (fun rest cap => Some (mkFound EmptyString rest cap)).

Fixpoint search (i : bool) (r : regex) (s : string) : option found :=
  match match_here i r s with
  | Some m => Some m
  | None =>
      match s with
      | EmptyString => None
      | String c s' =>
          match search i r s' with
          | Some m => Some (mkFound (String c (before m)) (after m) (capture m))
          | None => None
          end
      end
  end.

(** [re.test(s)]. *)
Definition test (i : bool) (r : regex) (s : string) : bool :=
  match search i r s with Some _ => true | None => false end.

(** [s.match(re)[1]] for a pattern with one group; [None] when there is no
    match. *)
Definition match1 (i : bool) (r : regex) (s : string) : option string :=
  match search i r s with
  | Some m => capture m
  | None => None
  end.

(** [s.replace(re, "")] without the [g] flag: the first match is removed. *)
Definition replace_first (i : bool) (r : regex) (s : string) : string :=
  match search i r s with
  | Some m => before m ++ after m
  | None => s
  end.

(** [s.replace(re, "")] with the [g] flag: every match is removed, scanning
    on from the end of each; after an empty match the scan moves one code
    unit on.  The recursion is on a bound that the length of [s] supplies. *)
Fixpoint replace_all_from (fuel : nat) (i : bool) (r : regex) (s : string) : string :=
  match fuel with
  | O => s
  | S fuel' =>
      match search i r s with
      | None => s
      | Some m =>
          if String.length (after m) + String.length (before m) <? String.length s
          then before m ++ replace_all_from fuel' i r (after m)
          else match after m with
               | EmptyString => before m
               | String c rest => before m ++ String c (replace_all_from fuel' i r rest)
               end
      end
  end.

Definition replace_all (i : bool) (r : regex) (s : string) : string :=
  replace_all_from (S (String.length s)) i r s.

(** A literal word as a pattern. *)
Fixpoint word (w : string) : regex :=
  match w with
  | EmptyString => Eps
  | String c w' => Cat (One (Chr c)) (word w')
  end.

(** The patterns of the source. *)

(** [/\s+/g] *)
Definition re_spaces : regex := Plus Space.
(** [/\/+$/] *)
Definition re_trailing_slashes : regex := Cat (Plus (Chr "/")) Eos.
(** [/already exists/i] *)
Definition re_already_exists : regex := word "already exists".
(** [/\(short URL: (https?:\/\/\S+)\)/i] *)
Definition re_short_url : regex :=
  Cat (word "(short URL: ")
      (Cat (Group (Cat (word "http") (Cat (Opt (Chr "s")) (Cat (word "://") (Plus NonSpace)))))
           (One (Chr ")"))).
(** [/success.*deleted/i] *)
Definition re_success_deleted : regex :=
  Cat (word "success") (Cat (Star Dot) (word "deleted")).
(** [/keyword.*already exists/i] *)
Definition re_keyword_exists : regex :=
  Cat (word "keyword") (Cat (Star Dot) (word "already exists")).
(** [/https?:\/\/\S+/] *)
Definition re_http_url : regex :=
  Cat (word "http") (Cat (Opt (Chr "s")) (Cat (word "://") (Plus NonSpace))).

(** The least number of characters a pattern consumes. *)
Fixpoint min_length (r : regex) : nat :=
  match r with
  | Eps | Star _ | Opt _ | Eos => 0
  | One _ | Plus _ => 1
  | Cat r1 r2 => min_length r1 + min_length r2
  | Group r1 => min_length r1
  end.

(** Every group of the pattern consumes something. *)
Fixpoint groups_consume (r : regex) : Prop :=
  match r with
  | Cat r1 r2 => groups_consume r1 /\ groups_consume r2
  | Group r1 => 0 < min_length r1 /\ groups_consume r1
  | _ => True
  end.

Definition nonempty_capture (cap : option string) : Prop :=
  match cap with
  | Some u => truthy_string u = true
  | None => True
  end.

End Js.

Import Js.

(* ================================================================== *)
(** * The browser *)
(* ================================================================== *)

Module Platform.

(** What the code reads of a [URL] object. [searchParams] is the list of
    name-value pairs of the query, decoded. *)
Record URL : Type := mkURL {
  origin : string;
  hostname : string;
  pathname : string;
  searchParams : list (string * string)
}.

(** [u.searchParams.get(name)]: the value of the first pair of that name,
    [None] for [null]. *)
Fixpoint searchParams_get (name : string) (l : list (string * string)) : option string :=
  match l with
  | [] => None
  | (k, v) :: rest => if String.eqb k name then Some v else searchParams_get name rest
  end.

(** A [Response]: its status, and its body as [res.text()] resolves it
    ([None] when reading the body fails). *)
Record Response : Type := mkResponse {
  status : nat;
  body : option string
}.

(** [await res.text().catch(() => "")] *)
Definition text_of (res : Response) : string :=
  match body res with Some t => t | None => "" end.

(** [res.ok]: the status is in the range 200-299. *)
Definition ok (res : Response) : bool := (200 <=? status res) && (status res <=? 299).

(** The built-ins the code calls.  [None] stands for the exception the
    built-in throws; the exceptions themselves are given by the platform. *)
Class Browser : Type := {
  (** [new URL(s)] *)
  URL_parse : string -> option URL;
  (** the [TypeError] of [new URL(s)] for an [s] that is no URL *)
  URL_TypeError : string -> exn;
  (** the [TypeError] of reading a property of [undefined] or [null] *)
  property_TypeError : value -> string -> exn;
  (** [JSON.parse(t)] *)
  JSON_parse : string -> option value;
  (** [browser.i18n.getMessage(key)] *)
  i18n_getMessage : string -> string
}.

(** What varies from one call to the next: the stored settings, the granted
    host permissions and the network. *)
Record World : Type := mkWorld {
  storage_yourlsUrl : string;
  storage_apiSignature : string;
  storage_autoCopy : value;
  (** [browser.permissions.contains({origins: [pattern]})] *)
  permissions_contains : string -> bool;
  (** [fetch(endpoint, {method: "POST", headers, body})]: a rejection or a response *)
  fetch : string -> list (string * string) -> exn + Response
}.

(** The calls that leave the script, in the order they are made.
    [PermissionsRequest] is [browser.permissions.request], which would
    prompt the user; the code at hand never calls it. *)
Inductive event : Type :=
| StorageGet
| PermissionsContains (pattern : string)
| PermissionsRequest (pattern : string)
| Fetch (endpoint : string) (form : list (string * string))
| Notification (title message : string).

Definition trace : Type := list event.

(** An [async] function either returns or throws; it extends the trace. *)
Inductive outcome (A : Type) : Type :=
| Ret (a : A)
| Throw (e : exn).
Arguments Ret {A} a.
Arguments Throw {A} e.

Definition M (A : Type) : Type := trace -> outcome A * trace.

Definition ret {A} (a : A) : M A := fun t => (Ret a, t).
Definition throw {A} (e : exn) : M A := fun t => (Throw e, t).
Definition bind {A B} (m : M A) (k : A -> M B) : M B :=
  fun t => match m t with
           | (Ret a, t') => k a t'
           | (Throw e, t') => (Throw e, t')
           end.
Definition emit (ev : event) : M unit := fun t => (Ret tt, (t ++ [ev])%list).
(** [try { m } catch (e) { h e }] *)
Definition try_catch {A} (m : M A) (h : exn -> M A) : M A :=
  fun t => match m t with
           | (Ret a, t') => (Ret a, t')
           | (Throw e, t') => h e t'
           end.

(** Running a call from the empty trace. *)
Definition run {A} (m : M A) : outcome A * trace := m [].

Definition is_fetch (ev : event) : bool :=
  match ev with Fetch _ _ => true | _ => false end.
Definition is_permission_query (ev : event) : bool :=
  match ev with PermissionsContains _ => true | _ => false end.
Definition is_permission_request (ev : event) : bool :=
  match ev with PermissionsRequest _ => true | _ => false end.

End Platform.

Import Platform.

Declare Scope js_scope.
Delimit Scope js_scope with js.
Notation "x <- m ;; k" := (bind m (fun x => k))
  (at level 61, m at next level, right associativity) : js_scope.
Notation "m ;;; k" := (bind m (fun _ => k))
  (at level 61, right associativity) : js_scope.
Open Scope js_scope.

(* ================================================================== *)
(** * helpers.js *)
(* ================================================================== *)

Module Helpers.
Section WithBrowser.
Context {B : Browser}.

(** [sanitizeBaseUrl(u)].  The setting is a string, so [String(u)] is [u]. *)
Definition sanitizeBaseUrl (u : string) : string :=
  if negb (truthy_string u) then ""
  else
    let u := replace_first false re_trailing_slashes
               (replace_all false re_spaces (trim u)) in
    match URL_parse u with
    | Some x =>
        let path := replace_first false re_trailing_slashes (pathname x) in
        origin x ++ path
    | None => ""
    end.

(** [toFormData(obj)]: the pairs of a [URLSearchParams], in order. *)
Fixpoint toFormData (obj : list (string * value)) : list (string * string) :=
  match obj with
  | [] => []
  | (k, v) :: rest =>
      if nullish v then toFormData rest else (k, ToString v) :: toFormData rest
  end.

Record Settings : Type := mkSettings {
  yourlsUrl : string;
  apiSignature : string;
  autoCopy : bool
}.

(** The object [getSettings] builds from the stored values:
    [autoCopy] is [o.autoCopy !== false]. *)
Definition settings_of (w : World) : Settings :=
  {| yourlsUrl := storage_yourlsUrl w;
     apiSignature := storage_apiSignature w;
     autoCopy := match storage_autoCopy w with VBool false => false | _ => true end |}.

(** [getSettings()], for a read of [browser.storage.local] that resolves: a
    read that rejects is not among the worlds, and no theorem below says what
    a caller does then. *)
Definition getSettings (w : World) : M Settings :=
  emit StorageGet ;;;
  ret (settings_of w).

(** [parseMaybeJson(t)] *)
Definition parseMaybeJson (t : string) : value :=
  match JSON_parse t with
  | Some v => v
  | None => VNull
  end.

(** [extractShort(json, base)] *)
Definition extractShort (json : value) (base : string) : value :=
  if negb (truthy json) then VNull
  else if truthy (prop json "shorturl") then prop json "shorturl"
  else if truthy (opt_prop (prop json "url") "shorturl") then prop (prop json "url") "shorturl"
  else if truthy (opt_prop (prop json "link") "shorturl") then prop (prop json "link") "shorturl"
  else if truthy (prop json "keyword")
       then VStr (replace_first false re_trailing_slashes base ++ "/" ++ ToString (prop json "keyword"))
  else VNull.

(** [extractKeyword(base, s)] *)
Definition extractKeyword (base : string) (s : value) : string :=
  if negb (truthy s) then ""
  else
    let s := trim (ToString s) in
    match URL_parse s with
    | Some u =>
        if truthy_string base
        then match URL_parse base with
             | Some b =>
                 if String.eqb (origin u) (origin b)
                 then match pop (split "/" (replace_first false re_trailing_slashes (pathname u))) with
                      | Some k => k
                      | None => ""
                      end
                 else s
             | None => s
             end
        else s
    | None => s
    end.

End WithBrowser.
End Helpers.

Import Helpers.

(* ================================================================== *)
(** * background.js *)
(* ================================================================== *)

Module Background.

(** An entry of [REDIRECT_PATTERNS]; [prefix_to_strip] is optional. *)
Record Pattern : Type := mkPattern {
  host_prefix : string;
  path : string;
  param : string;
  prefix_to_strip : option string
}.

Definition REDIRECT_PATTERNS : list Pattern :=
  [ mkPattern "www.google." "/url" "url" None;
    mkPattern "www.bing.com" "/ck/a" "u" (Some "a1");
    mkPattern "duckduckgo.com" "/l/" "uddg" None;
    mkPattern "www.youtube.com" "/redirect" "q" None ].

(** What [getUrlForAction] reads of the context-menu data and of the tab. *)
Record OnClickData : Type := mkInfo {
  linkUrl : option string;
  selectionText : option string
}.

Record Tab : Type := mkTab { url : option string }.

(** What [handleAction] changes: whether [browser.action.openPopup] was
    called, and the two prefill keys of [browser.storage.local], which hold
    strings ([None] for a key that is absent). *)
Record Ui : Type := mkUi {
  openPopup_called : bool;
  yourls_prefill_long : option string;
  yourls_prefill_short : option string
}.

Section WithBrowser.
Context {B : Browser}.

(** [toast(title, message)] *)
Definition toast (title message : string) : M unit :=
  emit (Notification title message).

(** [yourlsFetch(baseUrl, payload)]: the response, its text and the parsed
    body. *)
Definition yourlsFetch (w : World) (baseUrl : string) (payload : list (string * value))
  : M (Response * string * value) :=
  match URL_parse baseUrl with
  | None => throw (URL_TypeError baseUrl)
  | Some u =>
      let origin := origin u in
      emit (PermissionsContains (origin ++ "/*")) ;;;
      if negb (permissions_contains w (origin ++ "/*"))
      then throw (Error "Host permission was not granted.")
      else
        let endpoint := baseUrl ++ "/yourls-api.php" in
        let params := toFormData payload in
        emit (Fetch endpoint params) ;;;
        match fetch w endpoint params with
        | inl e => throw e
        | inr res =>
            let text := text_of res in
            ret (res, text, parseMaybeJson text)
        end
  end.

(** The request of [apiCheck] and [apiDbStats]. *)
Definition stats_payload (signature : string) : list (string * value) :=
  [("action", VStr "stats"); ("format", VStr "json"); ("signature", VStr signature)].

(** [apiDbStats()] *)
Definition apiDbStats (w : World) : M value :=
  st <- getSettings w ;;
  let base := sanitizeBaseUrl (yourlsUrl st) in
  r <- yourlsFetch w base (stats_payload (apiSignature st)) ;;
  let '(res, _, json) := r in
  if negb (ok res) || negb (truthy json)
  then throw (Error (i18n_getMessage "errorStatsFailed"))
  else ret json.

(** The request of [apiStats]. *)
Definition url_stats_payload (signature kw : string) : list (string * value) :=
  [("action", VStr "url-stats"); ("format", VStr "json");
   ("signature", VStr signature); ("shorturl", VStr kw)].

(** [apiStats(shortOrKeyword)] *)
Definition apiStats (w : World) (shortOrKeyword : value) : M value :=
  st <- getSettings w ;;
  let base := sanitizeBaseUrl (yourlsUrl st) in
  let kw := extractKeyword base shortOrKeyword in
  r <- yourlsFetch w base (url_stats_payload (apiSignature st) kw) ;;
  let '(res, text, json) := r in
  if negb (ok res)
  then
    if status res =? 404
    then throw (Error (i18n_getMessage "popupErrorStatsNotFound"))
    else throw (Error ("HTTP " ++ string_of_nat (status res)
                        ++ (if truthy_string text then ": " ++ slice0 100 text else "")))
  else ret json.

(** The reply of a successful shorten: [{ ok: true, shortUrl, already }]. *)
Definition shortened (shortUrl : value) (already : bool) : value :=
  VObj [("ok", VBool true); ("shortUrl", shortUrl); ("already", VBool already)].

(** The [payload] of [apiShorten]: [keyword] and [title] are set when they
    are truthy. *)
Definition shorten_payload (signature : string) (longUrl keyword title : value)
  : list (string * value) :=
  ([("action", VStr "shorturl"); ("format", VStr "json");
    ("signature", VStr signature); ("url", longUrl)]
   ++ (if truthy keyword then [("keyword", keyword)] else [])
   ++ (if truthy title then [("title", title)] else []))%list.

(** [apiShorten(longUrl, keyword, title)] *)
Definition apiShorten (w : World) (longUrl keyword title : value) : M value :=
  st <- getSettings w ;;
  let base := sanitizeBaseUrl (yourlsUrl st) in
  if negb (truthy_string base) || negb (truthy_string (apiSignature st))
  then throw (Error (i18n_getMessage "errorNoSettings"))
  else
    let payload := shorten_payload (apiSignature st) longUrl keyword title in
    r <- yourlsFetch w base payload ;;
    let '(res, text, json) := r in
    if truthy json
       && test true re_already_exists (ToString (or_else (prop json "message") (VStr "")))
    then
      let existingShortUrl :=
        match match1 true re_short_url (ToString (prop json "message")) with
        | Some u => if truthy_string u then VStr u else extractShort json base
        | None => extractShort json base
        end in
      toast (i18n_getMessage "extensionName") (i18n_getMessage "toastUrlExists") ;;;
      ret (shortened existingShortUrl true)
    else
      let short := extractShort json base in
      if ok res && truthy json && truthy short
      then
        toast (i18n_getMessage "extensionName") (i18n_getMessage "toastUrlCreated") ;;;
        ret (shortened short false)
      else if strict_eq_string (opt_prop json "status") "fail" && truthy (prop json "message")
      then throw (Error (ToString (prop json "message")))
      else throw (Error ("HTTP " ++ string_of_nat (status res)
                          ++ (if truthy_string text then ": " ++ slice0 200 text else ""))).

(** The [isSuccess] of [apiDelete]. *)
Definition isSuccess (j : value) : bool :=
  truthy j
  && (strict_eq_string (prop j "status") "success"
      || test true re_success_deleted (ToString (or_else (prop j "message") (VStr "")))
      || strict_eq_num (prop j "statusCode") 200).

(** The [errorDetails] of [apiDelete]: [json?.message || json?.error || ""]. *)
Definition errorDetails (json : value) : value :=
  or_else (or_else (opt_prop json "message") (opt_prop json "error")) (VStr "").

(** The message of the error [apiDelete] throws. *)
Definition delete_failed (res : Response) (json : value) : string :=
  "Delete failed: HTTP " ++ string_of_nat (status res) ++ " "
  ++ (if truthy (errorDetails json) then "- " ++ ToString (errorDetails json) else "").

(** The [payload] of [apiDelete]. *)
Definition delete_payload (signature keyword : string) : list (string * value) :=
  [("action", VStr "delete"); ("format", VStr "json");
   ("signature", VStr signature); ("shorturl", VStr keyword)].

(** [apiDelete(shortOrKeyword)] *)
Definition apiDelete (w : World) (shortOrKeyword : value) : M value :=
  st <- getSettings w ;;
  let base := sanitizeBaseUrl (yourlsUrl st) in
  let keyword := extractKeyword base shortOrKeyword in
  if negb (truthy_string keyword)
  then throw (Error (i18n_getMessage "errorEnterKeywordToDelete"))
  else
    let payload := delete_payload (apiSignature st) keyword in
    r <- yourlsFetch w base payload ;;
    let '(res, _, json) := r in
    if ok res && isSuccess json
    then
      toast (i18n_getMessage "extensionName") (i18n_getMessage "toastUrlDeleted") ;;;
      ret (VObj [("ok", VBool true)])
    else throw (Error (delete_failed res json)).

(** The reply of a failure: [{ ok: false, reason }]. *)
Definition failure (reason : string) : value :=
  VObj [("ok", VBool false); ("reason", VStr reason)].

(** [apiCheck()] *)
Definition apiCheck (w : World) : M value :=
  st <- getSettings w ;;
  let base := sanitizeBaseUrl (yourlsUrl st) in
  if negb (truthy_string base) || negb (truthy_string (apiSignature st))
  then ret (failure (i18n_getMessage "errorNoSettings"))
  else
    r <- try_catch
           (r <- yourlsFetch w base (stats_payload (apiSignature st)) ;;
            let '(res, _, json) := r in
            if ok res && truthy json
            then
              let total := coalesce (coalesce (prop json "total_links")
                                       (opt_prop (prop json "stats") "total_links"))
                             (VStr "?") in
              ret (Some (VObj [("ok", VBool true); ("total", total)]))
            else ret None)
           (fun e => ret (Some (failure (caught_message e)))) ;;
    match r with
    | Some reply => ret reply
    | None => ret (failure (i18n_getMessage "optionsStatusConnFailed"))
    end.

(** The loop of [getUrlForAction] over the patterns: [link] is returned
    unless a pattern matches with a non-empty parameter, which ends the
    loop. *)
Fixpoint clean_with (patterns : list Pattern) (urlObject : URL) (link : string) : string :=
  match patterns with
  | [] => link
  | pattern :: rest =>
      if startsWith (hostname urlObject) (host_prefix pattern)
         && startsWith (pathname urlObject) (path pattern)
      then
        match searchParams_get (param pattern) (searchParams urlObject) with
        | Some realUrl =>
            if truthy_string realUrl
            then
              match prefix_to_strip pattern with
              | Some p =>
                  if truthy_string p && startsWith realUrl p
                  then substring_from (String.length p) realUrl
                  else realUrl
              | None => realUrl
              end
            else clean_with rest urlObject link
        | None => clean_with rest urlObject link
        end
      else clean_with rest urlObject link
  end.

(** The [try] block of [getUrlForAction] (the Redirect Cleaner): a link that
    is no URL is returned as it is. *)
Definition cleanLink (link : string) : string :=
  match URL_parse link with
  | Some urlObject => clean_with REDIRECT_PATTERNS urlObject link
  | None => link
  end.

(** The first match of [/https?:\/\/\S+/] in a text: [match[0]]. *)
Definition first_http_url (text : string) : option string :=
  match search false re_http_url text with
  | Some m => Some (consumed (substring_from (String.length (before m)) text) (after m))
  | None => None
  end.

(** [getUrlForAction(info, tab)] *)
Definition getUrlForAction (info : option OnClickData) (tab : option Tab) : string :=
  match match info with Some i => linkUrl i | None => None end with
  | Some (String c l) => cleanLink (String c l)
  | _ =>
      match match info with
            | Some i => match selectionText i with
                        | Some (String c t) => first_http_url (String c t)
                        | _ => None
                        end
            | None => None
            end with
      | Some m => m
      | None =>
          match match tab with Some t => url t | None => None end with
          | Some (String c u) =>
              if negb (startsWith (String c u) "about:") then String c u else ""
          | _ => ""
          end
      end
  end.

(** The [try] block of the listener of [browser.runtime.onMessage]: the
    [switch] on [msg.type]. *)
Definition dispatch (w : World) (msg : value) : M value :=
  (if nullish msg then throw (property_TypeError msg "type") else ret tt) ;;;
  let type := prop msg "type" in
  if strict_eq_string type "CHECK_CONNECTION" then apiCheck w
  else if strict_eq_string type "SHORTEN_URL"
  then apiShorten w (prop msg "longUrl")
         (or_else (prop msg "keyword") (VStr "")) (or_else (prop msg "title") (VStr ""))
  else if strict_eq_string type "GET_STATS"
  then data <- apiStats w (prop msg "shortUrl") ;;
       ret (VObj [("ok", VBool true); ("data", data)])
  else if strict_eq_string type "DELETE_SHORTURL" then apiDelete w (prop msg "shortUrl")
  else if strict_eq_string type "GET_DB_STATS"
  then data <- apiDbStats w ;;
       ret (VObj [("ok", VBool true); ("data", data)])
  else ret (failure "Unknown message type").

(** The [reason] its [catch] block gives for an error. *)
Definition reason_of (e : exn) : string :=
  let message := caught_message e in
  if test true re_keyword_exists message
  then i18n_getMessage "errorKeywordExists"
  else message.

(** The listener of [browser.runtime.onMessage]. *)
Definition onMessage (w : World) (msg : value) : M value :=
  try_catch (dispatch w msg) (fun e => ret (failure (reason_of e))).

(** [handleAction(tab, info)], the handler of the toolbar button and of the
    context menu: the popup is asked to open, the prefill keys are removed,
    and the URL of the action, when there is one, is stored under the key
    that tells the popup whether it is a short URL of the instance. *)
Definition handleAction (w : World) (tab : option Tab) (info : option OnClickData) (ui : Ui)
  : M Ui :=
  let ui := mkUi true (yourls_prefill_long ui) (yourls_prefill_short ui) in
  let urlToShorten := getUrlForAction info tab in
  let ui := mkUi (openPopup_called ui) None None in
  if truthy_string urlToShorten
  then
    st <- getSettings w ;;
    let base := sanitizeBaseUrl (yourlsUrl st) in
    if truthy_string base && startsWith urlToShorten base
    then ret (mkUi (openPopup_called ui) (yourls_prefill_long ui) (Some urlToShorten))
    else ret (mkUi (openPopup_called ui) (Some urlToShorten) (yourls_prefill_short ui))
  else ret ui.

End WithBrowser.
End Background.

Import Background.

(* ================================================================== *)
(** * popup.js *)
(* ================================================================== *)

(** The popup, as far as it calls the listener and reads what
    [handleAction] stored.  The document is a store: a property of an
    element, named as the source names it, holds what was last assigned to
    it.  A click is a click on a button that is enabled; the message of a
    handler is delivered to the listener of the background script, whose
    reply is what [sendMessage] resolves to. *)

Module Popup.

Definition Dom : Type := string -> value.

Definition set (k : string) (v : value) (d : Dom) : Dom :=
  fun k' => if String.eqb k' k then v else d k'.

(** A property that is a string, such as the [value] of a field. *)
Definition text (d : Dom) (k : string) : string := ToString (d k).

(** [/^https?:\/\//i] *)
Definition re_http_prefix : regex :=
  Cat (word "http") (Cat (Opt (Chr "s")) (word "://")).

(** [re.test(s)] for a pattern that starts with [^]: without the [m] flag
    the pattern is tried at the start of [s] only. *)
Definition test_at_start (i : bool) (r : regex) (s : string) : bool :=
  match match_here i r s with Some _ => true | None => false end.

Section WithBrowser.
Context {B : Browser}.
(** [JSON.stringify(v, null, 2)], which is [undefined] for [undefined]. *)
Variable JSON_stringify : value -> value.
(** [browser.i18n.getMessage(key, substitutions)] *)
Variable i18n_getMessage_with : string -> list value -> string.

(** [getInitialUrl(settings)]: the URL to show and whether it is a short
    URL of the instance, as [{ url, isShort }].  [active] is the first tab
    that [browser.tabs.query] gives for the active tab of the window. *)
Definition getInitialUrl (settings : Settings) (active : option Tab) (ui : Ui)
  : value * value :=
  let url : option string :=
    match yourls_prefill_long ui with
    | Some (String c l) => Some (String c l)
    | _ => yourls_prefill_short ui
    end in
  let isShort : bool :=
    match yourls_prefill_short ui with Some (String _ _) => true | _ => false end in
  let url : option string :=
    match url with
    | Some (String c u) => url
    | _ =>
        match match active with Some tab => Background.url tab | None => None end with
        | Some (String c t) =>
            if negb (startsWith (String c t) "about:") then Some (String c t) else url
        | _ => url
        end
    end in
  match url with
  | Some (String c u) =>
      let base := sanitizeBaseUrl (yourlsUrl settings) in
      (VStr (String c u),
       if isShort then VBool true
       else if negb (truthy_string base) then VStr base
       else if negb (startsWith (String c u) base) then VBool false
       else VBool (String.length base + 1 <? String.length (String c u)))
  | Some EmptyString => (VStr "", VBool isShort)
  | None => (VUndefined, VBool isShort)
  end.

(** [setMsg(text, cls)] *)
Definition setMsg (msg cls : string) (d : Dom) : Dom :=
  set "msg.textContent" (VStr msg) (set "msg.className" (VStr ("info " ++ cls)) d).

(** [toggleJson(show, data)] *)
Definition toggleJson (show : bool) (data : value) (d : Dom) : Dom :=
  let d := set "jsonBox.style.display" (VStr (if show then "block" else "none")) d in
  if show && truthy data
  then set "jsonBox.textContent"
         (VStr (match data with
                | VStr t => t
                | _ => ToString (JSON_stringify data)
                end)) d
  else d.

(** [r?.reason || fallback], as the text of the status box. *)
Definition reason_or (r : value) (fallback : string) : string :=
  ToString (or_else (opt_prop r "reason") (VStr fallback)).

(** The handler of a click on [btnShorten]. *)
Definition btnShorten_click (w : World) (d : Dom) : M Dom :=
  let url := trim (text d "longUrl.value") in
  if negb (test_at_start true re_http_prefix url)
  then ret (setMsg (i18n_getMessage "popupErrorInvalidUrl") "" d)
  else
    let d := setMsg (i18n_getMessage "popupStatusShortening") "" d in
    let d := toggleJson false VUndefined d in
    r <- onMessage w (VObj [("type", VStr "SHORTEN_URL");
                            ("longUrl", VStr url);
                            ("keyword", VStr (trim (text d "keyword.value")));
                            ("title", VStr (trim (text d "title.value")))]) ;;
    if negb (truthy r) || negb (truthy (opt_prop r "ok"))
    then ret (setMsg (reason_or r (i18n_getMessage "errorShortenFailed")) "" d)
    else
      let d := set "resultArea.style.display" (VStr "block") d in
      let d := set "shortUrl.value" (VStr (ToString (or_else (prop r "shortUrl") (VStr "")))) d in
      let d := set "statsInput.value" (VStr (ToString (or_else (prop r "shortUrl") (VStr "")))) d in
      let d := set "btnDelete.disabled" (VBool (negb (truthy (prop r "shortUrl")))) d in
      let d := set "qrcodeDisplay.style.display" (VStr "none") d in
      let d := set "btnDownloadQr.style.display" (VStr "none") d in
      ret (setMsg (if truthy (prop r "already")
                   then i18n_getMessage "popupInfoAlreadyShortened"
                   else i18n_getMessage "popupStatusCreated") "ok" d).

(** [(statsInput.value || shortUrl.value).trim()] *)
Definition link_named (d : Dom) : string :=
  trim (if truthy_string (text d "statsInput.value")
        then text d "statsInput.value" else text d "shortUrl.value").

(** The handler of a click on [btnStats]. *)
Definition btnStats_click (w : World) (d : Dom) : M Dom :=
  let q := link_named d in
  if negb (truthy_string q)
  then ret (setMsg (i18n_getMessage "popupErrorEnterUrlForStats") "" d)
  else
    let d := setMsg (i18n_getMessage "popupStatusFetchingStats") "" d in
    let d := toggleJson false VUndefined d in
    let d := set "btnDetails.style.visibility" (VStr "hidden") d in
    r <- onMessage w (VObj [("type", VStr "GET_STATS"); ("shortUrl", VStr q)]) ;;
    if negb (truthy r) || negb (truthy (opt_prop r "ok"))
    then ret (setMsg (reason_or r (i18n_getMessage "errorStatsFailed")) "" d)
    else
      (* [l] is read through [shorturl], [url] and [clicks] only, which a
         primitive or an inherited method such as [String.prototype.link]
         does not have: such an [l] reads like the empty object. *)
      let l := or_else (or_else (opt_prop (prop r "data") "link")
                                (opt_prop (prop r "data") "url")) (VObj []) in
      let message :=
        i18n_getMessage_with "popupStatusStatsResult"
          [or_else (prop l "shorturl") (VStr "?");
           or_else (prop l "url") (VStr "?");
           coalesce (prop l "clicks") (VStr "?")] in
      let d := setMsg message "ok" d in
      let d := if truthy (d "longUrl.disabled") && truthy (prop l "url")
               then set "longUrl.value" (VStr (ToString (prop l "url"))) d else d in
      let d := set "jsonBox.textContent" (VStr (ToString (JSON_stringify (prop r "data")))) d in
      ret (set "btnDetails.style.visibility" (VStr "visible") d).

(** The callback that the handler of [btnDelete] leaves with [setTimeout]. *)
Definition confirm_expired (d : Dom) : Dom :=
  set "btnDelete.classList.confirm-delete" (VBool false)
    (set "btnDelete.textContent" (VStr (i18n_getMessage "popupBtnDelete")) d).

(** The handler of a click on [btnDelete]: the document after it, and the
    delay of the timer it set for [confirm_expired], if it set one. *)
Definition btnDelete_click (w : World) (d : Dom) : M (Dom * option nat) :=
  let v := link_named d in
  if negb (truthy_string v)
  then ret (setMsg (i18n_getMessage "popupErrorProvideUrlToDelete") "" d, None)
  else if negb (truthy (d "btnDelete.classList.confirm-delete"))
  then
    let d := set "btnDelete.textContent" (VStr (i18n_getMessage "popupBtnConfirmDelete")) d in
    let d := set "btnDelete.classList.confirm-delete" (VBool true) d in
    ret (d, Some 4000)
  else
    let d := set "btnDelete.classList.confirm-delete" (VBool false) d in
    let d := set "btnDelete.textContent" (VStr (i18n_getMessage "popupBtnDelete")) d in
    let d := setMsg (i18n_getMessage "popupStatusDeleting") "" d in
    r <- onMessage w (VObj [("type", VStr "DELETE_SHORTURL"); ("shortUrl", VStr v)]) ;;
    if negb (truthy r) || negb (truthy (opt_prop r "ok"))
    then ret (setMsg (reason_or r (i18n_getMessage "errorDeleteFailed")) "" d, None)
    else
      let d := setMsg (i18n_getMessage "popupStatusDeleted") "ok" d in
      let d := set "shortUrl.value" (VStr "") d in
      let d := set "statsInput.value" (VStr "") d in
      let d := set "btnDelete.disabled" (VBool true) d in
      let d := set "resultArea.style.display" (VStr "none") d in
      let d := set "qrcodeDisplay.style.display" (VStr "none") d in
      let d := set "btnDownloadQr.style.display" (VStr "none") d in
      ret (d, None).

End WithBrowser.
End Popup.

Import Popup.

(* ================================================================== *)
(** * A reference browser *)
(* ================================================================== *)

(** One concrete [Browser], to run the code on inputs.

    [parse] follows the basic URL parser of the URL Standard, without a base
    URL, on strings of code units 0..255.  It is exact where the host is an
    ASCII domain name or a dotted-decimal IPv4 address and the decoded query
    is ASCII.  It reports a failure on hosts it does not model (an IPv6
    literal, a percent-encoded or non-ASCII domain, a domain with a label
    in [xn--] form, a numeric host that is not in dotted-decimal form),
    ignores the drive-letter rules of [file:] and the rule for a space that
    ends an opaque path, and reads a percent-encoded byte of a query as one
    code unit. *)

Module Reference.

Definition is_c0_or_space (c : ascii) : bool := code c <=? 32.
Definition is_tab_or_newline (c : ascii) : bool :=
  (code c =? 9) || (code c =? 10) || (code c =? 13).
Definition is_digit (c : ascii) : bool := (48 <=? code c) && (code c <=? 57).
Definition is_alpha (c : ascii) : bool :=
  let n := code (upper c) in (65 <=? n) && (n <=? 90).
Definition is_scheme_char (c : ascii) : bool :=
  is_alpha c || is_digit c || Ascii.eqb c "+" || Ascii.eqb c "-" || Ascii.eqb c ".".

Definition mem_ascii (c : ascii) (set : string) : bool :=
  negb (forall_string (fun x => negb (Ascii.eqb x c)) set).

(** Dropping a prefix, or a suffix, of characters that satisfy [p]. *)
Fixpoint drop_while (p : ascii -> bool) (s : string) : string :=
  match s with
  | String c s' => if p c then drop_while p s' else s
  | EmptyString => EmptyString
  end.

Definition drop_while_end (p : ascii -> bool) (s : string) : string :=
  rev_string (drop_while p (rev_string s)).

(** The longest prefix of characters that satisfy [p], and the rest. *)
Fixpoint span (p : ascii -> bool) (s : string) : string * string :=
  match s with
  | String c s' =>
      if p c then let (a, b) := span p s' in (String c a, b) else (EmptyString, s)
  | EmptyString => (EmptyString, EmptyString)
  end.

(** The part after the last [c] of [s], when [c] occurs. *)
Fixpoint after_last (c : ascii) (s : string) : option string :=
  match s with
  | EmptyString => None
  | String x s' =>
      match after_last c s' with
      | Some r => Some r
      | None => if Ascii.eqb x c then Some s' else None
      end
  end.

(** *** Percent-encoding *)

Definition hex_digit (n : nat) : ascii :=
  if n <? 10 then ascii_of_nat (48 + n) else ascii_of_nat (55 + n).

(** The UTF-8 bytes of a code point of the range. *)
Definition utf8_bytes (c : ascii) : list nat :=
  let n := code c in
  if n <? 128 then [n] else [192 + n / 64; 128 + n mod 64].

Definition percent_byte (n : nat) : string :=
  String "%" (String (hex_digit (n / 16)) (String (hex_digit (n mod 16)) EmptyString)).

Definition percent_encode_char (in_set : ascii -> bool) (c : ascii) : string :=
  if in_set c then String.concat "" (map percent_byte (utf8_bytes c))
  else String c EmptyString.

Fixpoint percent_encode (in_set : ascii -> bool) (s : string) : string :=
  match s with
  | EmptyString => EmptyString
  | String c s' => percent_encode_char in_set c ++ percent_encode in_set s'
  end.

Definition c0_control_set (c : ascii) : bool := (code c <? 32) || (126 <? code c).
Definition query_set (c : ascii) : bool :=
  c0_control_set c || mem_ascii c (String " " (String (ascii_of_nat 34) "#<>")).
Definition path_set (c : ascii) : bool :=
  query_set c || mem_ascii c "?^`{}".

Definition hex_value (c : ascii) : option nat :=
  let n := code c in
  if is_digit c then Some (n - 48)
  else let m := code (upper c) in
       if (65 <=? m) && (m <=? 70) then Some (m - 55) else None.

(** The decoding of the [application/x-www-form-urlencoded] parser: [+] is
    a space and [%XX] is the byte [XX]. *)
Fixpoint form_decode (s : string) : string :=
  match s with
  | EmptyString => EmptyString
  | String c s' =>
      if Ascii.eqb c "+" then String " " (form_decode s')
      else if Ascii.eqb c "%" then
        match s' with
        | String h (String l s'') =>
            match hex_value h, hex_value l with
            | Some a, Some b => String (ascii_of_nat (16 * a + b)) (form_decode s'')
            | _, _ => String c (form_decode s')
            end
        | _ => String c (form_decode s')
        end
      else String c (form_decode s')
  end.

(** The name and the value of one [name=value] sequence. *)
Definition form_pair (seq : string) : string * string :=
  let (n, rest) := span (fun c => negb (Ascii.eqb c "=")) seq in
  (form_decode n, form_decode (substring_from 1 rest)).

(** The [application/x-www-form-urlencoded] parser on a query. *)
Definition form_parse (query : string) : list (string * string) :=
  map form_pair (filter truthy_string (split "&" query)).

(** *** Hosts *)

(** The forbidden domain code points, within ASCII. *)
Definition forbidden_domain (c : ascii) : bool :=
  (code c <=? 32) || (127 <=? code c)
  || mem_ascii c "#/:<>?@[\]^|%".

(** The forbidden host code points: for the host of a scheme that is not
    special. *)
Definition forbidden_host (c : ascii) : bool :=
  mem_ascii c (String (ascii_of_nat 0) (String (ascii_of_nat 9) (String (ascii_of_nat 10)
                 (String (ascii_of_nat 13) " #/:<>?@[\]^|")))).

Definition last_label (host : string) : string :=
  let h := match rev_string host with
           | String "." r => rev_string r
           | _ => host
           end in
  match pop (split "." h) with Some l => l | None => EmptyString end.

(** Whether a host ends in a number: its last label is made of digits, or
    is [0x] followed by hexadecimal digits. *)
Definition ends_in_number (host : string) : bool :=
  let l := last_label host in
  (truthy_string l && forall_string is_digit l)
  || match l with
     | String "0" (String x r) =>
         Ascii.eqb (upper x) "X"
         && forall_string (fun c => match hex_value c with Some _ => true | None => false end) r
     | _ => false
     end.

(** The number that a string of decimal digits denotes. *)
Definition decimal_value (s : string) : N :=
  match NilEmpty.uint_of_string s with
  | Some d => N.of_uint d
  | None => 0%N
  end.

(** A part of an IPv4 address in canonical decimal form: no sign, no
    leading zero, at most 255. *)
Definition canonical_octet (s : string) : bool :=
  truthy_string s && forall_string is_digit s
  && (String.length s <=? 3)
  && match s with
     | String "0" (String _ _) => false
     | _ => true
     end
  && (decimal_value s <=? 255)%N.

(** The host parser for a special scheme. *)
Definition parse_domain (input : string) : option string :=
  let host := map_string lower input in
  if negb (truthy_string host) then None
  else if negb (forall_string (fun c => negb (forbidden_domain c)) host) then None
  else if existsb (fun label => startsWith label "xn--") (split "." host) then None
  else if ends_in_number host
  then if (List.length (split "." host) =? 4) && forallb canonical_octet (split "." host)
       then Some host else None
  else Some host.

(** The opaque-host parser, for the other schemes. *)
Definition parse_opaque_host (input : string) : option string :=
  if negb (forall_string (fun c => negb (forbidden_host c)) input) then None
  else Some (percent_encode c0_control_set input).

(** *** The parser *)

Definition is_special (scheme : string) : bool :=
  existsb (String.eqb scheme) ["ftp"; "file"; "http"; "https"; "ws"; "wss"].

Definition default_port (scheme : string) : option N :=
  if String.eqb scheme "ftp" then Some 21%N
  else if String.eqb scheme "http" || String.eqb scheme "ws" then Some 80%N
  else if String.eqb scheme "https" || String.eqb scheme "wss" then Some 443%N
  else None.

(** A URL record, as far as the getters of [URL] need it. *)
Record Parsed : Type := mkParsed {
  scheme : string;
  host : option string;
  port : option N;
  (** [inl] is an opaque path, [inr] a list of segments *)
  path : string + list string;
  query : option string
}.

(** Scheme start state and scheme state: the scheme in lower case, and what
    follows the colon. *)
Fixpoint scan_scheme (s : string) : option (string * string) :=
  match s with
  | EmptyString => None
  | String c s' =>
      if Ascii.eqb c ":" then Some (EmptyString, s')
      else if is_scheme_char c
      then match scan_scheme s' with
           | Some (a, r) => Some (String (lower c) a, r)
           | None => None
           end
      else None
  end.

Definition parse_scheme (s : string) : option (string * string) :=
  match s with
  | String c _ => if is_alpha c then scan_scheme s else None
  | EmptyString => None
  end.

Definition is_slash (special : bool) (c : ascii) : bool :=
  Ascii.eqb c "/" || (special && Ascii.eqb c "\").

Definition ends_authority (special : bool) (c : ascii) : bool :=
  is_slash special c || Ascii.eqb c "?" || Ascii.eqb c "#".

(** Port state: the digits after the colon. *)
Definition parse_port (scheme digits : string) : option (option N) :=
  if negb (forall_string is_digit digits) then None
  else if negb (truthy_string digits) then Some None
  else
    let v := decimal_value digits in
    if (65535 <? v)%N then None
    else match default_port scheme with
         | Some d => if (d =? v)%N then Some None else Some (Some v)
         | None => Some (Some v)
         end.

(** Authority state, host state and port state: the host, the port and
    what follows the authority. *)
Definition parse_authority (special : bool) (scheme s : string)
  : option (string * option N * string) :=
  let (auth, rest) := span (fun c => negb (ends_authority special c)) s in
  let hostport := match after_last "@" auth with Some r => r | None => auth end in
  if mem_ascii "@" auth && negb (truthy_string hostport) then None
  else
    let (h, p) := span (fun c => negb (Ascii.eqb c ":")) hostport in
    if startsWith h "[" then None
    else if negb (truthy_string h) && (special || truthy_string p) then None
    else
      match (if special then parse_domain h else parse_opaque_host h),
            parse_port scheme (substring_from 1 p) with
      | Some host, Some port => Some (host, port, rest)
      | _, _ => None
      end.

Definition is_single_dot (seg : string) : bool :=
  existsb (String.eqb (map_string lower seg)) ["."; "%2e"].
Definition is_double_dot (seg : string) : bool :=
  existsb (String.eqb (map_string lower seg)) [".."; ".%2e"; "%2e."; "%2e%2e"].

(** Path state, one segment at a time; [acc] is the path so far. *)
Fixpoint path_state (raw : list string) (acc : list string) : list string :=
  match raw with
  | [] => acc
  | seg :: rest =>
      let last := match rest with [] => true | _ => false end in
      let seg := percent_encode path_set seg in
      if is_double_dot seg
      then path_state rest (removelast acc ++ (if last then [EmptyString] else []))%list
      else if is_single_dot seg
      then path_state rest (acc ++ (if last then [EmptyString] else []))%list
      else path_state rest (acc ++ [seg])%list
  end.

(** In a special URL a backslash stands for a slash. *)
Definition unbackslash (c : ascii) : ascii := if Ascii.eqb c "\" then "/"%char else c.

(** The segments of a path given without its leading slash. *)
Definition parse_path (special : bool) (s : string) : list string :=
  let s := if special then map_string unbackslash s else s in
  path_state (split "/" s) [].

(** Path start state after an authority. *)
Definition path_after_authority (special : bool) (s : string) : list string :=
  match s with
  | String c s' => if is_slash special c then parse_path special s' else parse_path special s
  | EmptyString => if special then parse_path special s else []
  end.

Definition not_query_or_fragment (c : ascii) : bool :=
  negb (Ascii.eqb c "?" || Ascii.eqb c "#").

(** Query state: the query, when the rest starts with a question mark. *)
Definition parse_query (s : string) : option string :=
  match s with
  | String "?" q => Some (fst (span (fun c => negb (Ascii.eqb c "#")) q))
  | _ => None
  end.

(** Everything after the scheme. *)
Definition parse_after_scheme (scheme rest : string) : option Parsed :=
  let special := is_special scheme in
  if String.eqb scheme "file" then
    match rest with
    | String a (String b r) =>
        if is_slash true a && is_slash true b
        then
          let (h, r') := span (fun c => negb (ends_authority true c)) r in
          match (if truthy_string h then parse_domain h else Some EmptyString) with
          | Some hst =>
              let (p, tail) := span not_query_or_fragment r' in
              Some (mkParsed scheme
                      (Some (if String.eqb hst "localhost" then EmptyString else hst)) None
                      (inr (path_after_authority true p)) (parse_query tail))
          | None => None
          end
        else
          let (p, tail) := span not_query_or_fragment rest in
          Some (mkParsed scheme (Some EmptyString) None
                  (inr (path_after_authority true p)) (parse_query tail))
    | _ =>
        let (p, tail) := span not_query_or_fragment rest in
        Some (mkParsed scheme (Some EmptyString) None
                (inr (path_after_authority true p)) (parse_query tail))
    end
  else if special then
    match parse_authority true scheme (drop_while (is_slash true) rest) with
    | Some (hst, prt, r) =>
        let (p, tail) := span not_query_or_fragment r in
        Some (mkParsed scheme (Some hst) prt (inr (path_after_authority true p)) (parse_query tail))
    | None => None
    end
  else
    match rest with
    | String "/" (String "/" r) =>
        match parse_authority false scheme r with
        | Some (hst, prt, r') =>
            let (p, tail) := span not_query_or_fragment r' in
            Some (mkParsed scheme (Some hst) prt
                    (inr (path_after_authority false p)) (parse_query tail))
        | None => None
        end
    | String "/" r =>
        let (p, tail) := span not_query_or_fragment r in
        Some (mkParsed scheme None None (inr (parse_path false p)) (parse_query tail))
    | _ =>
        let (p, tail) := span not_query_or_fragment rest in
        Some (mkParsed scheme None None (inl (percent_encode c0_control_set p)) (parse_query tail))
    end.

(** The basic URL parser without a base URL. *)
Definition basic_parse (input : string) : option Parsed :=
  let s := drop_while_end is_c0_or_space (drop_while is_c0_or_space input) in
  let s := filter_string (fun c => negb (is_tab_or_newline c)) s in
  match parse_scheme s with
  | Some (scheme, rest) => parse_after_scheme scheme rest
  | None => None
  end.

(** The getters. *)

Definition string_of_N (n : N) : string := NilZero.string_of_uint (N.to_uint n).

Definition get_hostname (p : Parsed) : string :=
  match host p with Some h => h | None => EmptyString end.

(** The URL path serializer on a list of segments. *)
Definition pathname_of (segs : list string) : string :=
  String.concat "" (map (fun seg => "/" ++ seg) segs).

Definition get_pathname (p : Parsed) : string :=
  match path p with
  | inl opaque => opaque
  | inr segments => pathname_of segments
  end.

Definition port_string (prt : option N) : string :=
  match prt with Some n => ":" ++ string_of_N n | None => "" end.

Definition tuple_origin (p : Parsed) : string :=
  scheme p ++ "://" ++ get_hostname p ++ port_string (port p).

(** The schemes whose origin is a tuple of scheme, host and port. *)
Definition tuple_scheme (sch : string) : bool :=
  existsb (String.eqb sch) ["ftp"; "http"; "https"; "ws"; "wss"].

(** The serialization of the origin: a tuple for [http], [https], [ftp],
    [ws] and [wss], the origin of the inner URL for a [blob:] URL over
    [http] or [https], and ["null"] (an opaque origin) otherwise. *)
Definition get_origin (p : Parsed) : string :=
  if tuple_scheme (scheme p)
  then tuple_origin p
  else if String.eqb (scheme p) "blob"
  then match basic_parse (get_pathname p) with
       | Some q => if existsb (String.eqb (scheme q)) ["http"; "https"]
                   then tuple_origin q else "null"
       | None => "null"
       end
  else "null".

Definition get_searchParams (p : Parsed) : list (string * string) :=
  match query p with
  | Some q => form_parse q
  | None => []
  end.

(** [new URL(input)] *)
Definition parse (input : string) : option URL :=
  match basic_parse input with
  | Some p => Some (mkURL (get_origin p) (get_hostname p) (get_pathname p) (get_searchParams p))
  | None => None
  end.

(** *** What the parser produces

    The characters of a parsed host, of a parsed path segment and of a
    parsed path, and the characters that neither [sanitizeBaseUrl] nor the
    preprocessing of the parser removes. *)

Definition host_char (c : ascii) : bool := negb (forbidden_domain c).
Definition segment_char (c : ascii) : bool :=
  negb (path_set c) && negb (Ascii.eqb c "/") && negb (Ascii.eqb c "\").
Definition path_char (c : ascii) : bool :=
  negb (path_set c) && negb (Ascii.eqb c "\").
Definition solid (c : ascii) : bool :=
  negb (is_c0_or_space c) && negb (is_tab_or_newline c) && negb (isWhiteSpace c)
  && negb (Ascii.eqb c "?") && negb (Ascii.eqb c "#").

(** A segment as the path state leaves it: encoded, and not a dot
    segment. *)
Definition plain_segment (seg : string) : bool :=
  forall_string segment_char seg && negb (is_single_dot seg) && negb (is_double_dot seg).

(** A string without slash or backslash. *)
Definition slashless (s : string) : bool :=
  forall_string (fun c => negb (Ascii.eqb c "/") && negb (Ascii.eqb c "\")) s.

(** What may follow an authority in a serialized URL: nothing, or a path. *)
Definition starts_path (t : string) : Prop :=
  match t with String c _ => c = "/"%char | EmptyString => True end.

(** *** [JSON.parse]

    A parser of JSON texts into [value].  A number with a fraction or an
    exponent and a [\u] escape above [00FF] have no counterpart in [value]
    and are reported as failures.  The recursion is bounded by the length of
    the text. *)

Definition dquote : ascii := ascii_of_nat 34.

Definition is_json_ws (c : ascii) : bool :=
  (code c =? 32) || (code c =? 9) || (code c =? 10) || (code c =? 13).

Definition skip_ws (s : string) : string := drop_while is_json_ws s.

Definition hex4 (a b c d : ascii) : option nat :=
  match hex_value a, hex_value b, hex_value c, hex_value d with
  | Some x, Some y, Some z, Some w => Some (((x * 16 + y) * 16 + z) * 16 + w)
  | _, _, _, _ => None
  end.

Definition escape (c : ascii) : option ascii :=
  if Ascii.eqb c dquote then Some dquote
  else if Ascii.eqb c "\" then Some "\"%char
  else if Ascii.eqb c "/" then Some "/"%char
  else if Ascii.eqb c "b" then Some (ascii_of_nat 8)
  else if Ascii.eqb c "f" then Some (ascii_of_nat 12)
  else if Ascii.eqb c "n" then Some (ascii_of_nat 10)
  else if Ascii.eqb c "r" then Some (ascii_of_nat 13)
  else if Ascii.eqb c "t" then Some (ascii_of_nat 9)
  else None.

(** A string after its opening quote: its content and what follows the
    closing quote. *)
Fixpoint json_string (s : string) : option (string * string) :=
  match s with
  | EmptyString => None
  | String c s' =>
      if Ascii.eqb c dquote then Some (EmptyString, s')
      else if Ascii.eqb c "\" then
        match s' with
        | String "u" (String h1 (String h2 (String h3 (String h4 s'')))) =>
            match hex4 h1 h2 h3 h4, json_string s'' with
            | Some n, Some (str, r) =>
                if n <? 256 then Some (String (ascii_of_nat n) str, r) else None
            | _, _ => None
            end
        | String e s'' =>
            match escape e, json_string s'' with
            | Some x, Some (str, r) => Some (String x str, r)
            | _, _ => None
            end
        | EmptyString => None
        end
      else if code c <? 32 then None
      else match json_string s' with
           | Some (str, r) => Some (String c str, r)
           | None => None
           end
  end.

(** An integer (an optional minus sign, then a zero or digits that do not
    start with a zero), not followed by a fraction or an exponent. *)
Definition json_number (s : string) : option (value * string) :=
  let (neg, s1) := match s with String "-" r => (true, r) | _ => (false, s) end in
  let (digits, rest) := span is_digit s1 in
  let (digits, rest) := match digits with
                        | String "0" (String d ds) => ("0", String d ds ++ rest)
                        | _ => (digits, rest)
                        end in
  if negb (truthy_string digits) then None
  else match rest with
       | String c _ =>
           if mem_ascii c ".eE" then None
           else Some (VNum (if neg then - Z.of_N (decimal_value digits)
                            else Z.of_N (decimal_value digits)), rest)
       | EmptyString =>
           Some (VNum (if neg then - Z.of_N (decimal_value digits)
                       else Z.of_N (decimal_value digits)), rest)
       end.

(** A property set on an object: a repeated name keeps its place and takes
    the later value. *)
Fixpoint set_prop (k : string) (v : value) (props : list (string * value))
  : list (string * value) :=
  match props with
  | [] => [(k, v)]
  | (k', v') :: rest =>
      if String.eqb k' k then (k', v) :: rest else (k', v') :: set_prop k v rest
  end.

Fixpoint json_value (fuel : nat) (s : string) : option (value * string) :=
  match fuel with
  | O => None
  | S fuel' =>
      match skip_ws s with
      | EmptyString => None
      | String c r =>
          if Ascii.eqb c dquote then
            match json_string r with
            | Some (str, r') => Some (VStr str, r')
            | None => None
            end
          else if Ascii.eqb c "[" then
            match skip_ws r with
            | String "]" r' => Some (VArr [], r')
            | _ => json_items fuel' r []
            end
          else if Ascii.eqb c "{" then
            match skip_ws r with
            | String "}" r' => Some (VObj [], r')
            | _ => json_members fuel' r []
            end
          else if startsWith (String c r) "null" then Some (VNull, substring_from 4 (String c r))
          else if startsWith (String c r) "true" then Some (VBool true, substring_from 4 (String c r))
          else if startsWith (String c r) "false" then Some (VBool false, substring_from 5 (String c r))
          else json_number (String c r)
      end
  end
with json_items (fuel : nat) (s : string) (acc : list value) : option (value * string) :=
  match fuel with
  | O => None
  | S fuel' =>
      match json_value fuel' s with
      | Some (v, r) =>
          match skip_ws r with
          | String "," r' => json_items fuel' r' (acc ++ [v])%list
          | String "]" r' => Some (VArr (acc ++ [v])%list, r')
          | _ => None
          end
      | None => None
      end
  end
with json_members (fuel : nat) (s : string) (acc : list (string * value))
  : option (value * string) :=
  match fuel with
  | O => None
  | S fuel' =>
      match skip_ws s with
      | String c r =>
          if Ascii.eqb c dquote then
            match json_string r with
            | Some (k, r1) =>
                match skip_ws r1 with
                | String ":" r2 =>
                    match json_value fuel' r2 with
                    | Some (v, r3) =>
                        match skip_ws r3 with
                        | String "," r4 => json_members fuel' r4 (set_prop k v acc)
                        | String "}" r4 => Some (VObj (set_prop k v acc), r4)
                        | _ => None
                        end
                    | None => None
                    end
                | _ => None
                end
            | None => None
            end
          else None
      | EmptyString => None
      end
  end.

Definition json_parse (t : string) : option value :=
  match json_value (2 * String.length t + 2) t with
  | Some (v, r) => if truthy_string (skip_ws r) then None else Some v
  | None => None
  end.

(** A JSON string literal of a text without quotes or backslashes. *)
Definition quoted (s : string) : string :=
  String dquote s ++ String dquote EmptyString.

(** *** The instance

    The [TypeError] messages are those of Firefox, without their quotation
    marks.  The locale files are not among the sources: a message is
    rendered by its key. *)

Definition browser : Browser := {|
  URL_parse := parse;
  URL_TypeError := fun s => mkExn "TypeError" ("URL constructor: " ++ s ++ " is not a valid URL.");
  property_TypeError := fun v k =>
    mkExn "TypeError" ("can't access property " ++ k ++ " of " ++ ToString v);
  JSON_parse := json_parse;
  i18n_getMessage := fun key => "__MSG_" ++ key ++ "__"
|}.

(** Worlds to run the code in. *)

(** A network that is down: [fetch] rejects. *)
Definition offline : string -> list (string * string) -> exn + Response :=
  fun _ _ => inl (mkExn "TypeError" "NetworkError when attempting to fetch resource.").

(** A server that answers every request with one status and body. *)
Definition answers (status : nat) (body : string)
  : string -> list (string * string) -> exn + Response :=
  fun _ _ => inr (mkResponse status (Some body)).

(** The settings as stored, every host permission granted or none, and a
    network. *)
Definition world (yourlsUrl apiSignature : string) (granted : bool)
    (net : string -> list (string * string) -> exn + Response) : World :=
  mkWorld yourlsUrl apiSignature (VBool true) (fun _ => granted) net.

(** A message of the popup. *)
Definition message (type : string) (fields : list (string * value)) : value :=
  VObj (("type", VStr type) :: fields).

End Reference.


(* ================================================================== *)
(** * The specification's vocabulary *)
(* ================================================================== *)

(** What the specification says of the operations, in its own terms, to be
    compared with the code. *)

Module Spec.

(** A string without its trailing slashes. *)
Fixpoint without_trailing_slashes (s : string) : string :=
  match s with
  | EmptyString => EmptyString
  | String c s' =>
      match without_trailing_slashes s' with
      | EmptyString => if Ascii.eqb c "/" then EmptyString else String c EmptyString
      | t => String c t
      end
  end.

(** [w] starts [s], up to the case of ASCII letters. *)
Fixpoint prefix_ci (w s : string) : bool :=
  match w, s with
  | EmptyString, _ => true
  | String a w', String b s' => Ascii.eqb (upper b) (upper a) && prefix_ci w' s'
  | String _ _, EmptyString => false
  end.

(** A case-insensitive substring match: [w] occurs in [s]. *)
Fixpoint includes_ci (w s : string) : bool :=
  prefix_ci w s
  || match s with
     | EmptyString => false
     | String _ s' => includes_ci w s'
     end.

Definition is_slash_char (c : ascii) : bool := Ascii.eqb c "/".

(** A character that is not white space. *)
Definition nonspace (c : ascii) : bool := negb (isWhiteSpace c).

(** A setting as [sanitizeBaseUrl] parses it: trimmed, without any white
    space and without trailing slashes. *)
Definition cleaned (raw : string) : string :=
  without_trailing_slashes (filter_string nonspace (trim raw)).

(** The last non-empty segment of a path, the empty string when it has
    none. *)
Definition last_nonempty_segment (pathname : string) : string :=
  last (filter truthy_string (split "/" pathname)) EmptyString.

(** The ordered extraction strategies of the short URL of a response:
    [json.shorturl], [json.url.shorturl], [json.link.shorturl], then
    [base + "/" + json.keyword]; the first that gives a truthy value wins. *)
Definition strategies (json : value) (base : string) : list value :=
  [ prop json "shorturl";
    opt_prop (prop json "url") "shorturl";
    opt_prop (prop json "link") "shorturl";
    if truthy (prop json "keyword")
    then VStr (base ++ "/" ++ ToString (prop json "keyword"))
    else VUndefined ].

Definition first_truthy (l : list value) : value :=
  match find truthy l with
  | Some v => v
  | None => VNull
  end.

(** Whether a pattern of the table matches a URL: on its host name prefix
    and its path prefix. *)
Definition pattern_matches (u : URL) (p : Pattern) : bool :=
  startsWith (hostname u) (host_prefix p) && startsWith (pathname u) (Background.path p).

(** A value without the optional prefix of a pattern. *)
Definition strip_prefix (p : Pattern) (v : string) : string :=
  match prefix_to_strip p with
  | Some pre => if truthy_string pre && startsWith v pre
                then substring_from (String.length pre) v else v
  | None => v
  end.

(** ** Vocabulary of the further properties *)

Definition is_notification (ev : event) : bool :=
  match ev with Notification _ _ => true | _ => false end.

(** A field of a form, when it is present. *)
Definition field (present : bool) (name : string) (v : value) : list (string * string) :=
  if present then [(name, ToString v)] else [].

(** Equality up to the case of ASCII letters. *)
Definition eq_ci (x y : string) : bool :=
  String.eqb (map_string upper x) (map_string upper y).

(** A text without a line break. *)
Definition same_line (s : string) : bool :=
  forall_string (fun c => negb (isLineTerminator c)) s.

(** [b] occurs in [s] after characters of the same line only, up to the
    case of ASCII letters. *)
Fixpoint on_line_ci (b s : string) : bool :=
  prefix_ci b s
  || match s with
     | EmptyString => false
     | String c s' => negb (isLineTerminator c) && on_line_ci b s'
     end.

(** [a] occurs in [s] and [b] occurs after it, on the same line. *)
Fixpoint then_on_line_ci (a b s : string) : bool :=
  (prefix_ci a s && on_line_ci b (substring_from (String.length a) s))
  || match s with
     | EmptyString => false
     | String _ s' => then_on_line_ci a b s'
     end.

(** What follows the prefix [p] in [s], when [s] starts with [p]. *)
Fixpoint after_prefix (p s : string) : option string :=
  match p, s with
  | EmptyString, _ => Some s
  | String a p', String b s' => if Ascii.eqb b a then after_prefix p' s' else None
  | String _ _, EmptyString => None
  end.

(** The characters of [s] up to its first white space, and the rest. *)
Fixpoint until_space (s : string) : string :=
  match s with
  | String c s' => if isWhiteSpace c then EmptyString else String c (until_space s')
  | EmptyString => EmptyString
  end.

Fixpoint from_space (s : string) : string :=
  match s with
  | String c s' => if isWhiteSpace c then s else from_space s'
  | EmptyString => EmptyString
  end.

(** The URL that starts [s]: [https://] or [http://], in lower case, and
    the characters up to the next white space, of which there is one at
    least. *)
Definition url_at (s : string) : option string :=
  match
    match after_prefix "https://" s with
    | Some r => Some ("https://", r)
    | None =>
        match after_prefix "http://" s with
        | Some r => Some ("http://", r)
        | None => None
        end
    end
  with
  | Some (scheme, r) =>
      match until_space r with
      | EmptyString => None
      | token => Some (scheme ++ token)
      end
  | None => None
  end.

(** The first URL of a text, from the left. *)
Fixpoint find_url (s : string) : option string :=
  match url_at s with
  | Some u => Some u
  | None =>
      match s with
      | EmptyString => None
      | String _ s' => find_url s'
      end
  end.

(** The characters of a YOURLS keyword: letters, digits, [-] and [_]. *)
Definition keyword_char (c : ascii) : bool :=
  Reference.is_alpha c || Reference.is_digit c || Ascii.eqb c "-" || Ascii.eqb c "_".

Definition keyword_like (k : string) : bool :=
  truthy_string k && forall_string keyword_char k.


(** [encodeURIComponent] on ASCII text: letters, digits and [-_.!~*'()]
    stay, every other character becomes [%XX]. *)
Definition uri_unreserved (c : ascii) : bool :=
  Reference.is_alpha c || Reference.is_digit c || Reference.mem_ascii c "-_.!~*'()".

Definition encodeURIComponent (s : string) : string :=
  Reference.percent_encode (fun c => negb (uri_unreserved c)) s.

Definition is_ascii (c : ascii) : bool := code c <? 128.

(** The characters of an encoded component. *)
Definition component_char (c : ascii) : bool := uri_unreserved c || Ascii.eqb c "%".

(** The characters that the preprocessing of the URL parser keeps. *)
Definition clean_char (c : ascii) : bool :=
  negb (Reference.is_c0_or_space c) && negb (Reference.is_tab_or_newline c).

(** The replies of the listener: a failure with its reason, or an object
    whose [ok] is [true]. *)
Definition reply_shape (reply : value) : Prop :=
  (exists reason, reply = failure reason)
  \/ (exists fields, reply = VObj (("ok", VBool true) :: fields)).

Section WithBrowser.
Context {B : Browser}.

(** A call of the API client that gets an HTTP response: the base URL is a
    URL, the host permission of its origin is granted, and the request for
    the payload is answered by [res]. *)
Definition answered (w : World) (base : string) (payload : list (string * value))
    (res : Response) : Prop :=
  exists u, URL_parse base = Some u
            /\ permissions_contains w (origin u ++ "/*") = true
            /\ fetch w (base ++ "/yourls-api.php") (toFormData payload) = inr res.

(** The Redirect Cleaner as the specification words it: the first pattern
    that matches decides; its query parameter, when present, is returned
    without the prefix; otherwise the input is returned. *)
Definition cleanLink_spec (link : string) : string :=
  match URL_parse link with
  | None => link
  | Some u =>
      match find (pattern_matches u) REDIRECT_PATTERNS with
      | None => link
      | Some p =>
          match searchParams_get (param p) (searchParams u) with
          | Some v => strip_prefix p v
          | None => link
          end
      end
  end.

(** The same, with an empty parameter counted as an absent one. *)
Definition cleanLink_first_match (link : string) : string :=
  match URL_parse link with
  | None => link
  | Some u =>
      match find (pattern_matches u) REDIRECT_PATTERNS with
      | None => link
      | Some p =>
          match searchParams_get (param p) (searchParams u) with
          | Some v => if truthy_string v then strip_prefix p v else link
          | None => link
          end
      end
  end.

(** The Keyword Resolver as the specification words it, on the candidate
    [s] itself. *)
Definition extractKeyword_spec (base s : string) : string :=
  match s with
  | EmptyString => EmptyString
  | _ =>
      match URL_parse s with
      | None => s
      | Some u =>
          match URL_parse base with
          | Some b => if String.eqb (origin u) (origin b)
                      then last_nonempty_segment (pathname u) else s
          | None => s
          end
      end
  end.


(** ** The calls of an operation *)

(** The calls of an operation that may show the messages [keys]: the read
    of the settings; then, when the client is reached with a base URL that
    parses, the permission query; then, when the permission is granted, the
    request; then at most one notification. *)
Definition operation_calls (w : World) (payload : list (string * value))
    (keys : list string) (tr : trace) : Prop :=
  let base := sanitizeBaseUrl (storage_yourlsUrl w) in
  tr = [StorageGet]
  \/ exists u,
       URL_parse base = Some u
       /\ let pattern := origin u ++ "/*" in
          (permissions_contains w pattern = false
           /\ tr = [StorageGet; PermissionsContains pattern])
          \/ (permissions_contains w pattern = true
              /\ exists notes,
                   tr = ([StorageGet; PermissionsContains pattern;
                          Fetch (base ++ "/yourls-api.php") (toFormData payload)] ++ notes)%list
                   /\ (notes = []
                       \/ exists key,
                            In key keys
                            /\ notes = [Notification (i18n_getMessage "extensionName")
                                          (i18n_getMessage key)])).

(** An operation's calls, and a notification only with a reply that is ok. *)
Definition operation_run (w : World) (payload : list (string * value))
    (keys : list string) (r : outcome value * trace) : Prop :=
  operation_calls w payload keys (snd r)
  /\ (existsb is_notification (snd r) = true ->
      exists reply, fst r = Ret reply /\ prop reply "ok" = VBool true).

(** What follows the client in an operation: no call, or one notification
    with a reply that is ok. *)
Definition quiet_or_success (keys : list string)
    (post : Response * string * value -> M value) : Prop :=
  forall r t,
    (exists o, post r t = (o, t))
    \/ (exists reply key,
          In key keys
          /\ post r t = (Ret reply, (t ++ [Notification (i18n_getMessage "extensionName")
                                            (i18n_getMessage key)])%list)
          /\ prop reply "ok" = VBool true).

(** What the listener makes of the outcome of the dispatch. *)
Definition caught (r : outcome value * trace) : outcome value * trace :=
  match r with
  | (Ret reply, tr) => (Ret reply, tr)
  | (Throw e, tr) => (Ret (failure (reason_of e)), tr)
  end.

(** The operation of a message type, with its request and the messages it
    may show. *)
Definition operation_of (w : World) (msg : value) (type : string)
  : option (M value * list (string * value) * list string) :=
  let base := sanitizeBaseUrl (storage_yourlsUrl w) in
  let signature := storage_apiSignature w in
  if String.eqb type "CHECK_CONNECTION"
  then Some (apiCheck w, stats_payload signature, [])
  else if String.eqb type "SHORTEN_URL"
  then Some (apiShorten w (prop msg "longUrl")
               (or_else (prop msg "keyword") (VStr "")) (or_else (prop msg "title") (VStr "")),
             shorten_payload signature (prop msg "longUrl")
               (or_else (prop msg "keyword") (VStr "")) (or_else (prop msg "title") (VStr "")),
             ["toastUrlExists"; "toastUrlCreated"])
  else if String.eqb type "GET_STATS"
  then Some (data <- apiStats w (prop msg "shortUrl") ;;
             ret (VObj [("ok", VBool true); ("data", data)]),
             url_stats_payload signature (extractKeyword base (prop msg "shortUrl")), [])
  else if String.eqb type "DELETE_SHORTURL"
  then Some (apiDelete w (prop msg "shortUrl"),
             delete_payload signature (extractKeyword base (prop msg "shortUrl")),
             ["toastUrlDeleted"])
  else if String.eqb type "GET_DB_STATS"
  then Some (data <- apiDbStats w ;; ret (VObj [("ok", VBool true); ("data", data)]),
             stats_payload signature, [])
  else None.
End WithBrowser.
End Spec.

Import Spec.

(* ================================================================== *)
(** * Facts about strings and patterns *)
(* ================================================================== *)

Section StringFacts.

Lemma append_empty_r (s : string) : s ++ "" = s.
Proof. induction s; simpl; congruence. Qed.

Lemma append_assoc (a b c : string) : (a ++ b) ++ c = a ++ b ++ c.
Proof. induction a; simpl; congruence. Qed.

Lemma length_append (a b : string) :
  String.length (a ++ b) = String.length a + String.length b.
Proof. induction a; simpl; congruence. Qed.

Lemma length_slice0 (n : nat) (s : string) :
  String.length (slice0 n s) = Nat.min n (String.length s).
Proof.
  revert s; induction n as [|n IH]; intros [|c s]; simpl; auto.
Qed.

Lemma truthy_append_cons (a : string) (c : ascii) (b : string) :
  truthy_string (a ++ String c b) = true.
Proof. destruct a; reflexivity. Qed.

Lemma truthy_string_length (s : string) :
  truthy_string s = true <-> 0 < String.length s.
Proof. destruct s; simpl; split; intros; try lia; try discriminate; auto. Qed.

End StringFacts.

(** ** The matcher *)

Section MatcherFacts.

Lemma repeat_greedy_inv {X} (p : ascii -> bool) (s : string) (k : string -> option X) (x : X) :
  repeat_greedy p s k = Some x ->
  exists rest, k rest = Some x /\ String.length rest <= String.length s.
Proof.
  induction s as [|c s IH]; simpl; intros H.
  - exists ""; auto.
  - destruct (p c).
    + destruct (repeat_greedy p s k) eqn:E.
      * inversion H; subst. destruct (IH eq_refl) as (rest & Hk & Hl).
        exists rest; split; auto.
      * exists (String c s); auto.
    + exists (String c s); auto.
Qed.

(** A successful match ends in a call of the continuation, on a suffix
    that is shorter by at least [min_length], with a capture that is not
    empty. *)
Lemma exec_inv {X} (i : bool) (r : regex) :
  forall (s : string) (cap : option string) (k : string -> option string -> option X) (x : X),
    exec i r s cap k = Some x ->
    exists rest cap',
      k rest cap' = Some x
      /\ String.length rest + min_length r <= String.length s
      /\ (groups_consume r -> nonempty_capture cap -> nonempty_capture cap').
Proof.
  induction r as [ | a | a | a | a | r1 IH1 r2 IH2 | r1 IH1 | ]; simpl; intros s cap k x H.
  - exists s, cap; repeat split; auto; lia.
  - destruct s as [|c s]; [discriminate|].
    destruct (atom_match i a c); [|discriminate].
    exists s, cap; simpl; repeat split; auto; lia.
  - destruct s as [|c s]; [discriminate|].
    destruct (atom_match i a c); [|discriminate].
    apply repeat_greedy_inv in H. destruct H as (rest & Hk & Hl).
    exists rest, cap; simpl; repeat split; auto; lia.
  - apply repeat_greedy_inv in H. destruct H as (rest & Hk & Hl).
    exists rest, cap; repeat split; auto; lia.
  - destruct s as [|c s].
    + exists "", cap; repeat split; auto.
    + destruct (atom_match i a c).
      * destruct (k s cap) eqn:E.
        -- inversion H; subst. exists s, cap; simpl; repeat split; auto; lia.
        -- exists (String c s), cap; repeat split; auto; lia.
      * exists (String c s), cap; repeat split; auto; lia.
  - apply IH1 in H. destruct H as (s1 & cap1 & H & Hl1 & Hc1).
    apply IH2 in H. destruct H as (s2 & cap2 & H & Hl2 & Hc2).
    exists s2, cap2; split; [auto|split; [lia|]].
    intros [G1 G2] Hcap; auto.
  - apply IH1 in H. destruct H as (s1 & cap1 & H & Hl1 & Hc1).
    exists s1, (Some (consumed s s1)); split; [auto|split; [lia|]].
    intros [G1 G2] _. simpl. apply truthy_string_length.
    unfold consumed. rewrite length_slice0. lia.
  - destruct s; [|discriminate]. exists "", cap; repeat split; auto.
Qed.

(** The capture of a match found by [search] is not empty. *)
Lemma search_capture (i : bool) (r : regex) (s : string) (m : found) :
  groups_consume r -> search i r s = Some m -> nonempty_capture (capture m).
Proof.
  intros G; revert m; induction s as [|c s IH]; simpl; intros m.
  - unfold match_here. destruct (exec i r "" None _) eqn:E; [|discriminate].
    intros H; inversion H; subst.
    apply exec_inv in E. destruct E as (rest & cap' & Hk & _ & Hc).
    inversion Hk; subst; simpl. apply Hc; simpl; auto.
  - unfold match_here. destruct (exec i r (String c s) None _) eqn:E.
    + intros H; inversion H; subst.
      apply exec_inv in E. destruct E as (rest & cap' & Hk & _ & Hc).
      inversion Hk; subst; simpl. apply Hc; simpl; auto.
    + destruct (search i r s) as [m'|]; [|discriminate].
      intros H; inversion H; subst; simpl. apply IH; reflexivity.
Qed.

Lemma match1_nonempty (i : bool) (r : regex) (s u : string) :
  groups_consume r -> match1 i r s = Some u -> truthy_string u = true.
Proof.
  unfold match1. intros G. destruct (search i r s) as [m|] eqn:E; [|discriminate].
  intros H. pose proof (search_capture i r s m G E) as N. rewrite H in N. exact N.
Qed.

End MatcherFacts.

(** ** Literal words: [/already exists/i] is a substring test *)

Section WordFacts.

Lemma exec_word {X} (w : string) :
  forall (s : string) (cap : option string) (k : string -> option string -> option X),
    exec true (word w) s cap k
    = if prefix_ci w s then k (substring_from (String.length w) s) cap else None.
Proof.
  induction w as [|a w IH]; intros s cap k; simpl.
  - reflexivity.
  - destruct s as [|b s]; simpl; [reflexivity|].
    destruct (Ascii.eqb (upper b) (upper a)); simpl; [apply IH | reflexivity].
Qed.

Lemma test_word (w s : string) : test true (word w) s = includes_ci w s.
Proof.
  unfold test. induction s as [|c s IH]; simpl.
  - unfold match_here. rewrite exec_word. destruct (prefix_ci w ""); reflexivity.
  - unfold match_here. rewrite exec_word.
    destruct (prefix_ci w (String c s)); simpl; [reflexivity|].
    rewrite <- IH. destruct (search true (word w) s); reflexivity.
Qed.

End WordFacts.

(** ** [/\/+$/]: removing the trailing slashes *)

Section TrailingSlashes.

Lemma repeat_slashes_eos {X} (k : string -> option X) (x : X) (s : string) :
  k "" = Some x ->
  (forall c rest, k (String c rest) = None) ->
  repeat_greedy (atom_match false (Chr "/")) s k
  = if forall_string is_slash_char s then Some x else None.
Proof.
  intros K0 K1. induction s as [|c s IH]; simpl; [exact K0|].
  unfold is_slash_char at 1. destruct (Ascii.eqb c "/"); simpl; [|apply K1].
  rewrite IH. destruct (forall_string is_slash_char s); [reflexivity | apply K1].
Qed.

Lemma match_here_trailing (s : string) :
  match_here false re_trailing_slashes s
  = if truthy_string s && forall_string is_slash_char s
    then Some (mkFound "" "" None) else None.
Proof.
  unfold match_here, re_trailing_slashes. destruct s as [|c s]; simpl; [reflexivity|].
  unfold is_slash_char at 1. destruct (Ascii.eqb c "/"); simpl; [|reflexivity].
  apply repeat_slashes_eos; reflexivity.
Qed.

Lemma without_trailing_slashes_all (s : string) :
  forall_string is_slash_char s = true -> without_trailing_slashes s = "".
Proof.
  induction s as [|c s IH]; simpl; [reflexivity|].
  unfold is_slash_char at 1. intros H. apply andb_prop in H. destruct H as [Hc Hs].
  rewrite (IH Hs), Hc. reflexivity.
Qed.

Lemma without_trailing_slashes_cons (c : ascii) (s : string) :
  forall_string is_slash_char (String c s) = false ->
  without_trailing_slashes (String c s) = String c (without_trailing_slashes s).
Proof.
  simpl. unfold is_slash_char at 1. intros H.
  destruct (without_trailing_slashes s) eqn:E; [|reflexivity].
  destruct (Ascii.eqb c "/"); simpl in H; [|reflexivity].
  assert (forall_string is_slash_char s = true) as A.
  { clear H. revert E. induction s as [|d s IH]; simpl; [reflexivity|].
    destruct (without_trailing_slashes s); [|discriminate].
    unfold is_slash_char at 1. destruct (Ascii.eqb d "/"); [|discriminate].
    intros _. simpl. apply IH. reflexivity. }
  congruence.
Qed.

Lemma search_trailing (s : string) :
  search false re_trailing_slashes s
  = if negb (String.eqb (without_trailing_slashes s) s)
    then Some (mkFound (without_trailing_slashes s) "" None) else None.
Proof.
  induction s as [|c s IH].
  - reflexivity.
  - cbn [search]. rewrite match_here_trailing. cbn [truthy_string andb].
    destruct (forall_string is_slash_char (String c s)) eqn:A.
    + rewrite (without_trailing_slashes_all _ A). reflexivity.
    + rewrite (without_trailing_slashes_cons _ _ A). rewrite IH.
      cbn [String.eqb]. rewrite Ascii.eqb_refl.
      destruct (negb (without_trailing_slashes s =? s)%string); reflexivity.
Qed.

(** [s.replace(/\/+$/, "")] is [s] without its trailing slashes. *)
Lemma replace_trailing_slashes (s : string) :
  replace_first false re_trailing_slashes s = without_trailing_slashes s.
Proof.
  unfold replace_first. rewrite search_trailing.
  destruct (String.eqb (without_trailing_slashes s) s) eqn:E; simpl.
  - apply String.eqb_eq in E. congruence.
  - apply append_empty_r.
Qed.

Lemma without_trailing_slashes_idem (s : string) :
  without_trailing_slashes (without_trailing_slashes s) = without_trailing_slashes s.
Proof.
  induction s as [|c s IH]; simpl; [reflexivity|].
  destruct (without_trailing_slashes s) as [|d t] eqn:E.
  - destruct (Ascii.eqb c "/") eqn:Ec; simpl; [reflexivity|]. rewrite Ec. reflexivity.
  - cbn [without_trailing_slashes] in *. rewrite IH. reflexivity.
Qed.

End TrailingSlashes.

(** ** [/\s+/g]: removing the white space *)

Section WhiteSpace.

Lemma repeat_greedy_total {X} (p : ascii -> bool) (f : string -> X) (s : string) :
  repeat_greedy p s (fun rest => Some (f rest))
  = Some (f ((fix drop (s : string) : string :=
                match s with
                | String c s' => if p c then drop s' else s
                | EmptyString => EmptyString
                end) s)).
Proof.
  induction s as [|c s IH]; simpl; [reflexivity|].
  destruct (p c); [|reflexivity]. rewrite IH. reflexivity.
Qed.

Lemma match_here_spaces (s : string) :
  match_here false re_spaces s
  = match s with
    | String c s' =>
        if isWhiteSpace c then Some (mkFound "" (trimStart s') None) else None
    | EmptyString => None
    end.
Proof.
  unfold match_here, re_spaces. destruct s as [|c s]; simpl; [reflexivity|].
  destruct (isWhiteSpace c); [|reflexivity].
  apply (repeat_greedy_total isWhiteSpace (fun rest => mkFound "" rest None)).
Qed.

Lemma length_trimStart (s : string) : String.length (trimStart s) <= String.length s.
Proof.
  induction s as [|c s IH]; simpl; [lia|]. destruct (isWhiteSpace c); simpl; lia.
Qed.

Lemma filter_trimStart (s : string) :
  filter_string nonspace (trimStart s) = filter_string nonspace s.
Proof.
  induction s as [|c s IH]; [reflexivity|].
  cbn [trimStart]. destruct (isWhiteSpace c) eqn:W; [|reflexivity].
  rewrite IH. cbn [filter_string]. unfold nonspace at 2. rewrite W. reflexivity.
Qed.

(** What [search] finds: nothing in a string without white space, and
    otherwise a match that leaves a shorter rest and removes white space
    only. *)
Lemma search_spaces (s : string) :
  match search false re_spaces s with
  | None => filter_string nonspace s = s
  | Some m =>
      String.length (after m) + String.length (before m) < String.length s
      /\ filter_string nonspace s = before m ++ filter_string nonspace (after m)
  end.
Proof.
  induction s as [|c s IH]; [reflexivity|].
  cbn [search]. rewrite match_here_spaces.
  destruct (isWhiteSpace c) eqn:W.
  - cbn. unfold nonspace at 1. rewrite W. cbn.
    split; [pose proof (length_trimStart s); lia | symmetry; apply filter_trimStart].
  - destruct (search false re_spaces s) as [m|].
    + destruct IH as (L & F). cbn. unfold nonspace at 1. rewrite W. cbn.
      split; [lia | congruence].
    + cbn. unfold nonspace at 1. rewrite W. cbn. congruence.
Qed.

Lemma replace_all_from_spaces (fuel : nat) (s : string) :
  String.length s < fuel ->
  replace_all_from fuel false re_spaces s = filter_string nonspace s.
Proof.
  revert s; induction fuel as [|fuel IH]; intros s L; [lia|].
  cbn [replace_all_from]. pose proof (search_spaces s) as S.
  destruct (search false re_spaces s) as [m|]; [|congruence].
  destruct S as (Lm & F).
  apply Nat.ltb_lt in Lm as Lb. rewrite Lb, IH by lia. congruence.
Qed.

(** [s.replace(/\s+/g, "")] is [s] without its white space: the bound of
    the scan is never reached. *)
Lemma replace_all_spaces (s : string) :
  replace_all false re_spaces s = filter_string nonspace s.
Proof. apply replace_all_from_spaces. lia. Qed.

End WhiteSpace.

(** ** [sanitizeBaseUrl], in the words of the specification *)

Section Sanitize.
Context {B : Browser}.

Lemma sanitizeBaseUrl_cleaned (u : string) :
  sanitizeBaseUrl u
  = if truthy_string u
    then match URL_parse (cleaned u) with
         | Some x => origin x ++ without_trailing_slashes (pathname x)
         | None => ""
         end
    else "".
Proof.
  unfold sanitizeBaseUrl, cleaned.
  rewrite replace_all_spaces, !replace_trailing_slashes.
  destruct (truthy_string u); [|reflexivity]. cbn [negb].
  destruct (URL_parse _) as [x|]; [|reflexivity].
  rewrite replace_trailing_slashes. reflexivity.
Qed.

End Sanitize.

(** ** The last segment of a path *)

Section Segments.

Lemma split_nonempty (s : string) : split "/" s <> [].
Proof.
  destruct s as [|c s]; simpl; [discriminate|].
  destruct (Ascii.eqb c "/"); [discriminate|].
  destruct (split "/" s); discriminate.
Qed.

Lemma pop_last (l : list string) :
  l <> [] -> pop l = Some (last l "").
Proof.
  induction l as [|x l IH]; [congruence|]. intros _.
  destruct l as [|y l]; [reflexivity|].
  change (pop (y :: l) = Some (last (y :: l) "")). apply IH. discriminate.
Qed.

Lemma split_cons (c : ascii) (s : string) :
  split "/" (String c s)
  = if Ascii.eqb c "/" then "" :: split "/" s else push_head c (split "/" s).
Proof. reflexivity. Qed.

Lemma push_head_app (c : ascii) (l l' : list string) :
  l <> [] -> push_head c (l ++ l') = (push_head c l ++ l')%list.
Proof. destruct l; [congruence | reflexivity]. Qed.

Lemma without_trailing_slashes_empty (s : string) :
  without_trailing_slashes s = "" -> forall_string is_slash_char s = true.
Proof.
  induction s as [|d s IH]; simpl; [reflexivity|].
  destruct (without_trailing_slashes s); [|discriminate].
  unfold is_slash_char at 1. destruct (Ascii.eqb d "/"); [|discriminate].
  intros _. simpl. apply IH. reflexivity.
Qed.

(** The segments of a path are those of the path without its trailing
    slashes, followed by empty segments. *)
Lemma split_trailing (p : string) :
  exists k, split "/" p = (split "/" (without_trailing_slashes p) ++ repeat "" k)%list.
Proof.
  induction p as [|c p (k & IH)].
  - exists 0. reflexivity.
  - rewrite split_cons. cbn [without_trailing_slashes].
    destruct (without_trailing_slashes p) as [|d t] eqn:E.
    + destruct (Ascii.eqb c "/") eqn:Ec.
      * exists (S k). rewrite IH. reflexivity.
      * exists k. rewrite IH. cbn. rewrite Ec. reflexivity.
    + rewrite (split_cons c (String d t)). destruct (Ascii.eqb c "/").
      * exists k. rewrite IH. reflexivity.
      * exists k. rewrite IH. apply push_head_app. apply split_nonempty.
Qed.

Lemma last_push_head (c : ascii) (l : list string) :
  l <> [] -> truthy_string (last l "") = true ->
  truthy_string (last (push_head c l) "") = true.
Proof.
  destruct l as [|h t]; [congruence|]. intros _.
  destruct t as [|h' t]; [reflexivity|]. auto.
Qed.

(** A path that does not end in a slash ends in a non-empty segment. *)
Lemma last_segment_nonempty (q : string) :
  without_trailing_slashes q = q -> q <> "" ->
  truthy_string (last (split "/" q) "") = true.
Proof.
  induction q as [|c q IH]; [congruence|]. intros W _.
  cbn [without_trailing_slashes] in W.
  destruct (without_trailing_slashes q) as [|d t] eqn:E.
  - destruct (Ascii.eqb c "/") eqn:Ec; [discriminate|].
    inversion W; subst. cbn. rewrite Ec. reflexivity.
  - inversion W as [W']. subst q.
    assert (truthy_string (last (split "/" (String d t)) "") = true) as L.
    { apply IH; [reflexivity | discriminate]. }
    rewrite split_cons. destruct (Ascii.eqb c "/").
    + pose proof (split_nonempty (String d t)) as N.
      destruct (split "/" (String d t)); [congruence|exact L].
    + apply last_push_head; [apply split_nonempty | exact L].
Qed.

Lemma filter_repeat_empty (k : nat) : filter truthy_string (repeat "" k) = [].
Proof. induction k; simpl; auto. Qed.

Lemma last_cons_cons (x y : string) (l : list string) :
  last (x :: y :: l) "" = last (y :: l) "".
Proof. reflexivity. Qed.

Lemma last_filter_truthy (l : list string) :
  truthy_string (last l "") = true ->
  last (filter truthy_string l) "" = last l "".
Proof.
  induction l as [|x l IH]; [discriminate|].
  destruct l as [|y l].
  - simpl. intros H. rewrite H. reflexivity.
  - rewrite last_cons_cons. intros H. specialize (IH H).
    remember (y :: l) as l' eqn:El. cbn [filter].
    destruct (truthy_string x); [|exact IH].
    destruct (filter truthy_string l') as [|f F] eqn:EF.
    + simpl in IH. rewrite <- IH in H. discriminate.
    + rewrite <- IH. reflexivity.
Qed.

(** [p.replace(/\/+$/, "").split("/").pop() || ""] is the last non-empty
    segment of [p]. *)
Lemma pop_split_last_segment (p : string) :
  match pop (split "/" (replace_first false re_trailing_slashes p)) with
  | Some k => k
  | None => ""
  end = last_nonempty_segment p.
Proof.
  rewrite replace_trailing_slashes, (pop_last _ (split_nonempty _)).
  unfold last_nonempty_segment. destruct (split_trailing p) as (k & E). rewrite E.
  rewrite filter_app, filter_repeat_empty, app_nil_r.
  destruct (without_trailing_slashes p) as [|c q] eqn:W.
  - reflexivity.
  - symmetry. apply last_filter_truthy. apply last_segment_nonempty.
    + rewrite <- W. apply without_trailing_slashes_idem.
    + discriminate.
Qed.

End Segments.

(* ================================================================== *)
(** * The Redirect Cleaner *)
(* ================================================================== *)

Section RedirectCleaner.
Context {B : Browser}.

Lemma prefix_head (a : ascii) (p s : string) :
  String.prefix (String a p) s = true ->
  exists s', s = String a s' /\ String.prefix p s' = true.
Proof.
  destruct s as [|b s]; simpl; [discriminate|].
  destruct (ascii_dec a b) as [->|]; [eauto | discriminate].
Qed.

Ltac peel H :=
  let x := fresh "s" in let E := fresh "E" in let H' := fresh "P" in
  apply prefix_head in H; destruct H as (x & E & H'); subst; rename H' into H.

(** The host prefixes of the table exclude one another. *)
Lemma host_prefixes_exclusive (h : string) :
  (startsWith h "www.google." = true ->
   startsWith h "www.bing.com" = false /\ startsWith h "duckduckgo.com" = false
   /\ startsWith h "www.youtube.com" = false)
  /\ (startsWith h "www.bing.com" = true ->
      startsWith h "duckduckgo.com" = false /\ startsWith h "www.youtube.com" = false)
  /\ (startsWith h "duckduckgo.com" = true -> startsWith h "www.youtube.com" = false).
Proof.
  unfold startsWith. repeat apply conj; intros H; do 5 peel H; repeat split; reflexivity.
Qed.

(** C2 (amended). The Redirect Cleaner returns what the first pattern of
    the table that matches the URL (on its host name prefix and its path
    prefix) extracts: the value of the named query parameter without the
    optional prefix, when that parameter is present and not empty.  When no
    pattern matches, when the parameter of the matching pattern is absent or
    empty, or when the input is no URL, the input is returned unchanged.  No
    second pattern is applied. *)
Theorem cleanLink_first_match_only (link : string) :
  cleanLink link = cleanLink_first_match link.
Proof.
  unfold cleanLink, cleanLink_first_match.
  destruct (URL_parse link) as [u|]; [|reflexivity].
  destruct (host_prefixes_exclusive (hostname u)) as (Hg & Hb & Hd).
  unfold REDIRECT_PATTERNS, pattern_matches, strip_prefix. simpl.
  unfold startsWith in *.
  destruct (String.prefix "www.google." (hostname u)) eqn:E1.
  - destruct (Hg eq_refl) as (E2 & E3 & E4). rewrite E2, E3, E4. simpl.
    destruct (String.prefix "/url" (pathname u)); simpl; [|reflexivity].
    destruct (searchParams_get "url" (searchParams u)) as [v|]; [|reflexivity].
    destruct (truthy_string v); reflexivity.
  - simpl. destruct (String.prefix "www.bing.com" (hostname u)) eqn:E2.
    + destruct (Hb eq_refl) as (E3 & E4). rewrite E3, E4. simpl.
      destruct (String.prefix "/ck/a" (pathname u)); simpl; [|reflexivity].
      destruct (searchParams_get "u" (searchParams u)) as [v|]; [|reflexivity].
      destruct (truthy_string v); reflexivity.
    + simpl. destruct (String.prefix "duckduckgo.com" (hostname u)) eqn:E3.
      * rewrite (Hd eq_refl). simpl.
        destruct (String.prefix "/l/" (pathname u)); simpl; [|reflexivity].
        destruct (searchParams_get "uddg" (searchParams u)) as [v|]; [|reflexivity].
        destruct (truthy_string v); reflexivity.
      * simpl. destruct (String.prefix "www.youtube.com" (hostname u) && _); simpl; [|reflexivity].
        destruct (searchParams_get "q" (searchParams u)) as [v|]; [|reflexivity].
        destruct (truthy_string v); reflexivity.
Qed.

End RedirectCleaner.

(** C2, as stated, fails on a parameter that is present and empty: the
    claim returns its (empty) value, the code returns the link. *)
Lemma cleanLink_empty_parameter :
  cleanLink (B := Reference.browser) "https://www.google.com/url?url="
  = "https://www.google.com/url?url="
  /\ cleanLink_spec (B := Reference.browser) "https://www.google.com/url?url=" = "".
Proof. split; vm_compute; reflexivity. Qed.

(* ================================================================== *)
(** * The Keyword Resolver *)
(* ================================================================== *)

Section KeywordResolver.
Context {B : Browser}.

(** C3 (amended). With [t] the candidate [s] without its surrounding white
    space: an empty candidate gives the empty string; when [t] parses as a
    URL of the origin of the (non-empty) base URL, the result is the last
    non-empty segment of its path (the empty string when there is none);
    when [t] parses as a URL of another origin, or when the base URL is
    empty or no URL, the result is [t]; when [t] does not parse as a URL,
    the result is [t]. *)
Theorem extractKeyword_cases (base s : string) :
  extractKeyword base (VStr "") = ""
  /\ (s <> "" ->
      (forall u b,
          URL_parse (trim s) = Some u -> base <> "" -> URL_parse base = Some b ->
          origin u = origin b ->
          extractKeyword base (VStr s) = last_nonempty_segment (pathname u))
      /\ (forall u b,
             URL_parse (trim s) = Some u -> URL_parse base = Some b ->
             origin u <> origin b ->
             extractKeyword base (VStr s) = trim s)
      /\ (forall u,
             URL_parse (trim s) = Some u -> base = "" \/ URL_parse base = None ->
             extractKeyword base (VStr s) = trim s)
      /\ (URL_parse (trim s) = None -> extractKeyword base (VStr s) = trim s)).
Proof.
  split; [reflexivity|]. intros Hs.
  assert (truthy (VStr s) = true) as T by (destruct s; [congruence | reflexivity]).
  unfold extractKeyword. rewrite T. cbn [negb ToString].
  repeat split.
  - intros u b Hu Hb Hp Ho. rewrite Hu.
    destruct base as [|c base]; [congruence|]. cbn [truthy_string].
    rewrite Hp. rewrite Ho, String.eqb_refl. apply pop_split_last_segment.
  - intros u b Hu Hp Ho. rewrite Hu.
    destruct (truthy_string base); [|reflexivity].
    rewrite Hp. destruct (String.eqb (origin u) (origin b)) eqn:E; [|reflexivity].
    apply String.eqb_eq in E. congruence.
  - intros u Hu [-> | Hp]; rewrite Hu; [reflexivity|].
    destruct (truthy_string base); [|reflexivity]. rewrite Hp. reflexivity.
  - intros Hu. rewrite Hu. reflexivity.
Qed.

End KeywordResolver.

(** The short URL of the configured instance gives its keyword. *)
Lemma extractKeyword_cases_witness :
  extractKeyword (B := Reference.browser) "https://go.example" (VStr "https://go.example/abc123")
  = "abc123".
Proof.
  destruct (extractKeyword_cases (B := Reference.browser)
              "https://go.example" "https://go.example/abc123") as (_ & H).
  destruct H as (H & _); [discriminate|].
  apply (H (mkURL "https://go.example" "go.example" "/abc123" [])
           (mkURL "https://go.example" "go.example" "/" []));
    [reflexivity | discriminate | reflexivity | reflexivity].
Defined.

(** C3, as stated, fails on a candidate with surrounding white space that
    is no URL: the claim returns it unchanged, the code returns it trimmed. *)
Lemma extractKeyword_trims :
  URL_parse (Browser := Reference.browser) " abc " = None
  /\ extractKeyword_spec (B := Reference.browser) "https://go.example" " abc " = " abc "
  /\ extractKeyword (B := Reference.browser) "https://go.example" (VStr " abc ") = "abc".
Proof. repeat split; vm_compute; reflexivity. Qed.

(* ================================================================== *)
(** * The API client *)
(* ================================================================== *)

Section ApiClient.
Context {B : Browser}.

(** What a call of [yourlsFetch] does, case by case. *)
Lemma yourlsFetch_run (w : World) (baseUrl : string) (payload : list (string * value))
    (t : trace) :
  yourlsFetch w baseUrl payload t
  = match URL_parse baseUrl with
    | None => (Throw (URL_TypeError baseUrl), t)
    | Some u =>
        let pattern := origin u ++ "/*" in
        let endpoint := baseUrl ++ "/yourls-api.php" in
        if permissions_contains w pattern
        then
          match fetch w endpoint (toFormData payload) with
          | inl e =>
              (Throw e, (t ++ [PermissionsContains pattern;
                               Fetch endpoint (toFormData payload)])%list)
          | inr res =>
              (Ret (res, text_of res, parseMaybeJson (text_of res)),
               (t ++ [PermissionsContains pattern;
                      Fetch endpoint (toFormData payload)])%list)
          end
        else (Throw (Error "Host permission was not granted."),
              (t ++ [PermissionsContains pattern])%list)
    end.
Proof.
  unfold yourlsFetch. destruct (URL_parse baseUrl) as [u|]; [|reflexivity].
  unfold bind, emit, throw, ret. cbn.
  destruct (permissions_contains w (origin u ++ "/*")); cbn; [|reflexivity].
  rewrite <- app_assoc. cbn.
  destruct (fetch w _ _); reflexivity.
Qed.

(** C7 (amended). For a base URL that parses as a URL, the first call that
    [yourlsFetch] makes is the query for the host permission of the origin
    of the base URL.  When the permission is absent, the call throws the
    permission error and that query is all it did: no request was sent.  In
    every case a request is sent only after a query that was granted, and no
    permission is ever requested.  For a base URL that does not parse, the
    URL constructor throws and nothing is queried or sent. *)
Theorem yourlsFetch_permission_first (w : World) (baseUrl : string)
    (payload : list (string * value)) (t : trace) :
  (forall u,
      URL_parse baseUrl = Some u ->
      let pattern := origin u ++ "/*" in
      (permissions_contains w pattern = false ->
       yourlsFetch w baseUrl payload t
       = (Throw (Error "Host permission was not granted."),
          (t ++ [PermissionsContains pattern])%list))
      /\ (exists made,
             snd (yourlsFetch w baseUrl payload t) = (t ++ made)%list
             /\ existsb is_permission_request made = false
             /\ ((made = [PermissionsContains pattern]
                  /\ permissions_contains w pattern = false)
                 \/ (made = [PermissionsContains pattern;
                             Fetch (baseUrl ++ "/yourls-api.php") (toFormData payload)]
                     /\ permissions_contains w pattern = true))))
  /\ (URL_parse baseUrl = None ->
      yourlsFetch w baseUrl payload t = (Throw (URL_TypeError baseUrl), t)).
Proof.
  rewrite yourlsFetch_run. split.
  - intros u Hu pattern. rewrite Hu. cbn zeta. fold pattern. split.
    + intros Hp. rewrite Hp. reflexivity.
    + destruct (permissions_contains w pattern) eqn:Hp.
      * exists [PermissionsContains pattern;
                Fetch (baseUrl ++ "/yourls-api.php") (toFormData payload)].
        destruct (fetch w _ _); cbn; auto.
      * exists [PermissionsContains pattern]. cbn; auto.
  - intros Hu. rewrite Hu. reflexivity.
Qed.

End ApiClient.

(** Without the host permission of the instance, nothing is sent to it. *)
Lemma yourlsFetch_permission_first_witness :
  yourlsFetch (B := Reference.browser)
    (Reference.world "https://go.example" "secret" false Reference.offline)
    "https://go.example" [("action", VStr "stats")] []
  = (Throw (Error "Host permission was not granted."),
     [PermissionsContains "https://go.example/*"]).
Proof.
  destruct (yourlsFetch_permission_first (B := Reference.browser)
              (Reference.world "https://go.example" "secret" false Reference.offline)
              "https://go.example" [("action", VStr "stats")] []) as (H & _).
  apply (H (mkURL "https://go.example" "go.example" "/" [])); reflexivity.
Defined.

(** C7, as stated, fails on a base URL that is not empty and is no URL,
    such as the one [sanitizeBaseUrl] makes of [foo:bar]: the URL constructor
    throws its [TypeError] before any permission is queried. *)
Lemma yourlsFetch_unparseable_base :
  sanitizeBaseUrl (B := Reference.browser) "foo:bar" = "nullbar"
  /\ truthy_string "nullbar" = true
  /\ run (yourlsFetch (B := Reference.browser)
            (Reference.world "foo:bar" "secret" false Reference.offline)
            "nullbar" [("action", VStr "stats")])
     = (Throw (mkExn "TypeError" "URL constructor: nullbar is not a valid URL."), []).
Proof. repeat split; vm_compute; reflexivity. Qed.

(* ================================================================== *)
(** * The operations *)
(* ================================================================== *)

Section Operations.
Context {B : Browser}.

Lemma bind_getSettings {A} (w : World) (k : Settings -> M A) (t : trace) :
  bind (getSettings w) k t = k (settings_of w) (t ++ [StorageGet])%list.
Proof. reflexivity. Qed.

Lemma caught_message_nonempty (e : exn) :
  message e <> "" -> caught_message e = message e.
Proof.
  unfold caught_message. destruct (message e); [congruence | reflexivity].
Qed.

(** ** Connectivity check *)


End Operations.


Section Normalizers.
Context {B : Browser}.

Lemma yourlsFetch_answered (w : World) (base : string) (payload : list (string * value))
    (res : Response) (t : trace) :
  answered w base payload res ->
  exists made,
    yourlsFetch w base payload t
    = (Ret (res, text_of res, parseMaybeJson (text_of res)), (t ++ made)%list).
Proof.
  intros (u & Hu & Hp & Hf). rewrite yourlsFetch_run, Hu. cbn zeta. rewrite Hp, Hf.
  eexists. reflexivity.
Qed.

(** ** Statistics of one link *)


(** ** Delete *)


End Normalizers.

(** ** Shorten *)

Section Shorten.
Context {B : Browser}.

Lemma opt_prop_truthy (v : value) (k : string) :
  truthy (opt_prop v k) = true -> opt_prop v k = prop v k.
Proof. unfold opt_prop. destruct (nullish v); [discriminate | reflexivity]. Qed.

(** [extractShort] tries the strategies in order. *)
Lemma extractShort_strategies (json : value) (base : string) :
  truthy json = true ->
  extractShort json base = first_truthy (strategies json (without_trailing_slashes base)).
Proof.
  intros T. unfold extractShort, first_truthy, strategies.
  rewrite T, replace_trailing_slashes. cbn [negb find].
  destruct (truthy (prop json "shorturl")); [reflexivity|].
  destruct (truthy (opt_prop (prop json "url") "shorturl")) eqn:E1;
    [symmetry; apply opt_prop_truthy, E1|].
  destruct (truthy (opt_prop (prop json "link") "shorturl")) eqn:E2;
    [symmetry; apply opt_prop_truthy, E2|].
  destruct (truthy (prop json "keyword")); [|reflexivity].
  cbn [find truthy append]. rewrite truthy_append_cons. reflexivity.
Qed.

Lemma without_trailing_slashes_app (a b : string) :
  without_trailing_slashes (a ++ b)
  = match without_trailing_slashes b with
    | EmptyString => without_trailing_slashes a
    | t => a ++ t
    end.
Proof.
  induction a as [|c a IH]; cbn [append without_trailing_slashes].
  - destruct (without_trailing_slashes b); reflexivity.
  - rewrite IH. destruct (without_trailing_slashes b) as [|d t]; [reflexivity|].
    destruct (a ++ String d t) eqn:E; [|reflexivity].
    destruct a; discriminate.
Qed.

(** A sanitized base URL ends in no slash, when the origin ends in none. *)
Lemma sanitizeBaseUrl_no_trailing_slash (u : string) :
  (forall x, URL_parse (cleaned u) = Some x ->
             without_trailing_slashes (origin x) = origin x) ->
  without_trailing_slashes (sanitizeBaseUrl u) = sanitizeBaseUrl u.
Proof.
  intros H. rewrite sanitizeBaseUrl_cleaned. destruct (truthy_string u); [|reflexivity].
  destruct (URL_parse (cleaned u)) as [x|] eqn:E; [|reflexivity].
  rewrite without_trailing_slashes_app, without_trailing_slashes_idem.
  destruct (without_trailing_slashes (pathname x)).
  - rewrite append_empty_r. apply H. reflexivity.
  - reflexivity.
Qed.

Lemma groups_consume_short_url : groups_consume re_short_url.
Proof. cbn. repeat split; lia. Qed.

(** C1. For a call of [apiShorten] with complete settings that gets an HTTP
    response, of any status, whose body parses as JSON with a [message] that
    contains [already exists] in any case: the call returns
    [{ ok: true, shortUrl, already: true }], where [shortUrl] is the URL in
    the parenthesis [(short URL: <url>)] of the message when the message has
    one and otherwise the first truthy value among [json.shorturl],
    [json.url.shorturl], [json.link.shorturl] and [base + "/" + json.keyword]
    ([null] when there is none).  The base of the last strategy is taken
    without trailing slashes, of which a sanitized base URL has none as long
    as its origin ends in none. *)
Theorem apiShorten_already_exists (w : World) (longUrl keyword title : value)
    (res : Response) (json : value) (m : string) :
  let base := sanitizeBaseUrl (storage_yourlsUrl w) in
  let signature := storage_apiSignature w in
  let recovered :=
    match match1 true re_short_url m with
    | Some url => VStr url
    | None => first_truthy (strategies json (without_trailing_slashes base))
    end in
  truthy_string base = true ->
  truthy_string signature = true ->
  answered w base (shorten_payload signature longUrl keyword title) res ->
  JSON_parse (text_of res) = Some json ->
  prop json "message" = VStr m ->
  includes_ci "already exists" m = true ->
  (exists tr,
      run (apiShorten w longUrl keyword title)
      = (Ret (VObj [("ok", VBool true); ("shortUrl", recovered); ("already", VBool true)]),
         tr))
  /\ ((forall x, URL_parse (cleaned (storage_yourlsUrl w)) = Some x ->
                  without_trailing_slashes (origin x) = origin x) ->
      without_trailing_slashes base = base).
Proof.
  intros base signature recovered Hb Hs A J Hm Hi.
  split; [|apply sanitizeBaseUrl_no_trailing_slash].
  destruct (yourlsFetch_answered w base _ res [StorageGet] A) as (made & F).
  assert (truthy json = true) as T by (destruct json; try discriminate; reflexivity).
  unfold run, apiShorten. rewrite bind_getSettings.
  cbn [yourlsUrl apiSignature settings_of app]. fold base. fold signature.
  rewrite Hb, Hs. cbn [negb orb]. unfold bind at 1. rewrite F.
  unfold parseMaybeJson. rewrite J, T, Hm.
  assert (ToString (or_else (VStr m) (VStr "")) = m) as O
      by (unfold or_else; destruct m; reflexivity).
  rewrite O. unfold re_already_exists. rewrite test_word, Hi. cbn [andb ToString].
  eexists. unfold bind, toast, emit, ret, shortened, recovered. cbn.
  destruct (match1 true re_short_url m) as [url|] eqn:E.
  - rewrite (match1_nonempty _ _ _ _ groups_consume_short_url E). reflexivity.
  - rewrite (extractShort_strategies _ _ T). reflexivity.
Qed.

End Shorten.

(** A server that refuses a URL it already has, with status 400. *)
Lemma apiShorten_already_exists_witness :
  exists tr,
    run (apiShorten (B := Reference.browser)
           (Reference.world "https://go.example/" "secret" true
              (Reference.answers 400
                 ("{" ++ Reference.quoted "status" ++ ":" ++ Reference.quoted "fail" ++ ","
                  ++ Reference.quoted "message" ++ ":"
                  ++ Reference.quoted "short URL already exists (short URL: https://go.example/xyz)"
                  ++ "}")))
           (VStr "https://example.com/page") (VStr "") (VStr ""))
    = (Ret (VObj [("ok", VBool true); ("shortUrl", VStr "https://go.example/xyz");
                  ("already", VBool true)]), tr).
Proof.
  destruct (apiShorten_already_exists (B := Reference.browser)
              (Reference.world "https://go.example/" "secret" true
                 (Reference.answers 400
                    ("{" ++ Reference.quoted "status" ++ ":" ++ Reference.quoted "fail" ++ ","
                     ++ Reference.quoted "message" ++ ":"
                     ++ Reference.quoted
                          "short URL already exists (short URL: https://go.example/xyz)"
                     ++ "}")))
              (VStr "https://example.com/page") (VStr "") (VStr "")
              (mkResponse 400
                 (Some ("{" ++ Reference.quoted "status" ++ ":" ++ Reference.quoted "fail" ++ ","
                        ++ Reference.quoted "message" ++ ":"
                        ++ Reference.quoted
                             "short URL already exists (short URL: https://go.example/xyz)"
                        ++ "}")))
              (VObj [("status", VStr "fail");
                     ("message",
                      VStr "short URL already exists (short URL: https://go.example/xyz)")])
              "short URL already exists (short URL: https://go.example/xyz)")
    as ((tr & H) & _).
  - reflexivity.
  - reflexivity.
  - exists (mkURL "https://go.example" "go.example" "/" []). repeat split; reflexivity.
  - vm_compute. reflexivity.
  - reflexivity.
  - vm_compute. reflexivity.
  - exists tr. exact H.
Defined.




(* ================================================================== *)
(** * The Action Router *)
(* ================================================================== *)

Section ActionRouter.
Context {B : Browser}.

Lemma onMessage_run (w : World) (msg : value) :
  run (onMessage w msg)
  = match run (dispatch w msg) with
    | (Ret reply, tr) => (Ret reply, tr)
    | (Throw e, tr) => (Ret (failure (reason_of e)), tr)
    end.
Proof.
  unfold run, onMessage, try_catch. destruct (dispatch w msg []) as [[reply|e] tr]; reflexivity.
Qed.


(** C10 (amended). With an empty sanitized base URL, on a platform whose
    URL constructor refuses the empty string: a request for the database
    statistics, a request for the statistics of a link and a request to
    delete a link whose keyword is not empty reach the API client, where the
    URL constructor throws; the reply carries what the listener makes of
    that error (its message, unless it is empty or matches the keyword-exists
    pattern) and nothing but the settings has been read.  A request to
    delete with an empty keyword fails before that, with the enter-keyword
    error.  A request to shorten fails with the no-settings error and a
    connectivity check returns the no-settings reply. *)
Theorem missing_settings_unguarded (w : World) :
  sanitizeBaseUrl (storage_yourlsUrl w) = "" ->
  URL_parse "" = None ->
  let reply := failure (reason_of (URL_TypeError "")) in
  (forall msg, prop msg "type" = VStr "GET_DB_STATS" ->
               run (onMessage w msg) = (Ret reply, [StorageGet]))
  /\ (forall msg, prop msg "type" = VStr "GET_STATS" ->
                  run (onMessage w msg) = (Ret reply, [StorageGet]))
  /\ (forall msg, prop msg "type" = VStr "DELETE_SHORTURL" ->
                  truthy_string (extractKeyword "" (prop msg "shortUrl")) = true ->
                  run (onMessage w msg) = (Ret reply, [StorageGet]))
  /\ (forall msg, prop msg "type" = VStr "DELETE_SHORTURL" ->
                  truthy_string (extractKeyword "" (prop msg "shortUrl")) = false ->
                  run (onMessage w msg)
                  = (Ret (failure (reason_of (Error (i18n_getMessage
                                                       "errorEnterKeywordToDelete")))),
                     [StorageGet]))
  /\ (forall msg, prop msg "type" = VStr "SHORTEN_URL" ->
                  run (onMessage w msg)
                  = (Ret (failure (reason_of (Error (i18n_getMessage "errorNoSettings")))),
                     [StorageGet]))
  /\ (forall msg, prop msg "type" = VStr "CHECK_CONNECTION" ->
                  run (onMessage w msg)
                  = (Ret (failure (i18n_getMessage "errorNoSettings")), [StorageGet]))
  /\ (message (URL_TypeError "") <> "" ->
      test true re_keyword_exists (message (URL_TypeError "")) = false ->
      reason_of (URL_TypeError "") = message (URL_TypeError "")).
Proof.
  intros Hb Hu reply.
  assert (forall msg s, prop msg "type" = VStr s -> nullish msg = false) as N
      by (intros [] ? ?; try discriminate; reflexivity).
  repeat apply conj.
  1-6: intros msg Ht.
  3-4: intros Hk.
  1-6: rewrite onMessage_run; unfold run, dispatch; rewrite (N _ _ Ht), Ht;
       cbn [strict_eq_string String.eqb Ascii.eqb Bool.eqb bind throw ret].
  - unfold bind, apiDbStats. rewrite bind_getSettings.
    cbn [yourlsUrl settings_of app]. rewrite Hb.
    unfold bind. rewrite yourlsFetch_run, Hu. reflexivity.
  - unfold bind, apiStats. rewrite bind_getSettings.
    cbn [yourlsUrl settings_of app]. rewrite Hb.
    unfold bind. rewrite yourlsFetch_run, Hu. reflexivity.
  - unfold apiDelete. rewrite bind_getSettings.
    cbn [yourlsUrl settings_of app]. rewrite Hb, Hk. cbn [negb].
    unfold bind. rewrite yourlsFetch_run, Hu. reflexivity.
  - unfold apiDelete. rewrite bind_getSettings.
    cbn [yourlsUrl settings_of app]. rewrite Hb, Hk. reflexivity.
  - unfold apiShorten. rewrite bind_getSettings.
    cbn [yourlsUrl settings_of app]. rewrite Hb. reflexivity.
  - unfold apiCheck. rewrite bind_getSettings.
    cbn [yourlsUrl settings_of app]. rewrite Hb. reflexivity.
  - intros Hm Ht. unfold reason_of. rewrite (caught_message_nonempty _ Hm), Ht. reflexivity.
Qed.

End ActionRouter.


(** Before the add-on is configured, the statistics of the database fail
    with the message of the URL constructor. *)
Lemma missing_settings_unguarded_witness :
  run (onMessage (B := Reference.browser)
         (Reference.world "" "" true Reference.offline)
         (Reference.message "GET_DB_STATS" []))
  = (Ret (failure "URL constructor:  is not a valid URL."), [StorageGet]).
Proof.
  destruct (missing_settings_unguarded (B := Reference.browser)
              (Reference.world "" "" true Reference.offline)) as (H & _);
    [reflexivity | reflexivity | apply H; reflexivity].
Defined.

(** C10, as stated, fails on a request to delete with an empty keyword:
    [apiDelete] throws its own error before it reaches the API client, and
    the reason is not the message of the URL constructor. *)
Lemma delete_without_keyword :
  sanitizeBaseUrl (B := Reference.browser) "" = ""
  /\ run (onMessage (B := Reference.browser)
            (Reference.world "" "" true Reference.offline)
            (Reference.message "DELETE_SHORTURL" [("shortUrl", VStr "")]))
     = (Ret (failure "__MSG_errorEnterKeywordToDelete__"), [StorageGet])
  /\ reason_of (B := Reference.browser) (URL_TypeError (Browser := Reference.browser) "")
     = "URL constructor:  is not a valid URL.".
Proof. repeat split; vm_compute; reflexivity. Qed.

(* ================================================================== *)
(** * The base URL *)
(* ================================================================== *)

Section BaseUrl.
Context {B : Browser}.

(** [sanitizeBaseUrl] returns the empty string for an empty input and for
    an input that is no URL once it is trimmed and its white space and
    trailing slashes are removed; being a function, it throws nothing. *)
Lemma sanitizeBaseUrl_parse_failure (u : string) :
  sanitizeBaseUrl "" = ""
  /\ (URL_parse (cleaned u) = None -> sanitizeBaseUrl u = "").
Proof.
  split; [reflexivity|]. intros H. rewrite sanitizeBaseUrl_cleaned, H.
  destruct (truthy_string u); reflexivity.
Qed.

End BaseUrl.

(** C9, at the failing input. The URL [foo:bar] has an opaque origin,
    which serializes as [null]: [sanitizeBaseUrl] returns [nullbar], which
    is no URL, and a second application returns the empty string. *)
Lemma sanitizeBaseUrl_opaque_origin :
  sanitizeBaseUrl (B := Reference.browser) "foo:bar" = "nullbar"
  /\ sanitizeBaseUrl (B := Reference.browser)
       (sanitizeBaseUrl (B := Reference.browser) "foo:bar") = ""
  /\ URL_parse (Browser := Reference.browser) "nullbar" = None.
Proof. repeat split; vm_compute; reflexivity. Qed.

(* ================================================================== *)
(** * Further properties of the operations *)
(* ================================================================== *)

Section Further.
Context {B : Browser}.

(** X2. [sanitizeBaseUrl] as the specification describes it: an empty input
    gives the empty string; otherwise the input is trimmed, loses all its
    white space and its trailing slashes, and is parsed as a URL; the result
    is the origin followed by the path without its trailing slashes, or the
    empty string when the parse fails. *)
Theorem sanitizeBaseUrl_described (raw : string) :
  sanitizeBaseUrl raw
  = match raw with
    | EmptyString => ""
    | _ =>
        match URL_parse (without_trailing_slashes (filter_string nonspace (trim raw))) with
        | Some x => origin x ++ without_trailing_slashes (pathname x)
        | None => ""
        end
    end.
Proof. rewrite sanitizeBaseUrl_cleaned. destruct raw; reflexivity. Qed.

(** X4. The statistics of the database: for a call that gets an HTTP response,
    the parsed body is returned when the response is ok and the body is
    truthy, and the stats-failed error is thrown otherwise. *)
Theorem apiDbStats_outcome (w : World) (res : Response) :
  let base := sanitizeBaseUrl (storage_yourlsUrl w) in
  let json := parseMaybeJson (text_of res) in
  answered w base (stats_payload (storage_apiSignature w)) res ->
  exists tr,
    run (apiDbStats w)
    = (if ok res && truthy json
       then Ret json
       else Throw (Error (i18n_getMessage "errorStatsFailed")), tr).
Proof.
  intros base json A.
  destruct (yourlsFetch_answered w base _ res [StorageGet] A) as (made & F).
  exists ([StorageGet] ++ made)%list.
  unfold run, apiDbStats. rewrite bind_getSettings.
  cbn [yourlsUrl apiSignature settings_of app]. fold base.
  unfold bind. rewrite F. fold json.
  destruct (ok res), (truthy json); reflexivity.
Qed.


End Further.


(** An instance that answers with its statistics. *)
Lemma apiDbStats_outcome_witness :
  exists tr,
    run (apiDbStats (B := Reference.browser)
           (Reference.world "https://go.example/" "secret" true
              (Reference.answers 200
                 ("{" ++ Reference.quoted "total_links" ++ ":12}"))))
    = (Ret (VObj [("total_links", VNum 12)]), tr).
Proof.
  destruct (apiDbStats_outcome (B := Reference.browser)
              (Reference.world "https://go.example/" "secret" true
                 (Reference.answers 200
                    ("{" ++ Reference.quoted "total_links" ++ ":12}")))
              (mkResponse 200 (Some ("{" ++ Reference.quoted "total_links" ++ ":12}"))))
    as (tr & H).
  - exists (mkURL "https://go.example" "go.example" "/" []). repeat split; reflexivity.
  - exists tr. exact H.
Defined.

(* ================================================================== *)
(** * The examples of the specification, run *)
(* ================================================================== *)

Section Examples.
#[local] Existing Instance Reference.browser.

Example sanitize_example :
  sanitizeBaseUrl " HTTPS://Go.Example/ yourls// " = "https://go.example/yourls"
  /\ sanitizeBaseUrl (sanitizeBaseUrl " HTTPS://Go.Example/ yourls// ")
     = "https://go.example/yourls"
  /\ sanitizeBaseUrl "not a url" = "".
Proof. repeat split; vm_compute; reflexivity. Qed.

Example clean_google :
  cleanLink "https://www.google.com/url?url=https://example.com/page"
  = "https://example.com/page".
Proof. vm_compute. reflexivity. Qed.

Example clean_bing :
  cleanLink "https://www.bing.com/ck/a?u=a1aHR0cHM6Ly9leGFtcGxlLmNvbQ"
  = "aHR0cHM6Ly9leGFtcGxlLmNvbQ".
Proof. vm_compute. reflexivity. Qed.

Example clean_unmatched : cleanLink "https://example.com/foo" = "https://example.com/foo".
Proof. vm_compute. reflexivity. Qed.

Example keyword_of_short_url :
  extractKeyword (sanitizeBaseUrl "https://go.example/") (VStr "https://go.example/abc123")
  = "abc123"
  /\ extractKeyword (sanitizeBaseUrl "https://go.example/") (VStr "abc123") = "abc123".
Proof. repeat split; vm_compute; reflexivity. Qed.

Example delete_refused :
  run (apiDelete
         (Reference.world "https://go.example/" "secret" true
            (Reference.answers 200
               ("{" ++ Reference.quoted "status" ++ ":" ++ Reference.quoted "fail" ++ ","
                ++ Reference.quoted "message" ++ ":" ++ Reference.quoted "no such keyword"
                ++ "}")))
         (VStr "abc123"))
  = (Throw (Error "Delete failed: HTTP 200 - no such keyword"),
     [StorageGet; PermissionsContains "https://go.example/*";
      Fetch "https://go.example/yourls-api.php"
        [("action", "delete"); ("format", "json"); ("signature", "secret");
         ("shorturl", "abc123")]]).
Proof. vm_compute. reflexivity. Qed.

End Examples.

(* ================================================================== *)
(** * The reference URL parser on the URLs it serializes *)
(* ================================================================== *)

(** [sanitizeBaseUrl] returns the origin and the path of a URL as text and
    a later call parses that text again.  For the schemes whose origin is a
    tuple, the reference parser reads its own output back. *)

Section Reparse.
Import Reference.

(** ** Characters, by cases on the 256 of them *)

Ltac all_chars c :=
  destruct c as [[] [] [] [] [] [] [] []]; vm_compute; try reflexivity; try discriminate.

Lemma host_char_facts (c : ascii) :
  host_char c = true ->
  solid c = true /\ ends_authority true c = false /\ Ascii.eqb c ":" = false
  /\ Ascii.eqb c "@" = false /\ Ascii.eqb c "[" = false /\ is_slash true c = false
  /\ Ascii.eqb c "/" = false.
Proof. all_chars c; intros _; repeat split. Qed.

Lemma digit_facts (c : ascii) :
  is_digit c = true ->
  solid c = true /\ ends_authority true c = false /\ Ascii.eqb c ":" = false
  /\ Ascii.eqb c "@" = false /\ Ascii.eqb c "/" = false.
Proof. all_chars c; intros _; repeat split. Qed.

Lemma path_char_facts (c : ascii) :
  path_char c = true -> solid c = true.
Proof. all_chars c. Qed.

Lemma segment_char_path_char (c : ascii) :
  segment_char c = true -> path_char c = true /\ Ascii.eqb c "/" = false /\ path_set c = false.
Proof. all_chars c; intros _; repeat split. Qed.

Lemma lower_idem (c : ascii) : lower (lower c) = lower c.
Proof. all_chars c. Qed.

(** ** Strings whose characters all pass a test *)

Lemma forall_string_app (f : ascii -> bool) (a b : string) :
  forall_string f (a ++ b) = forall_string f a && forall_string f b.
Proof. induction a as [|c a IH]; simpl; [reflexivity|]. rewrite IH, andb_assoc. reflexivity. Qed.

Lemma forall_string_impl (f g : ascii -> bool) (s : string) :
  (forall c, f c = true -> g c = true) ->
  forall_string f s = true -> forall_string g s = true.
Proof.
  intros I. induction s as [|c s IH]; simpl; [reflexivity|].
  intros H. apply andb_prop in H. destruct H as [Hc Hs]. rewrite (I _ Hc), (IH Hs). reflexivity.
Qed.

Lemma rev_string_app (a b : string) : rev_string (a ++ b) = rev_string b ++ rev_string a.
Proof.
  induction a as [|c a IH]; simpl.
  - rewrite append_empty_r. reflexivity.
  - rewrite IH, append_assoc. reflexivity.
Qed.

Lemma rev_string_involutive (s : string) : rev_string (rev_string s) = s.
Proof.
  induction s as [|c s IH]; simpl; [reflexivity|].
  rewrite rev_string_app, IH. reflexivity.
Qed.

Lemma forall_string_rev (f : ascii -> bool) (s : string) :
  forall_string f (rev_string s) = forall_string f s.
Proof.
  induction s as [|c s IH]; simpl; [reflexivity|].
  rewrite forall_string_app, IH. simpl. rewrite andb_true_r, andb_comm. reflexivity.
Qed.

Lemma drop_while_none (p : ascii -> bool) (s : string) :
  forall_string (fun c => negb (p c)) s = true -> drop_while p s = s.
Proof.
  destruct s as [|c s]; simpl; [reflexivity|].
  destruct (p c); [discriminate | reflexivity].
Qed.

Lemma drop_while_end_none (p : ascii -> bool) (s : string) :
  forall_string (fun c => negb (p c)) s = true -> drop_while_end p s = s.
Proof.
  intros H. unfold drop_while_end. rewrite drop_while_none.
  - apply rev_string_involutive.
  - rewrite forall_string_rev. exact H.
Qed.

Lemma filter_string_all (f : ascii -> bool) (s : string) :
  forall_string f s = true -> filter_string f s = s.
Proof.
  induction s as [|c s IH]; simpl; [reflexivity|].
  intros H. apply andb_prop in H. destruct H as [Hc Hs]. rewrite Hc, (IH Hs). reflexivity.
Qed.

Lemma trimEnd_none (s : string) : forall_string nonspace s = true -> trimEnd s = s.
Proof.
  induction s as [|c s IH]; simpl; [reflexivity|].
  intros H. apply andb_prop in H. destruct H as [Hc Hs]. rewrite (IH Hs).
  unfold nonspace in Hc. destruct (isWhiteSpace c); [discriminate|]. destruct s; reflexivity.
Qed.

Lemma trim_none (s : string) : forall_string nonspace s = true -> trim s = s.
Proof.
  intros H. unfold trim. replace (trimStart s) with s; [apply trimEnd_none, H|].
  destruct s as [|c s]; simpl in *; [reflexivity|].
  apply andb_prop in H. destruct H as [Hc _]. unfold nonspace in Hc.
  destruct (isWhiteSpace c); [discriminate | reflexivity].
Qed.

Lemma span_app (p : ascii -> bool) (a b : string) :
  forall_string p a = true ->
  match b with String c _ => p c = false | EmptyString => True end ->
  span p (a ++ b) = (a, b).
Proof.
  intros Ha Hb. induction a as [|c a IH]; simpl in *.
  - destruct b as [|c b]; simpl; [reflexivity|]. rewrite Hb. reflexivity.
  - apply andb_prop in Ha. destruct Ha as [Hc Ha]. rewrite Hc, (IH Ha). reflexivity.
Qed.

Lemma mem_ascii_false (c : ascii) (s : string) :
  forall_string (fun x => negb (Ascii.eqb x c)) s = true -> mem_ascii c s = false.
Proof. intros H. unfold mem_ascii. rewrite H. reflexivity. Qed.

Lemma after_last_none (c : ascii) (s : string) :
  forall_string (fun x => negb (Ascii.eqb x c)) s = true -> after_last c s = None.
Proof.
  induction s as [|x s IH]; simpl; [reflexivity|].
  intros H. apply andb_prop in H. destruct H as [Hx Hs]. rewrite (IH Hs).
  destruct (Ascii.eqb x c); [discriminate | reflexivity].
Qed.

(** ** Decimal numbers *)

Lemma digits_of_uint (d : Decimal.uint) :
  forall_string is_digit (NilEmpty.string_of_uint d) = true.
Proof. induction d; simpl; auto. Qed.

Lemma string_of_N_digits (n : N) : forall_string is_digit (string_of_N n) = true.
Proof.
  unfold string_of_N, NilZero.string_of_uint.
  destruct (N.to_uint n) eqn:E; try (rewrite <- E; apply digits_of_uint). reflexivity.
Qed.

Lemma decimal_value_string_of_N (n : N) : decimal_value (string_of_N n) = n.
Proof.
  unfold decimal_value, string_of_N.
  remember (N.to_uint n) as d eqn:E.
  assert (N.of_uint d = n) as R by (subst d; apply Unsigned.of_to).
  destruct d; cbn [NilZero.string_of_uint];
    [simpl in R; subst n; reflexivity | rewrite NilEmpty.usu; exact R ..].
Qed.

Lemma string_of_N_nonempty (n : N) : truthy_string (string_of_N n) = true.
Proof.
  unfold string_of_N, NilZero.string_of_uint. destruct (N.to_uint n); reflexivity.
Qed.

(** ** Hosts and ports *)

Lemma map_lower_idem (s : string) : map_string lower (map_string lower s) = map_string lower s.
Proof. induction s as [|c s IH]; simpl; [reflexivity|]. rewrite lower_idem, IH. reflexivity. Qed.

Lemma parse_domain_inv (h0 h : string) :
  parse_domain h0 = Some h ->
  parse_domain h = Some h /\ truthy_string h = true /\ forall_string host_char h = true.
Proof.
  intros H. assert (h = map_string lower h0) as E.
  { unfold parse_domain in H.
    destruct (negb (truthy_string (map_string lower h0))); [discriminate|].
    destruct (negb (forall_string _ (map_string lower h0))); [discriminate|].
    destruct (existsb _ (split "." (map_string lower h0))); [discriminate|].
    destruct (ends_in_number (map_string lower h0)); [|congruence].
    destruct (_ && _); congruence. }
  split.
  - rewrite E in *. unfold parse_domain in *. rewrite map_lower_idem. exact H.
  - rewrite E. unfold parse_domain in H.
    destruct (truthy_string (map_string lower h0)); [|discriminate]. split; [reflexivity|].
    cbn [negb] in H. unfold host_char.
    destruct (forall_string _ (map_string lower h0)); [reflexivity | discriminate].
Qed.

Lemma parse_port_stable (sch digits : string) (prt : option N) :
  parse_port sch digits = Some prt ->
  parse_port sch (substring_from 1 (port_string prt)) = Some prt.
Proof.
  unfold parse_port. destruct (forall_string is_digit digits); [|discriminate]. cbn [negb].
  destruct (truthy_string digits).
  - cbn [negb]. destruct (65535 <? decimal_value digits)%N eqn:L; [discriminate|].
    assert (forall n, parse_port sch (string_of_N n) =
                      if (65535 <? n)%N then None
                      else match default_port sch with
                           | Some d => if (d =? n)%N then Some None else Some (Some n)
                           | None => Some (Some n)
                           end) as P.
    { intros n. unfold parse_port.
      rewrite string_of_N_digits, string_of_N_nonempty, decimal_value_string_of_N.
      reflexivity. }
    unfold parse_port in P.
    destruct (default_port sch) as [d|] eqn:D.
    + destruct (d =? decimal_value digits)%N eqn:Q; intros H; inversion H; subst.
      * reflexivity.
      * cbn [port_string substring_from append]. rewrite P, L, Q. reflexivity.
    + intros H; inversion H; subst.
      cbn [port_string substring_from append]. rewrite P, L. reflexivity.
  - intros H; inversion H; subst. reflexivity.
Qed.

Lemma port_string_chars (prt : option N) :
  forall_string (fun c => negb (ends_authority true c)) (port_string prt) = true
  /\ forall_string (fun c => negb (Ascii.eqb c "@")) (port_string prt) = true
  /\ forall_string solid (port_string prt) = true
  /\ forall_string (fun c => negb (Ascii.eqb c "/")) (port_string prt) = true.
Proof.
  destruct prt as [n|]; [|repeat split]. cbn [port_string append forall_string].
  pose proof (string_of_N_digits n) as D.
  repeat split; cbn; apply (forall_string_impl is_digit); auto;
    intros c Hc; destruct (digit_facts c Hc) as (? & A & ? & B & C);
    rewrite ?A, ?B, ?C; auto.
Qed.

Lemma host_chars (h : string) :
  forall_string host_char h = true ->
  forall_string (fun c => negb (ends_authority true c)) h = true
  /\ forall_string (fun c => negb (Ascii.eqb c "@")) h = true
  /\ forall_string solid h = true
  /\ forall_string (fun c => negb (Ascii.eqb c ":")) h = true
  /\ forall_string (fun c => negb (Ascii.eqb c "/")) h = true.
Proof.
  intros H. repeat split; apply (forall_string_impl host_char); auto;
    intros c Hc; destruct (host_char_facts c Hc) as (A & A1 & A2 & A3 & A4 & A5 & A6);
    rewrite ?A1, ?A2, ?A3, ?A6; auto.
Qed.

Lemma prefix_single (a c : ascii) (h : string) :
  String.prefix (String a "") (String c h) = Ascii.eqb c a.
Proof.
  cbn [String.prefix]. destruct (ascii_dec a c) as [->|N].
  - rewrite Ascii.eqb_refl. destruct h; reflexivity.
  - symmetry. apply Ascii.eqb_neq. congruence.
Qed.

Lemma parse_authority_stable (sch h0 : string) (h : string) (prt : option N) (rest t : string) :
  parse_authority true sch h0 = Some (h, prt, rest) ->
  starts_path t ->
  parse_authority true sch (h ++ port_string prt ++ t) = Some (h, prt, t)
  /\ parse_domain h = Some h /\ truthy_string h = true /\ forall_string host_char h = true.
Proof.
  intros H T. unfold parse_authority in H.
  destruct (span _ h0) as [auth rest0].
  destruct (mem_ascii "@" auth && _); [discriminate|].
  destruct (span _ (match after_last "@" auth with Some r => r | None => auth end))
    as [h1 p1].
  destruct (startsWith h1 "["); [discriminate|].
  destruct (negb (truthy_string h1) && _); [discriminate|].
  destruct (parse_domain h1) as [hst|] eqn:D; [|discriminate].
  destruct (parse_port sch (substring_from 1 p1)) as [port|] eqn:P; [|discriminate].
  inversion H; subst hst port rest0. clear H.
  destruct (parse_domain_inv _ _ D) as (Dh & Th & Ch).
  destruct (host_chars h Ch) as (C1 & C2 & C3 & C4 & C5).
  destruct (port_string_chars prt) as (Q1 & Q2 & Q3 & Q4).
  split; [|auto].
  unfold parse_authority. rewrite <- append_assoc.
  rewrite (span_app _ (h ++ port_string prt) t).
  - rewrite after_last_none, mem_ascii_false
      by (rewrite forall_string_app, C2, Q2; reflexivity).
    cbn [andb]. rewrite (span_app _ h (port_string prt)).
    + assert (startsWith h "[" = false) as S.
      { destruct h as [|c h]; [discriminate|]. cbn in Ch. apply andb_prop in Ch.
        destruct Ch as [Hc _]. destruct (host_char_facts c Hc) as (_ & _ & _ & _ & B & _).
        unfold startsWith. rewrite prefix_single. exact B. }
      rewrite S, Th. cbn [negb andb]. rewrite Dh, (parse_port_stable _ _ _ P). reflexivity.
    + exact C4.
    + destruct prt; cbn; auto.
  - rewrite forall_string_app, C1, Q1. reflexivity.
  - destruct t as [|c t]; [exact I|]. cbn in T. subst c. reflexivity.
Qed.

(** ** Path segments *)

Lemma percent_encode_char_plain (c : ascii) :
  negb (Ascii.eqb c "/") && negb (Ascii.eqb c "\") = true ->
  forall_string segment_char (percent_encode_char path_set c) = true.
Proof. all_chars c. Qed.

Lemma percent_encode_plain (raw : string) :
  slashless raw = true -> forall_string segment_char (percent_encode path_set raw) = true.
Proof.
  unfold slashless. induction raw as [|c raw IH]; simpl; [reflexivity|].
  intros H. apply andb_prop in H. destruct H as [Hc Hr].
  rewrite forall_string_app, (percent_encode_char_plain c Hc), (IH Hr). reflexivity.
Qed.

Lemma percent_encode_fixed (s : string) :
  forall_string segment_char s = true -> percent_encode path_set s = s.
Proof.
  induction s as [|c s IH]; simpl; [reflexivity|].
  intros H. apply andb_prop in H. destruct H as [Hc Hs].
  destruct (segment_char_path_char c Hc) as (_ & _ & P).
  unfold percent_encode_char. rewrite P, (IH Hs). reflexivity.
Qed.

Lemma forallb_removelast {A} (f : A -> bool) (l : list A) :
  forallb f l = true -> forallb f (removelast l) = true.
Proof.
  induction l as [|x l IH]; [reflexivity|].
  intros H. cbn in H. apply andb_prop in H. destruct H as [Hx Hl].
  destruct l as [|y l]; [reflexivity|].
  change (removelast (x :: y :: l)) with (x :: removelast (y :: l)).
  cbn [forallb]. rewrite Hx. apply IH, Hl.
Qed.

Lemma path_state_plain (raws acc : list string) :
  forallb slashless raws = true -> forallb plain_segment acc = true ->
  forallb plain_segment (path_state raws acc) = true.
Proof.
  revert acc; induction raws as [|raw raws IH]; intros acc R A; [exact A|].
  cbn in R. apply andb_prop in R. destruct R as [Hr Hs].
  cbn [path_state].
  assert (forallb plain_segment (if match raws with [] => true | _ => false end
                                 then [""] else []) = true) as E
      by (destruct raws; reflexivity).
  destruct (is_double_dot (percent_encode path_set raw)) eqn:DD.
  - apply IH; [exact Hs|]. rewrite forallb_app, (forallb_removelast _ _ A), E. reflexivity.
  - destruct (is_single_dot (percent_encode path_set raw)) eqn:SD.
    + apply IH; [exact Hs|]. rewrite forallb_app, A, E. reflexivity.
    + apply IH; [exact Hs|]. rewrite forallb_app, A. cbn. unfold plain_segment.
      rewrite (percent_encode_plain _ Hr), SD, DD. reflexivity.
Qed.

Lemma path_state_nonempty (raws acc : list string) :
  raws <> [] -> path_state raws acc <> [].
Proof.
  revert acc; induction raws as [|raw raws IH]; intros acc N; [congruence|].
  destruct raws as [|raw' raws].
  - cbn [path_state].
    destruct (is_double_dot (percent_encode path_set raw));
      [|destruct (is_single_dot (percent_encode path_set raw))];
      intros H; apply app_eq_nil in H; destruct H; discriminate.
  - cbn [path_state].
    destruct (is_double_dot (percent_encode path_set raw));
      [|destruct (is_single_dot (percent_encode path_set raw))];
      apply IH; discriminate.
Qed.

Lemma path_state_fixed (segs acc : list string) :
  forallb plain_segment segs = true -> path_state segs acc = (acc ++ segs)%list.
Proof.
  revert acc; induction segs as [|seg segs IH]; intros acc H.
  - rewrite app_nil_r. reflexivity.
  - cbn in H. apply andb_prop in H. destruct H as [Hp Hs].
    unfold plain_segment in Hp. apply andb_prop in Hp. destruct Hp as [Hp DD].
    apply andb_prop in Hp. destruct Hp as [Hc SD].
    cbn [path_state]. rewrite (percent_encode_fixed _ Hc).
    apply negb_true_iff in DD, SD. rewrite DD, SD, (IH _ Hs), <- app_assoc. reflexivity.
Qed.

(** ** [split] and the path serializer *)

Lemma forall_string_split (f : ascii -> bool) (s : string) :
  forall_string f s = true -> forallb (forall_string f) (split "/" s) = true.
Proof.
  induction s as [|c s IH]; [reflexivity|].
  cbn [forall_string]. intros H. apply andb_prop in H. destruct H as [Hc Hs].
  rewrite split_cons. specialize (IH Hs). destruct (Ascii.eqb c "/"); [exact IH|].
  pose proof (split_nonempty s) as N. destruct (split "/" s) as [|w ws]; [congruence|].
  cbn in *. rewrite Hc. exact IH.
Qed.

Lemma split_no_slash (s : string) :
  forallb (forall_string (fun c => negb (Ascii.eqb c "/"))) (split "/" s) = true.
Proof.
  induction s as [|c s IH]; [reflexivity|].
  rewrite split_cons. destruct (Ascii.eqb c "/") eqn:E; [exact IH|].
  pose proof (split_nonempty s) as N. destruct (split "/" s) as [|w ws]; [congruence|].
  cbn in *. rewrite E. exact IH.
Qed.

Lemma forallb_and {A} (f g : A -> bool) (l : list A) :
  forallb f l = true -> forallb g l = true -> forallb (fun x => f x && g x) l = true.
Proof.
  induction l as [|x l IH]; [reflexivity|]. cbn. intros F G.
  apply andb_prop in F, G. destruct F as [Fx Fl], G as [Gx Gl]. rewrite Fx, Gx. auto.
Qed.

Lemma forall_string_and (f g : ascii -> bool) (s : string) :
  forall_string f s = true -> forall_string g s = true ->
  forall_string (fun c => f c && g c) s = true.
Proof.
  induction s as [|c s IH]; [reflexivity|]. cbn. intros F G.
  apply andb_prop in F, G. destruct F as [Fx Fl], G as [Gx Gl]. rewrite Fx, Gx. auto.
Qed.

Lemma forallb_impl {A} (f g : A -> bool) (l : list A) :
  (forall x, f x = true -> g x = true) -> forallb f l = true -> forallb g l = true.
Proof.
  intros I. induction l as [|x l IH]; [reflexivity|]. cbn. intros F.
  apply andb_prop in F. destruct F as [Fx Fl]. rewrite (I _ Fx). auto.
Qed.

Lemma unbackslash_free (s : string) :
  forall_string (fun c => negb (Ascii.eqb c "\")) (map_string unbackslash s) = true.
Proof.
  induction s as [|c s IH]; [reflexivity|]. cbn. rewrite IH, andb_true_r.
  unfold unbackslash. destruct (Ascii.eqb c "\") eqn:E; [reflexivity|]. rewrite E. reflexivity.
Qed.

Lemma unbackslash_fixed (s : string) :
  forall_string (fun c => negb (Ascii.eqb c "\")) s = true -> map_string unbackslash s = s.
Proof.
  induction s as [|c s IH]; [reflexivity|]. cbn. intros H. apply andb_prop in H.
  destruct H as [Hc Hs]. rewrite (IH Hs). unfold unbackslash.
  destruct (Ascii.eqb c "\"); [discriminate | reflexivity].
Qed.

(** The segments of [parse_path true s] are plain, and there is one at least. *)
Lemma parse_path_plain (s : string) :
  forallb plain_segment (parse_path true s) = true /\ parse_path true s <> [].
Proof.
  unfold parse_path. fold unbackslash. split.
  - apply path_state_plain; [|reflexivity].
    pose proof (split_no_slash (map_string unbackslash s)) as A.
    pose proof (forall_string_split _ _ (unbackslash_free s)) as C.
    unfold slashless. revert A C. generalize (split "/" (map_string unbackslash s)).
    induction l as [|x l IH]; [reflexivity|]. cbn. intros A C.
    apply andb_prop in A, C. destruct A as [Ax Al], C as [Cx Cl].
    rewrite (forall_string_and _ _ _ Ax Cx). auto.
  - apply path_state_nonempty, split_nonempty.
Qed.

Lemma path_after_authority_plain (s : string) :
  forallb plain_segment (path_after_authority true s) = true
  /\ path_after_authority true s <> [].
Proof.
  unfold path_after_authority. destruct s as [|c s]; [apply parse_path_plain|].
  destruct (is_slash true c); apply parse_path_plain.
Qed.

(** ** Path names *)

Lemma pathname_of_cons (x : string) (l : list string) :
  pathname_of (x :: l) = "/" ++ x ++ pathname_of l.
Proof.
  unfold pathname_of. destruct l as [|y l]; cbn [map String.concat append].
  - rewrite append_empty_r. reflexivity.
  - reflexivity.
Qed.

Lemma join_split (q : string) : pathname_of (split "/" q) = "/" ++ q.
Proof.
  induction q as [|c q IH]; [reflexivity|].
  rewrite split_cons. destruct (Ascii.eqb c "/") eqn:E.
  - apply Ascii.eqb_eq in E. subst c. rewrite pathname_of_cons, IH. reflexivity.
  - pose proof (split_nonempty q) as N. destruct (split "/" q) as [|w ws]; [congruence|].
    cbn [push_head]. rewrite pathname_of_cons in *. cbn [append] in *.
    inversion IH as [IH']. reflexivity.
Qed.

Lemma split_slashless (x : string) :
  forall_string (fun c => negb (Ascii.eqb c "/")) x = true -> split "/" x = [x].
Proof.
  induction x as [|c x IH]; [reflexivity|]. cbn [forall_string]. intros H.
  apply andb_prop in H. destruct H as [Hc Hx]. rewrite split_cons, (IH Hx).
  destruct (Ascii.eqb c "/"); [discriminate | reflexivity].
Qed.

Lemma split_app (x r : string) :
  forall_string (fun c => negb (Ascii.eqb c "/")) x = true ->
  split "/" (x ++ String "/" r) = x :: split "/" r.
Proof.
  induction x as [|c x IH]; [reflexivity|]. cbn [forall_string append]. intros H.
  apply andb_prop in H. destruct H as [Hc Hx]. rewrite split_cons, (IH Hx).
  destruct (Ascii.eqb c "/"); [discriminate | reflexivity].
Qed.

Lemma split_pathname (segs : list string) :
  segs <> [] ->
  forallb (forall_string (fun c => negb (Ascii.eqb c "/"))) segs = true ->
  exists r, pathname_of segs = "/" ++ r /\ split "/" r = segs.
Proof.
  induction segs as [|x segs IH]; [congruence|]. intros _ H.
  cbn in H. apply andb_prop in H. destruct H as [Hx Hs].
  rewrite pathname_of_cons. destruct segs as [|y segs].
  - exists x. cbn. rewrite append_empty_r. split; [reflexivity | apply split_slashless, Hx].
  - destruct (IH ltac:(discriminate) Hs) as (r & E & S).
    exists (x ++ String "/" r). rewrite E. split; [reflexivity|].
    rewrite (split_app _ _ Hx), S. reflexivity.
Qed.

Lemma forall_string_unsplit (f : ascii -> bool) (r : string) :
  f "/"%char = true ->
  forallb (forall_string f) (split "/" r) = true -> forall_string f r = true.
Proof.
  intros F. induction r as [|c r IH]; [reflexivity|].
  rewrite split_cons. destruct (Ascii.eqb c "/") eqn:E.
  - apply Ascii.eqb_eq in E. subst c. cbn. intros H. rewrite F. auto.
  - pose proof (split_nonempty r) as N. destruct (split "/" r) as [|w ws]; [congruence|].
    cbn in *. intros H. apply andb_prop in H. destruct H as [H1 H2].
    apply andb_prop in H1. destruct H1 as [Hc Hw]. rewrite Hc, Hw in *. auto.
Qed.

Lemma forall_string_wts (f : ascii -> bool) (s : string) :
  forall_string f s = true -> forall_string f (without_trailing_slashes s) = true.
Proof.
  induction s as [|c s IH]; [reflexivity|]. cbn. intros H. apply andb_prop in H.
  destruct H as [Hc Hs]. specialize (IH Hs).
  destruct (without_trailing_slashes s).
  - destruct (Ascii.eqb c "/"); cbn; rewrite ?Hc; reflexivity.
  - cbn in *. rewrite Hc. exact IH.
Qed.

Lemma plain_segment_chars (seg : string) :
  plain_segment seg = true -> forall_string segment_char seg = true.
Proof.
  unfold plain_segment. intros H. apply andb_prop in H. destruct H as [H _].
  apply andb_prop in H. destruct H as [H _]. exact H.
Qed.

Lemma path_reparse (segs : list string) :
  forallb plain_segment segs = true -> segs <> [] ->
  let pathstr := without_trailing_slashes (pathname_of segs) in
  starts_path pathstr
  /\ forall_string solid pathstr = true
  /\ forallb plain_segment (path_after_authority true pathstr) = true
  /\ without_trailing_slashes (pathname_of (path_after_authority true pathstr)) = pathstr.
Proof.
  intros P N pathstr.
  assert (forallb (forall_string segment_char) segs = true) as C
      by (apply (forallb_impl plain_segment); [apply plain_segment_chars | exact P]).
  destruct (split_pathname segs N) as (r & E & S).
  { apply (forallb_impl (forall_string segment_char)); [|exact C].
    intros x. apply forall_string_impl. intros c Hc.
    destruct (segment_char_path_char c Hc) as (_ & A & _). rewrite A. reflexivity. }
  assert (forall_string path_char r = true) as R.
  { apply forall_string_unsplit; [reflexivity|]. rewrite S.
    apply (forallb_impl (forall_string segment_char)); [|exact C].
    intros x. apply forall_string_impl. intros c Hc.
    apply (segment_char_path_char c Hc). }
  destruct (split_trailing r) as (k & T). rewrite S in T.
  subst pathstr. rewrite E. change ("/" ++ r) with (String "/" r).
  cbn [without_trailing_slashes].
  pose proof (forall_string_wts _ _ R) as Q.
  pose proof (without_trailing_slashes_idem r) as I.
  destruct (without_trailing_slashes r) as [|d t] eqn:W.
  - cbn. repeat split; reflexivity.
  - set (q := String d t) in *.
    assert (forallb plain_segment (split "/" q) = true) as Pq.
    { rewrite T, forallb_app in P. apply andb_prop in P. apply P. }
    assert (path_after_authority true (String "/" q) = split "/" q) as A.
    { cbn [path_after_authority is_slash Ascii.eqb Bool.eqb orb andb]. unfold parse_path.
      fold unbackslash. rewrite unbackslash_fixed.
      - rewrite (path_state_fixed _ _ Pq). reflexivity.
      - apply (forall_string_impl path_char); [|exact Q].
        intros c Hc. unfold path_char in Hc. apply andb_prop in Hc. apply Hc. }
    rewrite A. split; [reflexivity|]. split; [|split; [exact Pq|]].
    + change (String "/" q) with ("/" ++ q). rewrite forall_string_app.
      rewrite (forall_string_impl path_char solid q path_char_facts Q). reflexivity.
    + rewrite join_split. change ("/" ++ q) with (String "/" q).
      cbn [without_trailing_slashes]. rewrite I. reflexivity.
Qed.

(** ** Schemes *)

Lemma tuple_scheme_cases (sch : string) :
  tuple_scheme sch = true ->
  sch = "ftp" \/ sch = "http" \/ sch = "https" \/ sch = "ws" \/ sch = "wss".
Proof.
  unfold tuple_scheme. cbn [existsb]. rewrite !orb_true_iff, !String.eqb_eq.
  intuition discriminate.
Qed.

Lemma tuple_scheme_facts (sch : string) :
  tuple_scheme sch = true ->
  (forall X, parse_scheme (sch ++ String ":" X) = Some (sch, X))
  /\ String.eqb sch "file" = false
  /\ is_special sch = true
  /\ forall_string solid sch = true
  /\ truthy_string sch = true.
Proof.
  intros H. destruct (tuple_scheme_cases sch H) as [-> | [-> | [-> | [-> | ->]]]];
    repeat split; reflexivity.
Qed.

Ltac scheme_of H :=
  repeat match type of H with
         | context [let (_, _) := ?e in _] => destruct e
         | context [match ?e with Some _ => _ | None => _ end] =>
             destruct e; [|try discriminate H]
         | context [match ?e with EmptyString => _ | String _ _ => _ end] => destruct e
         | context [match ?e with Ascii _ _ _ _ _ _ _ _ => _ end] => destruct e
         | context [if ?e then _ else _] => destruct e
         end;
  try discriminate H; inversion H; reflexivity.

Lemma basic_parse_tuple_inv (s : string) (p : Parsed) :
  basic_parse s = Some p -> tuple_scheme (scheme p) = true ->
  exists h0 rest h segs,
    parse_authority true (scheme p) h0 = Some (h, port p, rest)
    /\ host p = Some h /\ path p = inr segs
    /\ forallb plain_segment segs = true /\ segs <> [].
Proof.
  unfold basic_parse. destruct (parse_scheme _) as [[sch rest]|]; [|discriminate].
  unfold parse_after_scheme.
  destruct (String.eqb sch "file") eqn:F.
  - apply String.eqb_eq in F. subst sch. intros H T. exfalso.
    assert (scheme p = "file") as E by scheme_of H.
    rewrite E in T. discriminate.
  - destruct (is_special sch) eqn:S.
    + destruct (parse_authority true sch _) as [[[hst prt] r]|] eqn:A; [|discriminate].
      destruct (span not_query_or_fragment r) as [pth tail].
      intros H T. inversion H; subst p; cbn in *.
      destruct (path_after_authority_plain pth) as (P & N).
      eexists _, r, hst, _. repeat split; eauto.
    + intros H T. exfalso.
      assert (scheme p = sch) as E by scheme_of H.
      rewrite E in T. destruct (tuple_scheme_facts sch T) as (_ & _ & S' & _). congruence.
Qed.

(** ** Parsing a sanitized URL again *)

Lemma solid_facts (c : ascii) :
  solid c = true ->
  negb (is_c0_or_space c) = true /\ negb (is_tab_or_newline c) = true
  /\ nonspace c = true /\ not_query_or_fragment c = true.
Proof. all_chars c; intros _; repeat split. Qed.

Lemma preprocess_solid (s : string) :
  forall_string solid s = true ->
  filter_string (fun c => negb (is_tab_or_newline c))
    (drop_while_end is_c0_or_space (drop_while is_c0_or_space s)) = s.
Proof.
  intros H.
  rewrite drop_while_none, drop_while_end_none, filter_string_all; auto;
    apply (forall_string_impl solid); auto; intros c Hc; apply (solid_facts c Hc).
Qed.

Lemma drop_slashes_host (h X : string) :
  truthy_string h = true -> forall_string host_char h = true ->
  drop_while (is_slash true) (String "/" (String "/" (h ++ X))) = h ++ X.
Proof.
  intros T C. destruct h as [|c h]; [discriminate|]. cbn in C.
  apply andb_prop in C. destruct C as [Hc _].
  destruct (host_char_facts c Hc) as (_ & _ & _ & _ & _ & S & _).
  cbn [drop_while is_slash Ascii.eqb Bool.eqb orb andb append]. rewrite S. reflexivity.
Qed.

Lemma reparse_tuple (sch h0 h : string) (prt : option N) (rest : string)
    (segs : list string) :
  tuple_scheme sch = true ->
  parse_authority true sch h0 = Some (h, prt, rest) ->
  forallb plain_segment segs = true -> segs <> [] ->
  let pathstr := without_trailing_slashes (pathname_of segs) in
  let out := sch ++ "://" ++ h ++ port_string prt ++ pathstr in
  forall_string solid out = true
  /\ basic_parse out
     = Some (mkParsed sch (Some h) prt (inr (path_after_authority true pathstr)) None).
Proof.
  intros T A P N pathstr out.
  destruct (tuple_scheme_facts sch T) as (PS & F & S & Cs & _).
  destruct (path_reparse segs P N) as (SP & CP & _ & _). fold pathstr in SP, CP.
  destruct (parse_authority_stable sch h0 h prt rest pathstr A SP) as (A' & _ & Th & Ch).
  destruct (host_chars h Ch) as (_ & _ & C3 & _).
  destruct (port_string_chars prt) as (_ & _ & Q3 & _).
  assert (forall_string solid out = true) as So.
  { unfold out. rewrite !forall_string_app, Cs, C3, Q3, CP. reflexivity. }
  split; [exact So|].
  unfold basic_parse. rewrite (preprocess_solid _ So).
  unfold out. change ("://" ++ h ++ port_string prt ++ pathstr)
    with (String ":" (String "/" (String "/" (h ++ port_string prt ++ pathstr)))).
  rewrite PS. unfold parse_after_scheme. rewrite F, S.
  rewrite (drop_slashes_host _ _ Th Ch), A'.
  assert (span not_query_or_fragment pathstr = (pathstr, "")) as Sp.
  { rewrite <- (append_empty_r pathstr) at 1. apply span_app; [|exact I].
    apply (forall_string_impl solid); [|exact CP]. intros c Hc. apply (solid_facts c Hc). }
  rewrite Sp. reflexivity.
Qed.

Lemma wts_slashless (b : string) :
  forall_string (fun c => negb (Ascii.eqb c "/")) b = true ->
  without_trailing_slashes b = b.
Proof.
  induction b as [|c b IH]; [reflexivity|]. cbn. intros H. apply andb_prop in H.
  destruct H as [Hc Hb]. rewrite (IH Hb).
  destruct (Ascii.eqb c "/"); [discriminate|]. destruct b; reflexivity.
Qed.

Lemma wts_after_slashless (a b t : string) :
  truthy_string b = true ->
  forall_string (fun c => negb (Ascii.eqb c "/")) b = true ->
  without_trailing_slashes t = t ->
  without_trailing_slashes (a ++ b ++ t) = a ++ b ++ t.
Proof.
  intros Tb Sb Wt.
  assert (without_trailing_slashes (b ++ t) = b ++ t) as E.
  { rewrite without_trailing_slashes_app, Wt, (wts_slashless b Sb).
    destruct t; [rewrite append_empty_r|]; reflexivity. }
  rewrite without_trailing_slashes_app, E.
  destruct (b ++ t) eqn:Z; [|reflexivity]. destruct b; discriminate.
Qed.

(** X1. On the reference browser, [sanitizeBaseUrl] is idempotent on every
    input that, once trimmed and without its white space and trailing
    slashes, parses as a URL of the scheme [http], [https], [ws], [wss] or
    [ftp]: the schemes whose origin is a tuple.  (An opaque origin is what
    breaks the idempotence, see [sanitizeBaseUrl_opaque_origin].) *)
Theorem sanitizeBaseUrl_idempotent_tuple (raw : string) (p : Parsed) :
  basic_parse (cleaned raw) = Some p ->
  tuple_scheme (scheme p) = true ->
  sanitizeBaseUrl (B := browser) (sanitizeBaseUrl (B := browser) raw)
  = sanitizeBaseUrl (B := browser) raw.
Proof.
  intros H T.
  destruct (basic_parse_tuple_inv _ _ H T) as (h0 & rest & h & segs & A & Hh & Hp & P & N).
  destruct (tuple_scheme_facts _ T) as (_ & _ & _ & _ & Ts).
  destruct (reparse_tuple _ _ _ _ _ _ T A P N) as (So & R).
  destruct (path_reparse segs P N) as (_ & _ & _ & W).
  set (pathstr := without_trailing_slashes (pathname_of segs)) in *.
  set (org := scheme p ++ "://" ++ h ++ port_string (port p)).
  assert (get_origin p = org) as O.
  { unfold get_origin. fold (tuple_scheme (scheme p)). rewrite T.
    unfold tuple_origin, get_hostname. rewrite Hh. reflexivity. }
  assert (get_pathname p = pathname_of segs) as Pn
      by (unfold get_pathname; rewrite Hp; reflexivity).
  assert (sanitizeBaseUrl (B := browser) raw = org ++ pathstr) as E1.
  { rewrite sanitizeBaseUrl_cleaned. destruct raw as [|c raw]; [discriminate H|].
    cbn [truthy_string URL_parse browser]. unfold parse. rewrite H.
    cbn [origin pathname]. rewrite O, Pn. reflexivity. }
  assert (org ++ pathstr = scheme p ++ "://" ++ h ++ port_string (port p) ++ pathstr) as E2
      by (unfold org; rewrite !append_assoc; reflexivity).
  rewrite E1, sanitizeBaseUrl_cleaned.
  assert (truthy_string (org ++ pathstr) = true) as Tr.
  { unfold org. destruct (scheme p); [discriminate Ts | reflexivity]. }
  rewrite Tr.
  assert (cleaned (org ++ pathstr) = org ++ pathstr) as C.
  { unfold cleaned. rewrite E2 in *. rewrite trim_none, filter_string_all.
    - destruct (parse_authority_stable _ _ _ _ _ "" A I) as (_ & _ & Th & Ch).
      destruct (host_chars h Ch) as (_ & _ & _ & _ & C5).
      destruct (port_string_chars (port p)) as (_ & _ & _ & Q4).
      change (scheme p ++ "://" ++ h ++ port_string (port p) ++ pathstr)
        with (scheme p ++ "://" ++ (h ++ port_string (port p) ++ pathstr)).
      rewrite <- (append_assoc h), <- (append_assoc (scheme p)).
      apply wts_after_slashless.
      + destruct h; [discriminate Th | reflexivity].
      + rewrite forall_string_app, C5, Q4. reflexivity.
      + apply without_trailing_slashes_idem.
    - apply (forall_string_impl solid); [|exact So]. intros c Hc. apply (solid_facts c Hc).
    - apply (forall_string_impl solid); [|exact So]. intros c Hc. apply (solid_facts c Hc). }
  rewrite C. cbn [URL_parse browser]. unfold parse. rewrite E2, R.
  cbn [origin pathname]. unfold get_origin. cbn [scheme]. fold (tuple_scheme (scheme p)).
  rewrite T. unfold tuple_origin, get_hostname, get_pathname. cbn [scheme host port path].
  fold (pathname_of (path_after_authority true pathstr)). rewrite W.
  rewrite !append_assoc. reflexivity.
Qed.

End Reparse.

(** A base URL with white space, an upper-case scheme and host, and
    trailing slashes. *)
Lemma sanitizeBaseUrl_idempotent_tuple_witness :
  sanitizeBaseUrl (B := Reference.browser)
    (sanitizeBaseUrl (B := Reference.browser) " HTTPS://Go.Example:8443/ yourls// ")
  = sanitizeBaseUrl (B := Reference.browser) " HTTPS://Go.Example:8443/ yourls// ".
Proof.
  apply (sanitizeBaseUrl_idempotent_tuple " HTTPS://Go.Example:8443/ yourls// "
           (Reference.mkParsed "https" (Some "go.example") (Some 8443%N)
              (inr ["yourls"]) None));
    vm_compute; reflexivity.
Defined.

(* ================================================================== *)
(** * The calls of the listener *)
(* ================================================================== *)

(** What the listener and the operations call, whatever the message, the
    settings, the permissions and the network. *)

Section Calls.
Context {B : Browser}.

Lemma calls_sent (w : World) (payload : list (string * value)) (keys : list string)
    (u : URL) (notes : trace) :
  URL_parse (sanitizeBaseUrl (storage_yourlsUrl w)) = Some u ->
  permissions_contains w (origin u ++ "/*") = true ->
  notes = []
  \/ (exists key,
        In key keys
        /\ notes = [Notification (i18n_getMessage "extensionName") (i18n_getMessage key)]) ->
  operation_calls w payload keys
    ([StorageGet; PermissionsContains (origin u ++ "/*");
      Fetch (sanitizeBaseUrl (storage_yourlsUrl w) ++ "/yourls-api.php") (toFormData payload)]
     ++ notes)%list.
Proof.
  intros U P N. right. exists u. split; [exact U|]. right. split; [exact P|].
  exists notes. split; [reflexivity | exact N].
Qed.

Lemma yourlsFetch_calls (w : World) (payload : list (string * value)) (keys : list string) :
  let base := sanitizeBaseUrl (storage_yourlsUrl w) in
  match yourlsFetch w base payload [StorageGet] with
  | (Ret (res, text, json), tr) =>
      exists u, URL_parse base = Some u
                /\ permissions_contains w (origin u ++ "/*") = true
                /\ fetch w (base ++ "/yourls-api.php") (toFormData payload) = inr res
                /\ text = text_of res /\ json = parseMaybeJson text
                /\ tr = [StorageGet; PermissionsContains (origin u ++ "/*");
                         Fetch (base ++ "/yourls-api.php") (toFormData payload)]
  | (Throw e, tr) =>
      operation_calls w payload keys tr /\ existsb is_notification tr = false
  end.
Proof.
  intros base. rewrite yourlsFetch_run. fold base.
  destruct (URL_parse base) as [u|] eqn:U; [|cbv beta iota; split; [left|]; reflexivity].
  cbn zeta. destruct (permissions_contains w (origin u ++ "/*")) eqn:P.
  - destruct (fetch w _ _) as [e|res] eqn:F.
    + split; [|reflexivity]. cbn [app]. rewrite <- (app_nil_r [StorageGet; _; _]).
      apply calls_sent; auto.
    + exists u. repeat split; auto.
  - split; [|reflexivity]. right. exists u. split; [exact U|]. left. split; [exact P | reflexivity].
Qed.

Lemma client_then (w : World) (payload : list (string * value)) (keys : list string)
    (post : Response * string * value -> M value) :
  quiet_or_success keys post ->
  operation_run w payload keys
    (bind (yourlsFetch w (sanitizeBaseUrl (storage_yourlsUrl w)) payload) post [StorageGet]).
Proof.
  intros Q. unfold bind. pose proof (yourlsFetch_calls w payload keys) as H. cbn zeta in H.
  destruct (yourlsFetch w (sanitizeBaseUrl (storage_yourlsUrl w)) payload [StorageGet])
    as [[[[res text] json]|e] tr].
  - destruct H as (u & U & P & F & -> & -> & ->).
    destruct (Q (res, text_of res, parseMaybeJson (text_of res))
                [StorageGet; PermissionsContains (origin u ++ "/*");
                 Fetch (sanitizeBaseUrl (storage_yourlsUrl w) ++ "/yourls-api.php")
                   (toFormData payload)])
      as [(o & ->) | (reply & key & I & -> & K)].
    + split; [|discriminate].
      rewrite <- (app_nil_r [StorageGet; _; _]). apply calls_sent; auto.
    + split.
      * apply calls_sent; eauto.
      * intros _. exists reply. split; [reflexivity | exact K].
  - destruct H as (H & N). split; [exact H|]. cbn [fst snd]. rewrite N. discriminate.
Qed.

Ltac settle :=
  repeat match goal with
         | |- context [if ?g then _ else _] => destruct g
         end;
  try (left; unfold throw, ret; eexists; reflexivity).

Lemma stopped (w : World) (payload : list (string * value)) (keys : list string)
    (o : outcome value) :
  operation_run w payload keys (o, [StorageGet]).
Proof. split; [left; reflexivity | discriminate]. Qed.

Lemma apiDbStats_run (w : World) :
  operation_run w (stats_payload (storage_apiSignature w)) [] (run (apiDbStats w)).
Proof.
  unfold run, apiDbStats. rewrite bind_getSettings.
  cbn [yourlsUrl apiSignature settings_of app].
  apply client_then. intros [[res text] json] t. settle.
Qed.

Lemma apiStats_run (w : World) (shortOrKeyword : value) :
  operation_run w
    (url_stats_payload (storage_apiSignature w)
       (extractKeyword (sanitizeBaseUrl (storage_yourlsUrl w)) shortOrKeyword)) []
    (run (apiStats w shortOrKeyword)).
Proof.
  unfold run, apiStats. rewrite bind_getSettings.
  cbn [yourlsUrl apiSignature settings_of app].
  apply client_then. intros [[res text] json] t. settle.
Qed.

Lemma apiShorten_run (w : World) (longUrl keyword title : value) :
  operation_run w (shorten_payload (storage_apiSignature w) longUrl keyword title)
    ["toastUrlExists"; "toastUrlCreated"]
    (run (apiShorten w longUrl keyword title)).
Proof.
  unfold run, apiShorten. rewrite bind_getSettings.
  cbn [yourlsUrl apiSignature settings_of app].
  destruct (negb _ || negb _); [apply stopped|].
  apply client_then. intros [[res text] json] t.
  destruct (truthy json && _).
  - right. eexists _, "toastUrlExists". repeat split. cbn. auto.
  - destruct (ok res && truthy json && _).
    + right. eexists _, "toastUrlCreated". repeat split. cbn. auto.
    + settle.
Qed.

Lemma apiDelete_run (w : World) (shortOrKeyword : value) :
  operation_run w
    (delete_payload (storage_apiSignature w)
       (extractKeyword (sanitizeBaseUrl (storage_yourlsUrl w)) shortOrKeyword))
    ["toastUrlDeleted"]
    (run (apiDelete w shortOrKeyword)).
Proof.
  unfold run, apiDelete. rewrite bind_getSettings.
  cbn [yourlsUrl apiSignature settings_of app].
  destruct (negb _); [apply stopped|].
  apply client_then. intros [[res text] json] t.
  destruct (ok res && isSuccess json).
  - right. eexists _, "toastUrlDeleted". repeat split. cbn. auto.
  - settle.
Qed.

Lemma apiCheck_run (w : World) :
  operation_run w (stats_payload (storage_apiSignature w)) [] (run (apiCheck w)).
Proof.
  unfold run, apiCheck. rewrite bind_getSettings.
  cbn [yourlsUrl apiSignature settings_of app].
  destruct (negb _ || negb _); [apply stopped|].
  unfold bind, try_catch.
  pose proof (yourlsFetch_calls w (stats_payload (storage_apiSignature w)) []) as H.
  cbn zeta in H.
  destruct (yourlsFetch w (sanitizeBaseUrl (storage_yourlsUrl w))
              (stats_payload (storage_apiSignature w)) [StorageGet])
    as [[[[res text] json]|e] tr].
  - destruct H as (u & U & P & F & -> & -> & ->).
    destruct (ok res && truthy _); (split; [|discriminate]);
      rewrite <- (app_nil_r [StorageGet; _; _]); apply calls_sent; auto.
  - destruct H as (H & N). split; [exact H|]. cbn [fst snd ret]. rewrite N. discriminate.
Qed.

Lemma caught_run (w : World) (payload : list (string * value)) (keys : list string)
    (r : outcome value * trace) :
  operation_run w payload keys r -> operation_run w payload keys (caught r).
Proof.
  destruct r as [[reply|e] tr]; [auto|]. intros [C N]. split; [exact C|].
  intros X. destruct (N X) as (? & ? & _). discriminate.
Qed.

Lemma wrapped_run (w : World) (payload : list (string * value)) (keys : list string)
    (m : M value) :
  operation_run w payload keys (run m) ->
  operation_run w payload keys
    (run (data <- m ;; ret (VObj [("ok", VBool true); ("data", data)]))).
Proof.
  unfold run, bind. destruct (m []) as [[data|e] tr]; [|auto].
  intros [C _]. split; [exact C|]. intros _. eexists. split; reflexivity.
Qed.

Lemma onMessage_caught (w : World) (msg : value) :
  run (onMessage w msg) = caught (run (dispatch w msg)).
Proof. apply onMessage_run. Qed.

(** The listener runs the operation of the type of the message, and makes
    no call of its own. *)
Lemma onMessage_operation_of (w : World) (msg : value) (type : string) :
  prop msg "type" = VStr type ->
  match operation_of w msg type with
  | Some (op, payload, keys) =>
      run (onMessage w msg) = caught (run op)
      /\ operation_run w payload keys (run (onMessage w msg))
  | None => run (onMessage w msg) = (Ret (failure "Unknown message type"), [])
  end.
Proof.
  intros T. rewrite onMessage_caught. unfold dispatch, operation_of.
  assert (nullish msg = false) as N by (destruct msg; try discriminate; reflexivity).
  rewrite N, T. change (run (ret tt;;; ?m)) with (run m). cbn [strict_eq_string].
  repeat match goal with
         | |- context [String.eqb type ?s] => destruct (String.eqb type s)
         end;
    try (split; [reflexivity|]; apply caught_run);
    [ apply apiCheck_run | apply apiShorten_run | apply wrapped_run, apiStats_run
    | apply apiDelete_run | apply wrapped_run, apiDbStats_run | reflexivity ].
Qed.

Lemma onMessage_untyped (w : World) (msg : value) :
  (forall type, prop msg "type" <> VStr type) -> snd (run (onMessage w msg)) = [].
Proof.
  intros T. rewrite onMessage_caught. unfold dispatch.
  destruct (nullish msg); [reflexivity|].
  change (run (ret tt;;; ?m)) with (run m).
  destruct (prop msg "type") eqn:E; try reflexivity. destruct (T s). reflexivity.
Qed.

Lemma typed_or_not (v : value) : (exists s, v = VStr s) \/ (forall s, v <> VStr s).
Proof. destruct v; try (right; intros s; discriminate). left. eauto. Qed.

Lemma onMessage_operation (w : World) (msg : value) :
  snd (run (onMessage w msg)) = []
  \/ exists type payload keys op,
       prop msg "type" = VStr type
       /\ operation_of w msg type = Some (op, payload, keys)
       /\ operation_run w payload keys (run (onMessage w msg)).
Proof.
  destruct (typed_or_not (prop msg "type")) as [(type & T) | T];
    [|left; apply onMessage_untyped, T].
  pose proof (onMessage_operation_of w msg type T) as H.
  destruct (operation_of w msg type) as [[[op payload] keys]|] eqn:O.
  - right. exists type, payload, keys, op. tauto.
  - left. rewrite H. reflexivity.
Qed.

Lemma operation_of_form (w : World) (msg : value) (type : string)
    (op : M value) (payload : list (string * value)) (keys : list string) :
  operation_of w msg type = Some (op, payload, keys) ->
  In ("format", "json") (toFormData payload)
  /\ In ("signature", storage_apiSignature w) (toFormData payload).
Proof.
  unfold operation_of.
  repeat match goal with
         | |- context [String.eqb type ?s] => destruct (String.eqb type s)
         end;
    intros H; inversion H; subst; clear H;
    unfold shorten_payload; cbn [app toFormData nullish ToString stats_payload
                                   url_stats_payload delete_payload];
    split; cbn; auto.
Qed.

(** X6. Whatever the message and the world, the listener sends at most one
    request; it goes to [yourls-api.php] under the sanitized base URL of the
    settings, as a form with [format=json] and the stored signature, right
    after the host permission of the origin of that base URL was queried and
    found granted; and no permission is ever requested. *)
Theorem onMessage_requests (w : World) (msg : value) :
  let base := sanitizeBaseUrl (storage_yourlsUrl w) in
  let tr := snd (run (onMessage w msg)) in
  List.length (filter is_fetch tr) <= 1
  /\ existsb is_permission_request tr = false
  /\ forall endpoint form,
       In (Fetch endpoint form) tr ->
       endpoint = base ++ "/yourls-api.php"
       /\ In ("format", "json") form
       /\ In ("signature", storage_apiSignature w) form
       /\ exists u before after,
            URL_parse base = Some u
            /\ permissions_contains w (origin u ++ "/*") = true
            /\ tr = (before ++ PermissionsContains (origin u ++ "/*")
                              :: Fetch endpoint form :: after)%list
            /\ existsb is_fetch before = false.
Proof.
  intros base tr.
  destruct (onMessage_operation w msg) as [E | (type & payload & keys & op & _ & O & C & _)];
    cbn [snd] in *; fold tr in E || fold tr in C.
  - rewrite E. split; [cbn; lia | split; [reflexivity|]]. intros ? ? [].
  - destruct (operation_of_form _ _ _ _ _ _ O) as (F & S).
    destruct C as [-> | (u & U & [(P & ->) | (P & notes & -> & N)])].
    + split; [cbn; lia | split; [reflexivity|]]. intros ? ? [I | []]. discriminate.
    + split; [cbn; lia | split; [reflexivity|]]. intros ? ? [I | [I | []]]; discriminate.
    + assert (filter is_fetch notes = [] /\ existsb is_permission_request notes = false
              /\ forall e f, ~ In (Fetch e f) notes) as (N1 & N2 & N3).
      { destruct N as [-> | (key & _ & ->)]; repeat split; auto; intros e f I;
          cbn in I; intuition discriminate. }
      split; [|split].
      * cbn. rewrite N1. cbn. lia.
      * cbn. exact N2.
      * intros endpoint form [I | [I | [I | I]]]; try discriminate.
        -- inversion I; subst. repeat split; auto.
           exists u, [StorageGet], notes. repeat split; auto.
        -- destruct (N3 _ _ I).
Qed.


Lemma operation_of_keys (w : World) (msg : value) (type : string)
    (op : M value) (payload : list (string * value)) (keys : list string) (key : string) :
  operation_of w msg type = Some (op, payload, keys) -> In key keys ->
  (type = "SHORTEN_URL" /\ In key ["toastUrlExists"; "toastUrlCreated"])
  \/ (type = "DELETE_SHORTURL" /\ key = "toastUrlDeleted").
Proof.
  unfold operation_of.
  destruct (String.eqb type "CHECK_CONNECTION");
    [intros H; inversion H; subst; intros []|].
  destruct (String.eqb type "SHORTEN_URL") eqn:E2;
    [intros H; inversion H; subst; apply String.eqb_eq in E2; auto|].
  destruct (String.eqb type "GET_STATS");
    [intros H; inversion H; subst; intros []|].
  destruct (String.eqb type "DELETE_SHORTURL") eqn:E4;
    [intros H; inversion H; subst; apply String.eqb_eq in E4; intros [<- | []]; auto|].
  destruct (String.eqb type "GET_DB_STATS");
    [intros H; inversion H; subst; intros []|].
  discriminate.
Qed.

(** X7. A notification is shown by a request to shorten or to delete only, once,
    as the last call of a run in which a request was sent, and with a reply
    that is ok: a failure never comes with a notification. *)
Theorem onMessage_notifications (w : World) (msg : value) (title m : string) :
  In (Notification title m) (snd (run (onMessage w msg))) ->
  title = i18n_getMessage "extensionName"
  /\ (exists reply,
        fst (run (onMessage w msg)) = Ret reply /\ prop reply "ok" = VBool true)
  /\ (exists before,
        snd (run (onMessage w msg)) = (before ++ [Notification title m])%list
        /\ existsb is_fetch before = true
        /\ existsb is_notification before = false)
  /\ ((prop msg "type" = VStr "SHORTEN_URL"
       /\ (m = i18n_getMessage "toastUrlExists" \/ m = i18n_getMessage "toastUrlCreated"))
      \/ (prop msg "type" = VStr "DELETE_SHORTURL" /\ m = i18n_getMessage "toastUrlDeleted")).
Proof.
  destruct (onMessage_operation w msg) as [E | (type & payload & keys & op & T & O & C & N)].
  - rewrite E. intros [].
  - intros I.
    assert (existsb is_notification (snd (run (onMessage w msg))) = true) as X.
    { apply existsb_exists. eexists. split; [exact I | reflexivity]. }
    specialize (N X).
    destruct C as [E | (u & U & [(P & E) | (P & notes & E & [-> | (key & K & ->)])])];
      rewrite E in I, X |- *; try discriminate X.
    destruct I as [I | [I | [I | [I | []]]]]; try discriminate I.
    inversion I; subst title m. split; [reflexivity|]. split; [exact N|].
    split; [eexists [_; _; _]; repeat split|].
    destruct (operation_of_keys _ _ _ _ _ _ _ O K) as [(-> & [<- | [<- | []]]) | (-> & ->)];
      auto.
Qed.

Lemma calls_form (w : World) (payload : list (string * value)) (keys : list string)
    (tr : trace) (endpoint : string) (form : list (string * string)) :
  operation_calls w payload keys tr -> In (Fetch endpoint form) tr ->
  form = toFormData payload.
Proof.
  intros [-> | (u & U & [(P & ->) | (P & notes & -> & N)])] I.
  - destruct I as [I | []]. discriminate.
  - destruct I as [I | [I | []]]; discriminate.
  - destruct I as [I | [I | [I | I]]]; try discriminate.
    + inversion I. reflexivity.
    + destruct N as [-> | (key & _ & ->)]; [destruct I|].
      destruct I as [I | []]. discriminate.
Qed.

Lemma toFormData_app (a b : list (string * value)) :
  toFormData (a ++ b) = (toFormData a ++ toFormData b)%list.
Proof.
  induction a as [|[k v] a IH]; [reflexivity|]. cbn.
  destruct (nullish v); cbn; congruence.
Qed.

Lemma truthy_not_nullish (v : value) : truthy v = true -> nullish v = false.
Proof. destruct v; cbn; congruence. Qed.

Lemma truthy_or_else_empty (v : value) :
  truthy (or_else v (VStr "")) = truthy v
  /\ (truthy v = true -> or_else v (VStr "") = v).
Proof. unfold or_else. destruct (truthy v) eqn:E; auto. split; [reflexivity | discriminate]. Qed.

Lemma caught_calls (r : outcome value * trace) : snd (caught r) = snd r.
Proof. destruct r as [[?|?] ?]; reflexivity. Qed.

(** X8. The forms of the requests, by the type of the message.  A request to
    delete carries a keyword that is not empty.  A request to shorten is
    sent with complete settings only; it carries the URL unless the message
    has none, and a keyword and a title when the message has truthy ones. *)
Theorem onMessage_forms (w : World) (msg : value) (endpoint : string)
    (form : list (string * string)) :
  let base := sanitizeBaseUrl (storage_yourlsUrl w) in
  let signature := storage_apiSignature w in
  let kw := extractKeyword base (prop msg "shortUrl") in
  In (Fetch endpoint form) (snd (run (onMessage w msg))) ->
  ((prop msg "type" = VStr "CHECK_CONNECTION" \/ prop msg "type" = VStr "GET_DB_STATS")
   /\ form = [("action", "stats"); ("format", "json"); ("signature", signature)])
  \/ (prop msg "type" = VStr "GET_STATS"
      /\ form = [("action", "url-stats"); ("format", "json"); ("signature", signature);
                 ("shorturl", kw)])
  \/ (prop msg "type" = VStr "DELETE_SHORTURL"
      /\ form = [("action", "delete"); ("format", "json"); ("signature", signature);
                 ("shorturl", kw)]
      /\ kw <> "")
  \/ (prop msg "type" = VStr "SHORTEN_URL"
      /\ form = ([("action", "shorturl"); ("format", "json"); ("signature", signature)]
                 ++ field (negb (nullish (prop msg "longUrl"))) "url" (prop msg "longUrl")
                 ++ field (truthy (prop msg "keyword")) "keyword" (prop msg "keyword")
                 ++ field (truthy (prop msg "title")) "title" (prop msg "title"))%list
      /\ base <> "" /\ signature <> "").
Proof.
  intros base signature kw I.
  destruct (typed_or_not (prop msg "type")) as [(type & T) | T];
    [|rewrite (onMessage_untyped w msg T) in I; destruct I].
  pose proof (onMessage_operation_of w msg type T) as H. unfold operation_of in H.
  destruct (String.eqb type "CHECK_CONNECTION") eqn:E1.
  { apply String.eqb_eq in E1. subst type. destruct H as (_ & C & _).
    left. split; [auto|]. apply (calls_form _ _ _ _ _ _ C I). }
  destruct (String.eqb type "SHORTEN_URL") eqn:E2.
  { apply String.eqb_eq in E2. subst type. destruct H as (R & C & _).
    right. right. right. split; [exact T|].
    rewrite (calls_form _ _ _ _ _ _ C I). split.
    - unfold shorten_payload. rewrite !toFormData_app.
      destruct (truthy_or_else_empty (prop msg "keyword")) as (K1 & K2).
      destruct (truthy_or_else_empty (prop msg "title")) as (T1 & T2).
      rewrite K1, T1. cbn [toFormData nullish ToString app]. unfold field.
      destruct (nullish (prop msg "longUrl")); cbn [negb app];
        destruct (truthy (prop msg "keyword")) eqn:K;
        destruct (truthy (prop msg "title")) eqn:Ti;
        rewrite ?(K2 eq_refl), ?(T2 eq_refl);
        cbn [toFormData app]; rewrite ?(truthy_not_nullish _ K), ?(truthy_not_nullish _ Ti);
        reflexivity.
    - rewrite R, caught_calls in I. unfold run, apiShorten in I.
      rewrite bind_getSettings in I. cbn [yourlsUrl apiSignature settings_of app] in I.
      fold base signature in I.
      destruct base; [destruct I as [I | []]; discriminate|].
      destruct signature; [destruct I as [I | []]; discriminate|].
      split; discriminate. }
  destruct (String.eqb type "GET_STATS") eqn:E3.
  { apply String.eqb_eq in E3. subst type. destruct H as (_ & C & _).
    right. left. split; [exact T|]. apply (calls_form _ _ _ _ _ _ C I). }
  destruct (String.eqb type "DELETE_SHORTURL") eqn:E4.
  { apply String.eqb_eq in E4. subst type. destruct H as (R & C & _).
    right. right. left. split; [exact T|]. split; [apply (calls_form _ _ _ _ _ _ C I)|].
    rewrite R, caught_calls in I. unfold run, apiDelete in I.
    rewrite bind_getSettings in I. cbn [yourlsUrl apiSignature settings_of app] in I.
    fold base kw in I.
    destruct kw; [destruct I as [I | []]; discriminate | discriminate]. }
  destruct (String.eqb type "GET_DB_STATS") eqn:E5.
  { apply String.eqb_eq in E5. subst type. destruct H as (_ & C & _).
    left. split; [auto|]. apply (calls_form _ _ _ _ _ _ C I). }
  rewrite H in I. destruct I.
Qed.

(** X9. The connectivity check, for a call with complete settings that gets an
    HTTP response: an ok response with a truthy body gives
    [{ ok: true, total }], where [total] is [json.total_links] unless that
    is [null] or [undefined], then [json.stats.total_links] likewise, then
    ["?"]; so a total of 0 is reported as 0.  Any other response gives the
    connection-failed reply.  No notification is shown. *)
Theorem apiCheck_outcome (w : World) (res : Response) :
  let base := sanitizeBaseUrl (storage_yourlsUrl w) in
  let signature := storage_apiSignature w in
  let json := parseMaybeJson (text_of res) in
  let total :=
    if negb (nullish (prop json "total_links")) then prop json "total_links"
    else if negb (nullish (opt_prop (prop json "stats") "total_links"))
    then prop (prop json "stats") "total_links"
    else VStr "?" in
  truthy_string base = true ->
  truthy_string signature = true ->
  answered w base (stats_payload signature) res ->
  exists tr,
    run (apiCheck w)
    = (Ret (if ok res && truthy json
            then VObj [("ok", VBool true); ("total", total)]
            else failure (i18n_getMessage "optionsStatusConnFailed")), tr)
    /\ existsb is_notification tr = false.
Proof.
  intros base signature json total Hb Hs A.
  destruct (yourlsFetch_answered w base _ res [StorageGet] A) as (made & F).
  pose proof (yourlsFetch_calls w (stats_payload signature) []) as C. cbn zeta in C.
  fold base in C. rewrite F in C. destruct C as (u & _ & _ & _ & _ & _ & E).
  exists ([StorageGet] ++ made)%list. split; [|rewrite E; reflexivity].
  unfold run, apiCheck. rewrite bind_getSettings.
  cbn [yourlsUrl apiSignature settings_of app]. fold base. fold signature.
  rewrite Hb, Hs. cbn [negb orb]. unfold bind, try_catch. rewrite F. fold json.
  destruct (ok res && truthy json); [|reflexivity].
  unfold ret. subst total. do 5 f_equal. unfold coalesce, opt_prop.
  destruct (nullish (prop json "total_links")) eqn:N1; cbn [negb]; rewrite ?N1; [|reflexivity].
  destruct (nullish (prop json "stats")) eqn:N2; cbn [negb nullish]; [reflexivity|].
  destruct (nullish (prop (prop json "stats") "total_links")) eqn:N3; cbn [negb]; rewrite ?N3;
    reflexivity.
Qed.

(** A request goes to the endpoint of the base URL, with its permission. *)
Lemma onMessage_fetch (w : World) (msg : value) (endpoint : string)
    (form : list (string * string)) :
  let base := sanitizeBaseUrl (storage_yourlsUrl w) in
  In (Fetch endpoint form) (snd (run (onMessage w msg))) ->
  endpoint = base ++ "/yourls-api.php"
  /\ exists u, URL_parse base = Some u /\ permissions_contains w (origin u ++ "/*") = true.
Proof.
  intros base I.
  destruct (onMessage_operation w msg) as [E | (type & payload & keys & op & _ & _ & C & _)].
  - rewrite E in I. destruct I.
  - destruct C as [E | (u & U & [(P & E) | (P & notes & E & N)])]; rewrite E in I.
    + destruct I as [I | []]. discriminate.
    + destruct I as [I | [I | []]]; discriminate.
    + destruct I as [I | [I | [I | I]]]; try discriminate.
      * inversion I. split; [reflexivity | eauto].
      * destruct N as [-> | (key & _ & ->)]; [destruct I|].
        destruct I as [I | []]. discriminate.
Qed.

(** X13. [extractShort] gives the first truthy value among [json.shorturl],
    [json.url.shorturl], [json.link.shorturl] and the base URL without its
    trailing slashes, a slash and [json.keyword]; so it gives [null] or a
    truthy value, and the trailing slashes of the base URL do not count. *)
Theorem extractShort_described (json : value) (base : string) :
  extractShort json base = first_truthy (strategies json (without_trailing_slashes base))
  /\ (extractShort json base = VNull \/ truthy (extractShort json base) = true)
  /\ extractShort json (base ++ "/") = extractShort json base.
Proof.
  assert (forall b, extractShort json b
                    = first_truthy (strategies json (without_trailing_slashes b))) as E.
  { intros b. destruct (truthy json) eqn:T; [apply extractShort_strategies, T|].
    unfold extractShort. rewrite T. destruct json; try discriminate T; reflexivity. }
  split; [apply E|]. split.
  - rewrite E. unfold first_truthy.
    destruct (find truthy _) as [v|] eqn:F; [|left; reflexivity].
    right. apply find_some in F. apply F.
  - rewrite !E, without_trailing_slashes_app. reflexivity.
Qed.

End Calls.

(* ================================================================== *)
(** * The two-word patterns *)
(* ================================================================== *)

Section Words.

Lemma is_some_or {X} (a b : option X) :
  match match a with Some x => Some x | None => b end with Some _ => true | None => false end
  = match a with Some _ => true | None => false end
    || match b with Some _ => true | None => false end.
Proof. destruct a; reflexivity. Qed.

Lemma repeat_greedy_word {X} (b : string) (s : string) (cap : option string)
    (k : string -> option string -> option X) :
  (forall rest cap, k rest cap <> None) ->
  match repeat_greedy (atom_match true Dot) s (fun rest => exec true (word b) rest cap k) with
  | Some _ => true
  | None => false
  end = on_line_ci b s.
Proof.
  intros K. induction s as [|c s IH].
  - cbn. rewrite exec_word. destruct (prefix_ci b ""); [|reflexivity].
    destruct (k _ _) eqn:E; [reflexivity | destruct (K _ _ E)].
  - cbn [repeat_greedy on_line_ci atom_match].
    assert (match exec true (word b) (String c s) cap k with Some _ => true | None => false end
            = prefix_ci b (String c s)) as P.
    { rewrite exec_word. destruct (prefix_ci b (String c s)); [|reflexivity].
      destruct (k _ _) eqn:E; [reflexivity | destruct (K _ _ E)]. }
    destruct (negb (isLineTerminator c)).
    + rewrite is_some_or, IH, P. cbn. apply orb_comm.
    + rewrite P. cbn. rewrite orb_false_r. reflexivity.
Qed.

Lemma match_here_then (a b s : string) :
  match match_here true (Cat (word a) (Cat (Star Dot) (word b))) s with
  | Some _ => true
  | None => false
  end = prefix_ci a s && on_line_ci b (substring_from (String.length a) s).
Proof.
  unfold match_here. cbn [exec]. rewrite exec_word.
  destruct (prefix_ci a s); [|reflexivity]. cbn [andb].
  apply repeat_greedy_word. discriminate.
Qed.

Lemma test_then (a b s : string) :
  test true (Cat (word a) (Cat (Star Dot) (word b))) s = then_on_line_ci a b s.
Proof.
  unfold test. induction s as [|c s IH].
  - cbn [search then_on_line_ci]. pose proof (match_here_then a b "") as H.
    destruct (match_here _ _ _); rewrite <- H; [reflexivity | rewrite orb_false_r; reflexivity].
  - cbn [search then_on_line_ci]. pose proof (match_here_then a b (String c s)) as H.
    destruct (match_here _ _ _); rewrite <- H; [reflexivity|].
    cbn [orb]. rewrite <- IH. destruct (search _ _ s); reflexivity.
Qed.


Lemma prefix_ci_split (w s : string) :
  prefix_ci w s = true <->
  exists x, s = x ++ substring_from (String.length w) s /\ eq_ci x w = true.
Proof.
  unfold eq_ci. revert s; induction w as [|a w IH]; intros s.
  - split; [intros _; exists ""; split; reflexivity | reflexivity].
  - destruct s as [|c s]; cbn [prefix_ci substring_from String.length].
    + split; [discriminate|]. intros ([|? ?] & E & Q); cbn in *; discriminate.
    + rewrite andb_true_iff, IH. split.
      * intros (C & x & E & Q). exists (String c x). cbn. rewrite <- E.
        split; [reflexivity|]. rewrite C. exact Q.
      * intros ([|d x] & E & Q); cbn in Q; [discriminate|].
        cbn in E. inversion E as [[D E']]. subst d.
        destruct (Ascii.eqb (upper c) (upper a)) eqn:C; [|discriminate].
        split; [reflexivity|]. exists x. rewrite <- E'. auto.
Qed.

Lemma eq_ci_length (x w : string) : eq_ci x w = true -> String.length x = String.length w.
Proof.
  unfold eq_ci. revert w; induction x as [|c x IH]; intros [|a w]; cbn; try discriminate; auto.
  destruct (Ascii.eqb _ _); [|discriminate]. intros H. f_equal. auto.
Qed.

Lemma substring_from_app (x r : string) : substring_from (String.length x) (x ++ r) = r.
Proof. induction x; [destruct r|]; auto. Qed.

Lemma prefix_ci_app (w x r : string) : eq_ci x w = true -> prefix_ci w (x ++ r) = true.
Proof.
  intros Q. apply prefix_ci_split. exists x. split; [|exact Q].
  rewrite <- (eq_ci_length _ _ Q), substring_from_app. reflexivity.
Qed.

Lemma on_line_ci_split (b s : string) :
  on_line_ci b s = true <->
  exists mid y post, s = mid ++ y ++ post /\ same_line mid = true /\ eq_ci y b = true.
Proof.
  unfold same_line. induction s as [|c s IH]; cbn [on_line_ci]; rewrite orb_true_iff.
  - split.
    + intros [P | P]; [|discriminate]. apply prefix_ci_split in P. destruct P as (x & E & Q).
      exists "", x, (substring_from (String.length b) ""). auto.
    + intros (mid & y & post & E & M & Q). left.
      destruct mid; [|discriminate]. cbn in E. rewrite E. apply prefix_ci_app, Q.
  - rewrite andb_true_iff, IH. split.
    + intros [P | (L & mid & y & post & E & M & Q)].
      * apply prefix_ci_split in P. destruct P as (x & E & Q).
        exists "", x, (substring_from (String.length b) (String c s)). auto.
      * exists (String c mid), y, post. cbn. rewrite L, M, E. auto.
    + intros ([|d mid] & y & post & E & M & Q).
      * left. cbn in E. rewrite E. apply prefix_ci_app, Q.
      * right. cbn in E, M. inversion E; subst. apply andb_prop in M. destruct M as [L M].
        split; [exact L|]. exists mid, y, post. auto.
Qed.

Lemma then_on_line_ci_split (a b s : string) :
  then_on_line_ci a b s = true <->
  exists pre x mid y post,
    s = pre ++ x ++ mid ++ y ++ post
    /\ eq_ci x a = true /\ same_line mid = true /\ eq_ci y b = true.
Proof.
  induction s as [|c s IH]; cbn [then_on_line_ci]; rewrite orb_true_iff, andb_true_iff.
  - split.
    + intros [(P & O) | F]; [|discriminate].
      apply prefix_ci_split in P. destruct P as (x & E & Q).
      apply on_line_ci_split in O. destruct O as (mid & y & post & E' & M & Q').
      exists "", x, mid, y, post. rewrite <- E'. auto.
    + intros ([|? ?] & x & mid & y & post & E & Q & M & Q'); [|discriminate]. left.
      cbn in E. rewrite E. split; [apply prefix_ci_app, Q|].
      rewrite <- (eq_ci_length _ _ Q), substring_from_app.
      apply on_line_ci_split. eauto 6.
  - rewrite IH. split.
    + intros [(P & O) | (pre & x & mid & y & post & E & R)].
      * apply prefix_ci_split in P. destruct P as (x & E & Q).
        apply on_line_ci_split in O. destruct O as (mid & y & post & E' & M & Q').
        exists "", x, mid, y, post. rewrite <- E'. auto.
      * exists (String c pre), x, mid, y, post. cbn. rewrite E. auto.
    + intros ([|d pre] & x & mid & y & post & E & Q & M & Q').
      * left. cbn in E. rewrite E. split; [apply prefix_ci_app, Q|].
        rewrite <- (eq_ci_length _ _ Q), substring_from_app.
        apply on_line_ci_split. eauto 6.
      * right. cbn in E. inversion E; subst. exists pre, x, mid, y, post. auto.
Qed.

(** X10. On texts of the code units 0 to 255, as the strings here are,
    [/success.*deleted/i] and [/keyword.*already exists/i] accept the texts
    in which the first word occurs and the second occurs after it with no
    line feed and no carriage return in between, in any case of the
    letters: [.] does not cross a line break.  The two other line
    terminators of the language, U+2028 and U+2029, are beyond these
    texts. *)
Theorem two_word_patterns (s : string) :
  (test true re_success_deleted s = true <->
   exists pre x mid y post,
     s = pre ++ x ++ mid ++ y ++ post
     /\ eq_ci x "success" = true /\ same_line mid = true /\ eq_ci y "deleted" = true)
  /\ (test true re_keyword_exists s = true <->
      exists pre x mid y post,
        s = pre ++ x ++ mid ++ y ++ post
        /\ eq_ci x "keyword" = true /\ same_line mid = true
        /\ eq_ci y "already exists" = true).
Proof.
  split.
  - change re_success_deleted with (Cat (word "success") (Cat (Star Dot) (word "deleted"))).
    rewrite test_then. apply then_on_line_ci_split.
  - change re_keyword_exists
      with (Cat (word "keyword") (Cat (Star Dot) (word "already exists"))).
    rewrite test_then. apply then_on_line_ci_split.
Qed.

Lemma includes_ci_app (w pre x post : string) :
  eq_ci x w = true -> includes_ci w (pre ++ x ++ post) = true.
Proof.
  intros Q. induction pre as [|c pre IH].
  - cbn [append]. destruct (x ++ post) eqn:E; cbn [includes_ci];
      rewrite <- E, (prefix_ci_app _ _ _ Q); reflexivity.
  - cbn [append includes_ci]. rewrite IH. apply orb_true_r.
Qed.

(** A text that matches [/keyword.*already exists/i] matches
    [/already exists/i]. *)
Lemma keyword_exists_already_exists (s : string) :
  test true re_keyword_exists s = true -> test true re_already_exists s = true.
Proof.
  intros H. unfold re_keyword_exists in H. rewrite test_then in H.
  apply then_on_line_ci_split in H.
  destruct H as (pre & x & mid & y & post & -> & _ & _ & Q).
  unfold re_already_exists. rewrite test_word.
  rewrite <- !append_assoc. rewrite append_assoc. apply includes_ci_app, Q.
Qed.

Context {B : Browser}.

(** X11. When the server answers a request to shorten with a JSON body whose
    message matches [/keyword.*already exists/i], the message contains
    [already exists], and the listener replies as for a URL that was
    shortened before: [{ ok: true, shortUrl, already: true }], with the
    notification of an existing URL.  The keyword-exists reason of the
    listener is not what such an answer gets. *)
Theorem shorten_keyword_taken (w : World) (msg : value) (res : Response) (m : string) :
  let base := sanitizeBaseUrl (storage_yourlsUrl w) in
  let signature := storage_apiSignature w in
  let json := parseMaybeJson (text_of res) in
  prop msg "type" = VStr "SHORTEN_URL" ->
  truthy_string base = true ->
  truthy_string signature = true ->
  answered w base
    (shorten_payload signature (prop msg "longUrl")
       (or_else (prop msg "keyword") (VStr "")) (or_else (prop msg "title") (VStr ""))) res ->
  prop json "message" = VStr m ->
  test true re_keyword_exists m = true ->
  exists shortUrl tr,
    run (onMessage w msg)
    = (Ret (VObj [("ok", VBool true); ("shortUrl", shortUrl); ("already", VBool true)]),
       (tr ++ [Notification (i18n_getMessage "extensionName")
                 (i18n_getMessage "toastUrlExists")])%list).
Proof.
  intros base signature json T Hb Hs A Hm K.
  pose proof (onMessage_operation_of w msg "SHORTEN_URL" T) as (R & _). rewrite R. clear R.
  destruct (yourlsFetch_answered w base _ res [StorageGet] A) as (made & F).
  assert (truthy json = true) as Tj by (destruct json; try discriminate; reflexivity).
  unfold run, apiShorten. rewrite bind_getSettings.
  cbn [yourlsUrl apiSignature settings_of app]. fold base. fold signature.
  rewrite Hb, Hs. cbn [negb orb]. unfold bind at 1. rewrite F. fold json.
  rewrite Tj, Hm.
  assert (ToString (or_else (VStr m) (VStr "")) = m) as O
      by (unfold or_else; destruct m; reflexivity).
  rewrite O, (keyword_exists_already_exists m K). cbn [andb].
  eexists _, _. unfold bind, toast, emit, ret, shortened, caught. reflexivity.
Qed.

End Words.

(* ================================================================== *)
(** * The URL of a selection *)
(* ================================================================== *)

Section HttpUrl.

Lemma exec_word_cs {X} (w : string) :
  forall (s : string) (cap : option string) (k : string -> option string -> option X),
    exec false (word w) s cap k
    = match after_prefix w s with
      | Some rest => k rest cap
      | None => None
      end.
Proof.
  induction w as [|a w IH]; intros s cap k; cbn [word exec after_prefix].
  - reflexivity.
  - destruct s as [|b s]; [reflexivity|]. cbn [atom_match].
    destruct (Ascii.eqb b a); [apply IH | reflexivity].
Qed.

Lemma until_from_space (s : string) : s = until_space s ++ from_space s.
Proof.
  induction s as [|c s IH]; [reflexivity|]. cbn.
  destruct (isWhiteSpace c); [reflexivity|]. cbn. congruence.
Qed.

Lemma plus_nonspace (s : string) :
  exec false (Plus NonSpace) s None (fun rest cap => Some (mkFound "" rest cap))
  = match until_space s with
    | EmptyString => None
    | _ => Some (mkFound "" (from_space s) None)
    end.
Proof.
  destruct s as [|c s]; [reflexivity|]. cbn [exec atom_match until_space from_space].
  destruct (isWhiteSpace c); [reflexivity|]. cbn [negb].
  rewrite (repeat_greedy_total (fun c => negb (isWhiteSpace c))
             (fun rest => mkFound "" rest None)).
  do 2 f_equal. clear c. induction s as [|c s IH]; [reflexivity|]. cbn.
  destruct (isWhiteSpace c); cbn; auto.
Qed.

Lemma after_prefix_app (p s r : string) : after_prefix p s = Some r -> s = p ++ r.
Proof.
  revert s; induction p as [|a p IH]; intros [|b s]; cbn; try congruence.
  destruct (Ascii.eqb b a) eqn:E; [|discriminate]. apply Ascii.eqb_eq in E. subst b.
  intros H. f_equal. auto.
Qed.

Lemma after_prefix_of_app (p r : string) : after_prefix p (p ++ r) = Some r.
Proof. induction p as [|a p IH]; cbn; [reflexivity|]. rewrite Ascii.eqb_refl. exact IH. Qed.

Lemma consumed_app (a r : string) : consumed (a ++ r) r = a.
Proof.
  unfold consumed. rewrite length_append.
  replace (String.length a + String.length r - String.length r) with (String.length a) by lia.
  induction a as [|c a IH]; cbn; [destruct r; reflexivity | congruence].
Qed.

(** A match of [/https?:\/\/\S+/] at the start of [s]. *)
Lemma match_here_http_url (s : string) :
  match match_here false re_http_url s with
  | Some m => Some (consumed s (after m))
  | None => None
  end = url_at s.
Proof.
  unfold match_here, re_http_url, url_at. cbn [exec]. rewrite exec_word_cs.
  destruct (after_prefix "http" s) as [s1|] eqn:P.
  - apply after_prefix_app in P. subst s.
    assert (forall t,
               exec false (word "://") t None
                 (fun s3 cap3 =>
                    exec false (Plus NonSpace) s3 cap3
                      (fun rest cap => Some (mkFound "" rest cap)))
               = match after_prefix "://" t with
                 | Some r => match until_space r with
                             | EmptyString => None
                             | _ => Some (mkFound "" (from_space r) None)
                             end
                 | None => None
                 end) as K.
    { intros t. rewrite exec_word_cs. destruct (after_prefix "://" t); [|reflexivity].
      apply plus_nonspace. }
    destruct s1 as [|c s1].
    + reflexivity.
    + cbn [atom_match]. destruct (Ascii.eqb c "s") eqn:C.
      * apply Ascii.eqb_eq in C. subst c. rewrite !K.
        change (after_prefix "https://" ("http" ++ String "s" s1))
          with (after_prefix "://" s1).
        change (after_prefix "http://" ("http" ++ String "s" s1)) with (@None string).
        change (after_prefix "://" (String "s" s1)) with (@None string).
        destruct (after_prefix "://" s1) as [r|] eqn:A; [|reflexivity].
        apply after_prefix_app in A. subst s1.
        destruct (until_space r) as [|d tok] eqn:U; [reflexivity|].
        cbn [after]. f_equal.
        change ("http" ++ String "s" ("://" ++ r)) with ("https://" ++ r).
        rewrite (until_from_space r) at 1. rewrite U, <- append_assoc.
        apply consumed_app.
      * rewrite K.
        assert (after_prefix "https://" ("http" ++ String c s1) = None) as N.
        { cbn. rewrite C. reflexivity. }
        rewrite N.
        change (after_prefix "http://" ("http" ++ String c s1))
          with (after_prefix "://" (String c s1)).
        destruct (after_prefix "://" (String c s1)) as [r|] eqn:A; [|reflexivity].
        apply after_prefix_app in A. rewrite A.
        destruct (until_space r) as [|d tok] eqn:U; [reflexivity|].
        cbn [after]. f_equal.
        change ("http" ++ "://" ++ r) with ("http://" ++ r).
        rewrite (until_from_space r) at 1. rewrite U, <- append_assoc.
        apply consumed_app.
  - assert (after_prefix "https://" s = None /\ after_prefix "http://" s = None) as (N1 & N2).
    { destruct s as [|c1 [|c2 [|c3 [|c4 s]]]]; cbn in *;
        repeat match goal with
               | |- context [Ascii.eqb ?c ?x] => destruct (Ascii.eqb c x)
               end; auto; discriminate. }
    rewrite N1, N2. reflexivity.
Qed.

Lemma match_here_before (i : bool) (r : regex) (s : string) (m : found) :
  match_here i r s = Some m -> before m = "".
Proof.
  unfold match_here. intros H. apply exec_inv in H.
  destruct H as (rest & cap & H & _). inversion H. reflexivity.
Qed.

Lemma first_http_url_find (text : string) : first_http_url text = find_url text.
Proof.
  unfold first_http_url. induction text as [|c s IH].
  - cbn [search find_url]. rewrite <- match_here_http_url.
    destruct (match_here false re_http_url "") as [m|] eqn:E; [|reflexivity].
    rewrite (match_here_before _ _ _ _ E). reflexivity.
  - cbn [search find_url]. rewrite <- match_here_http_url.
    destruct (match_here false re_http_url (String c s)) as [m|] eqn:E.
    + rewrite (match_here_before _ _ _ _ E). reflexivity.
    + rewrite <- IH. destruct (search false re_http_url s); reflexivity.
Qed.


Lemma until_space_nonspace (s : string) : forall_string nonspace (until_space s) = true.
Proof.
  induction s as [|c s IH]; [reflexivity|]. cbn [until_space].
  destruct (isWhiteSpace c) eqn:W; [reflexivity|]. cbn [forall_string].
  unfold nonspace at 1. rewrite W. exact IH.
Qed.

Lemma from_space_head (s : string) :
  from_space s = "" \/ exists c r, from_space s = String c r /\ isWhiteSpace c = true.
Proof.
  induction s as [|c s IH]; [left; reflexivity|]. cbn.
  destruct (isWhiteSpace c) eqn:W; [right; eauto | exact IH].
Qed.

Lemma url_at_inv (s u : string) :
  url_at s = Some u ->
  exists scheme token post,
    (scheme = "http://" \/ scheme = "https://")
    /\ u = scheme ++ token /\ token <> ""
    /\ forall_string nonspace u = true
    /\ s = u ++ post
    /\ (post = "" \/ exists c r, post = String c r /\ isWhiteSpace c = true).
Proof.
  unfold url_at. intros H.
  assert (exists scheme r,
             (scheme = "http://" \/ scheme = "https://") /\ s = scheme ++ r
             /\ match until_space r with
                | EmptyString => None
                | token => Some (scheme ++ token)
                end = Some u) as (scheme & r & S & E & K).
  { destruct (after_prefix "https://" s) as [r|] eqn:A.
    - apply after_prefix_app in A. eauto 6.
    - destruct (after_prefix "http://" s) as [r|] eqn:A'; [|discriminate].
      apply after_prefix_app in A'. eauto 6. }
  clear H. destruct (until_space r) as [|d tok] eqn:U; [discriminate|].
  inversion K; subst u. exists scheme, (String d tok), (from_space r).
  split; [exact S|]. split; [reflexivity|]. split; [discriminate|].
  split; [|split; [|apply from_space_head]].
  - rewrite forall_string_app, <- U, until_space_nonspace.
    destruct S as [-> | ->]; reflexivity.
  - rewrite E, append_assoc, <- U, <- until_from_space. reflexivity.
Qed.

Lemma find_url_inv (s u : string) :
  find_url s = Some u ->
  exists pre post,
    s = pre ++ u ++ post
    /\ url_at (u ++ post) = Some u
    /\ forall a b, pre = a ++ b -> b <> "" -> url_at (b ++ u ++ post) = None.
Proof.
  induction s as [|c s IH]; cbn [find_url].
  - destruct (url_at "") eqn:E; [|discriminate]. intros H; inversion H; subst.
    destruct (url_at_inv _ _ E) as (? & ? & post & _ & _ & _ & _ & P & _).
    exists "", post. rewrite <- P. split; [reflexivity|]. split; [exact E|].
    intros [|? ?] [|? ?]; cbn; congruence.
  - destruct (url_at (String c s)) as [v|] eqn:E.
    + intros H; inversion H; subst.
      destruct (url_at_inv _ _ E) as (? & ? & post & _ & _ & _ & _ & P & _).
      exists "", post. rewrite <- P. split; [reflexivity|]. split; [exact E|].
      intros [|? ?] [|? ?]; cbn; congruence.
    + intros H. destruct (IH H) as (pre & post & -> & A & L).
      exists (String c pre), post. split; [reflexivity|]. split; [exact A|].
      intros [|d a] b Eq N.
      * cbn in Eq. subst b. exact E.
      * cbn in Eq. inversion Eq; subst. apply (L a b); auto.
Qed.

Context {B : Browser}.

(** X12. The URL that [getUrlForAction] takes from a selection, when the context
    data has no link URL: the selection is searched for [http://] or
    [https://], in lower case, followed by a character that is not white
    space; the first such place from the left gives the URL, which runs up
    to the next white space or to the end of the selection.  A selection
    without such a place gives what the tab alone gives. *)
Theorem getUrlForAction_selection (info : OnClickData) (tab : option Tab) (text : string) :
  linkUrl info = None \/ linkUrl info = Some "" ->
  selectionText info = Some text ->
  match find_url text with
  | Some u =>
      getUrlForAction (Some info) tab = u
      /\ exists pre post scheme token,
           text = pre ++ u ++ post
           /\ u = scheme ++ token
           /\ (scheme = "http://" \/ scheme = "https://")
           /\ token <> ""
           /\ forall_string nonspace u = true
           /\ (post = "" \/ exists c r, post = String c r /\ isWhiteSpace c = true)
           /\ forall a b, pre = a ++ b -> b <> "" -> url_at (b ++ u ++ post) = None
  | None => getUrlForAction (Some info) tab = getUrlForAction None tab
  end.
Proof.
  intros L S.
  assert (getUrlForAction (Some info) tab
          = match find_url text with
            | Some u => u
            | None => getUrlForAction None tab
            end) as G.
  { unfold getUrlForAction. rewrite S. destruct L as [-> | ->].
    - destruct text as [|c t]; [reflexivity|]. rewrite first_http_url_find. reflexivity.
    - destruct text as [|c t]; [reflexivity|]. rewrite first_http_url_find. reflexivity. }
  destruct (find_url text) as [u|] eqn:F; [|exact G]. split; [exact G|].
  destruct (find_url_inv _ _ F) as (pre & post & E & A & Lm).
  destruct (url_at_inv _ _ A) as (scheme & token & post' & Sc & U & T & N & P & W).
  apply (f_equal String.length) in P as P'.
  assert (post' = post) as ->.
  { clear - P. induction u as [|c u IH]; cbn in P; [auto|]. inversion P. auto. }
  exists pre, post, scheme, token. auto 10.
Qed.

End HttpUrl.

(* ================================================================== *)
(** * Short URLs and keywords on the reference browser *)
(* ================================================================== *)

Section ShortUrls.
Import Reference.
#[local] Existing Instance browser.

Ltac all_chars c :=
  destruct c as [[] [] [] [] [] [] [] []]; vm_compute; try reflexivity; try discriminate.

Lemma keyword_char_facts (c : ascii) :
  keyword_char c = true ->
  segment_char c = true /\ solid c = true
  /\ Ascii.eqb c ":" = false /\ Ascii.eqb c "/" = false
  /\ Ascii.eqb (lower c) "." = false /\ Ascii.eqb (lower c) "%" = false.
Proof. all_chars c; intros _; repeat split. Qed.

Lemma keyword_plain (k : string) :
  forall_string keyword_char k = true -> plain_segment k = true.
Proof.
  intros K. unfold plain_segment.
  rewrite (forall_string_impl keyword_char segment_char k) by
      (auto; intros c Hc; apply (keyword_char_facts c Hc)).
  destruct k as [|c k]; [reflexivity|]. cbn in K. apply andb_prop in K. destruct K as [Kc _].
  destruct (keyword_char_facts c Kc) as (_ & _ & _ & _ & D & P).
  unfold is_single_dot, is_double_dot. cbn [existsb map_string String.eqb].
  rewrite D, P. reflexivity.
Qed.

Lemma keyword_no_scheme (k : string) :
  forall_string keyword_char k = true -> scan_scheme k = None.
Proof.
  induction k as [|c k IH]; [reflexivity|]. cbn. intros K. apply andb_prop in K.
  destruct K as [Kc Kk]. destruct (keyword_char_facts c Kc) as (_ & _ & C & _).
  rewrite C, (IH Kk). destruct (is_scheme_char c); reflexivity.
Qed.

Lemma keyword_solid (k : string) :
  forall_string keyword_char k = true -> forall_string solid k = true.
Proof.
  apply forall_string_impl. intros c Hc. apply (keyword_char_facts c Hc).
Qed.

Lemma keyword_no_url (k : string) :
  forall_string keyword_char k = true -> parse k = None.
Proof.
  intros K. unfold parse, basic_parse. rewrite (preprocess_solid _ (keyword_solid k K)).
  unfold parse_scheme. destruct k as [|c k]; [reflexivity|].
  rewrite (keyword_no_scheme _ K). destruct (is_alpha c); reflexivity.
Qed.

Lemma solid_nonspace (s : string) : forall_string solid s = true -> forall_string nonspace s = true.
Proof. apply forall_string_impl. intros c Hc. apply (solid_facts c Hc). Qed.

Lemma pathname_of_app (l : list string) (k : string) :
  pathname_of (l ++ [k]) = pathname_of l ++ "/" ++ k.
Proof.
  induction l as [|x l IH]; [reflexivity|].
  cbn [app]. rewrite !pathname_of_cons, IH. cbn [append]. rewrite !append_assoc. reflexivity.
Qed.

(** A serialized path without its trailing slashes is the serialization of
    plain segments, of none when it is empty. *)
Lemma stripped_segments (segs : list string) :
  forallb plain_segment segs = true -> segs <> [] ->
  exists l, forallb plain_segment l = true
            /\ pathname_of l = without_trailing_slashes (pathname_of segs).
Proof.
  intros P N.
  assert (forallb (forall_string segment_char) segs = true) as C
      by (apply (forallb_impl plain_segment); [apply plain_segment_chars | exact P]).
  destruct (split_pathname segs N) as (r & E & S).
  { apply (forallb_impl (forall_string segment_char)); [|exact C].
    intros x. apply forall_string_impl. intros c Hc.
    destruct (segment_char_path_char c Hc) as (_ & A & _). rewrite A. reflexivity. }
  destruct (split_trailing r) as (n & T). rewrite S in T.
  rewrite E. change ("/" ++ r) with (String "/" r). cbn [without_trailing_slashes].
  destruct (without_trailing_slashes r) as [|d t] eqn:W.
  - exists []. split; reflexivity.
  - exists (split "/" (String d t)). split.
    + rewrite T, forallb_app in P. apply andb_prop in P. apply P.
    + apply join_split.
Qed.

Lemma wts_keyword (a k : string) :
  truthy_string k = true -> forall_string keyword_char k = true ->
  without_trailing_slashes (a ++ "/" ++ k) = a ++ "/" ++ k.
Proof.
  intros T K. rewrite without_trailing_slashes_app.
  change ("/" ++ k) with (String "/" k). cbn [without_trailing_slashes].
  rewrite wts_slashless.
  - destruct k; [discriminate | reflexivity].
  - apply (forall_string_impl keyword_char); [|exact K].
    intros c Hc. destruct (keyword_char_facts c Hc) as (_ & _ & _ & S & _). rewrite S. reflexivity.
Qed.

Lemma split_after_slash (a k : string) :
  exists pre, split "/" (a ++ "/" ++ k) = (pre ++ split "/" k)%list /\ pre <> [].
Proof.
  induction a as [|c a (pre & E & N)].
  - exists [""]. split; [reflexivity | discriminate].
  - change (String c a ++ "/" ++ k) with (String c (a ++ "/" ++ k)).
    rewrite split_cons, E. destruct (Ascii.eqb c "/").
    + exists ("" :: pre). split; [reflexivity | discriminate].
    + exists (push_head c pre). split; [apply push_head_app, N|].
      destruct pre; discriminate.
Qed.

Lemma pop_split_keyword (a k : string) :
  forall_string keyword_char k = true -> pop (split "/" (a ++ "/" ++ k)) = Some k.
Proof.
  intros K.
  assert (split "/" k = [k]) as Sk.
  { apply split_slashless. apply (forall_string_impl keyword_char); [|exact K].
    intros c Hc. destruct (keyword_char_facts c Hc) as (_ & _ & _ & S & _). rewrite S.
    reflexivity. }
  destruct (split_after_slash a k) as (pre & E & N). rewrite E, Sk.
  rewrite pop_last by (destruct pre; discriminate). rewrite last_last. reflexivity.
Qed.

(** What [sanitizeBaseUrl] returns for a URL of a tuple origin. *)
Lemma sanitizeBaseUrl_tuple (raw : string) (p : Parsed) :
  basic_parse (cleaned raw) = Some p ->
  tuple_scheme (scheme p) = true ->
  exists h0 rest h segs,
    parse_authority true (scheme p) h0 = Some (h, port p, rest)
    /\ forallb plain_segment segs = true /\ segs <> []
    /\ get_origin p = scheme p ++ "://" ++ h ++ port_string (port p)
    /\ sanitizeBaseUrl raw
       = scheme p ++ "://" ++ h ++ port_string (port p)
         ++ without_trailing_slashes (pathname_of segs).
Proof.
  intros H T.
  destruct (basic_parse_tuple_inv _ _ H T) as (h0 & rest & h & segs & A & Hh & Hp & P & N).
  exists h0, rest, h, segs. split; [exact A|]. split; [exact P|]. split; [exact N|].
  assert (get_origin p = scheme p ++ "://" ++ h ++ port_string (port p)) as O.
  { unfold get_origin. fold (tuple_scheme (scheme p)). rewrite T.
    unfold tuple_origin, get_hostname. rewrite Hh. reflexivity. }
  split; [exact O|].
  rewrite sanitizeBaseUrl_cleaned. destruct raw as [|c raw]; [discriminate H|].
  cbn [truthy_string URL_parse browser]. unfold parse. rewrite H.
  cbn [origin pathname]. rewrite O. unfold get_pathname. rewrite Hp.
  rewrite !append_assoc. reflexivity.
Qed.

(** The URL under a base URL of a tuple origin, parsed. *)
Lemma parse_under_base (sch h0 h : string) (prt : option N) (rest : string)
    (segs : list string) :
  tuple_scheme sch = true ->
  parse_authority true sch h0 = Some (h, prt, rest) ->
  forallb plain_segment segs = true -> segs <> [] ->
  let org := sch ++ "://" ++ h ++ port_string prt in
  let base := org ++ without_trailing_slashes (pathname_of segs) in
  (exists pn, parse base = Some (mkURL org h pn []))
  /\ forall_string solid base = true
  /\ without_trailing_slashes base = base
  /\ forall k,
       keyword_like k = true ->
       exists pn,
         parse (base ++ "/" ++ k) = Some (mkURL org h pn [])
         /\ without_trailing_slashes pn
            = without_trailing_slashes (pathname_of segs) ++ "/" ++ k.
Proof.
  intros T A P N org base.
  destruct (reparse_tuple _ _ _ _ _ _ T A P N) as (So & R).
  assert (base = sch ++ "://" ++ h ++ port_string prt
                 ++ without_trailing_slashes (pathname_of segs)) as Eb
      by (unfold base, org; rewrite !append_assoc; reflexivity).
  assert (forall q, get_origin (mkParsed sch (Some h) prt q None) = org) as O.
  { intros q. unfold get_origin. cbn [scheme]. fold (tuple_scheme sch). rewrite T. reflexivity. }
  split; [|split; [|split]].
  - eexists. unfold parse. rewrite Eb, R. rewrite O. reflexivity.
  - rewrite Eb. exact So.
  - destruct (parse_authority_stable _ _ _ _ _ "" A I) as (_ & _ & Th & Ch).
    destruct (host_chars h Ch) as (_ & _ & _ & _ & C5).
    destruct (port_string_chars prt) as (_ & _ & _ & Q4).
    rewrite Eb.
    change (sch ++ "://" ++ h ++ port_string prt ++ without_trailing_slashes (pathname_of segs))
      with (sch ++ "://" ++ (h ++ port_string prt
                               ++ without_trailing_slashes (pathname_of segs))).
    rewrite <- (append_assoc h), <- (append_assoc sch).
    apply wts_after_slashless.
    + destruct h; [discriminate Th | reflexivity].
    + rewrite forall_string_app, C5, Q4. reflexivity.
    + apply without_trailing_slashes_idem.
  - intros k K. unfold keyword_like in K. apply andb_prop in K. destruct K as [Tk Kk].
    destruct (stripped_segments segs P N) as (l & Pl & El).
    assert (forallb plain_segment (l ++ [k]) = true) as P2.
    { rewrite forallb_app, Pl. cbn. rewrite (keyword_plain k Kk). reflexivity. }
    assert (l ++ [k] <> [])%list as N2 by (destruct l; discriminate).
    assert (without_trailing_slashes (pathname_of (l ++ [k]))
            = without_trailing_slashes (pathname_of segs) ++ "/" ++ k) as E2.
    { rewrite pathname_of_app, El. apply wts_keyword; assumption. }
    destruct (reparse_tuple _ _ _ _ _ _ T A P2 N2) as (_ & R2).
    destruct (path_reparse _ P2 N2) as (_ & _ & _ & W2).
    rewrite E2 in R2, W2.
    eexists. split.
    + unfold parse. rewrite Eb, !append_assoc. rewrite R2, O. reflexivity.
    + exact W2.
Qed.


Lemma extractKeyword_under_base (raw : string) (p : Parsed) (k : string) :
  basic_parse (cleaned raw) = Some p -> tuple_scheme (scheme p) = true ->
  keyword_like k = true ->
  let base := sanitizeBaseUrl raw in
  without_trailing_slashes base = base
  /\ extractKeyword base (VStr (base ++ "/" ++ k)) = k
  /\ extractKeyword base (VStr k) = k.
Proof.
  intros H T K base.
  destruct (sanitizeBaseUrl_tuple raw p H T) as (h0 & rest & h & segs & A & P & N & O & E).
  destruct (parse_under_base _ _ _ _ _ _ T A P N) as ((pn & Pb) & So & W & Pk).
  cbn zeta in Pb, So, W, Pk. rewrite !append_assoc in Pb, So, W, Pk.
  fold base in E. rewrite <- E in Pb, So, W, Pk.
  destruct (Pk k K) as (pk & Pu & Wk). clear Pk.
  unfold keyword_like in K. apply andb_prop in K. destruct K as [Tk Kk].
  assert (truthy_string base = true) as Tb.
  { rewrite E. destruct (tuple_scheme_facts _ T) as (_ & _ & _ & _ & Ts).
    destruct (scheme p); [discriminate Ts | reflexivity]. }
  split; [exact W|]. split.
  - unfold extractKeyword. cbn [truthy ToString].
    assert (truthy_string (base ++ "/" ++ k) = true) as Tu by apply truthy_append_cons.
    rewrite Tu. cbn [negb].
    rewrite trim_none.
    2:{ apply solid_nonspace. rewrite !forall_string_app, So, (keyword_solid k Kk). reflexivity. }
    cbn [URL_parse browser]. rewrite Pu, Tb, Pb. cbn [origin pathname].
    rewrite String.eqb_refl, replace_trailing_slashes, Wk.
    rewrite pop_split_keyword by exact Kk. reflexivity.
  - unfold extractKeyword. cbn [truthy ToString]. rewrite Tk. cbn [negb].
    rewrite trim_none by (apply solid_nonspace, keyword_solid, Kk).
    cbn [URL_parse browser]. rewrite (keyword_no_url k Kk). reflexivity.
Qed.

(** X14. On the reference browser, with a base URL of the scheme [http],
    [https], [ws], [wss] or [ftp] and a keyword of letters, digits, [-] and
    [_]: the short URL that [extractShort] builds from the keyword of a
    response is the sanitized base URL, a slash and the keyword, and
    [extractKeyword] gives the keyword back from that short URL, as it does
    from the keyword itself. *)
Theorem keyword_round_trip (raw : string) (p : Parsed) (k : string) :
  basic_parse (cleaned raw) = Some p ->
  tuple_scheme (scheme p) = true ->
  keyword_like k = true ->
  let base := sanitizeBaseUrl raw in
  extractShort (VObj [("keyword", VStr k)]) base = VStr (base ++ "/" ++ k)
  /\ extractKeyword base (extractShort (VObj [("keyword", VStr k)]) base) = k
  /\ extractKeyword base (VStr k) = k.
Proof.
  intros H T K base.
  destruct (extractKeyword_under_base raw p k H T K) as (W & E1 & E2). fold base in W, E1, E2.
  assert (extractShort (VObj [("keyword", VStr k)]) base = VStr (base ++ "/" ++ k)) as S.
  { unfold extractShort. cbn [truthy negb prop lookup String.eqb Ascii.eqb Bool.eqb opt_prop
                                nullish ToString].
    unfold keyword_like in K. apply andb_prop in K. destruct K as [Tk _]. rewrite Tk.
    rewrite replace_trailing_slashes, W. reflexivity. }
  rewrite S. auto.
Qed.

(** X15. On the reference browser, with such a base URL and keyword, a request
    to delete a link or for its statistics does the same whether it names
    the link by its short URL or by its keyword. *)
Theorem short_url_or_keyword (w : World) (p : Parsed) (k : string) :
  basic_parse (cleaned (storage_yourlsUrl w)) = Some p ->
  tuple_scheme (scheme p) = true ->
  keyword_like k = true ->
  let short := VStr (sanitizeBaseUrl (storage_yourlsUrl w) ++ "/" ++ k) in
  run (apiDelete w short) = run (apiDelete w (VStr k))
  /\ run (apiStats w short) = run (apiStats w (VStr k)).
Proof.
  intros H T K short.
  destruct (extractKeyword_under_base _ p k H T K) as (_ & E1 & E2).
  unfold run, apiDelete, apiStats. rewrite !bind_getSettings.
  cbn [yourlsUrl apiSignature settings_of app]. unfold short. rewrite E1, E2. auto.
Qed.

(** X16. On the reference browser, with a base URL of the scheme [http],
    [https], [ws], [wss] or [ftp]: a request of the listener is sent with
    the host permission of the origin of the URL of the settings, and to a
    URL under that origin. *)
Theorem request_within_permission (w : World) (msg : value) (p : Parsed)
    (endpoint : string) (form : list (string * string)) :
  basic_parse (cleaned (storage_yourlsUrl w)) = Some p ->
  tuple_scheme (scheme p) = true ->
  In (Fetch endpoint form) (snd (run (onMessage w msg))) ->
  permissions_contains w (get_origin p ++ "/*") = true
  /\ exists rest, endpoint = get_origin p ++ "/" ++ rest.
Proof.
  intros H T I.
  destruct (sanitizeBaseUrl_tuple _ p H T) as (h0 & rest & h & segs & A & P & N & O & E).
  destruct (parse_under_base _ _ _ _ _ _ T A P N) as ((pn & Pb) & _).
  destruct (path_reparse segs P N) as (SP & _).
  cbn zeta in Pb, SP. rewrite !append_assoc, <- E in Pb.
  destruct (onMessage_fetch w msg endpoint form I) as (-> & u & U & G).
  cbn [URL_parse browser] in U. rewrite Pb in U. inversion U; subst u. cbn [origin] in G.
  rewrite O. split; [exact G|]. rewrite E.
  destruct (without_trailing_slashes (pathname_of segs)) as [|c q].
  - exists "yourls-api.php". rewrite !append_assoc. reflexivity.
  - cbn in SP. subst c. exists (q ++ "/yourls-api.php"). rewrite !append_assoc. reflexivity.
Qed.

End ShortUrls.

(* ================================================================== *)
(** * From the action to the popup *)
(* ================================================================== *)

Section Prefill.
Context {B : Browser}.

Lemma truthy_string_cases (s : string) :
  (s = "" /\ truthy_string s = false) \/ (exists c t, s = String c t /\ truthy_string s = true).
Proof. destruct s; [left | right]; eauto. Qed.

(** X17. What [handleAction] leaves for the popup.  The popup is asked to open;
    whatever the prefill keys held, they hold afterwards the URL of the
    action alone, under [yourls_prefill_short] when the sanitized base URL
    is not empty and starts the URL, under [yourls_prefill_long] otherwise,
    and nothing when the action has no URL.  A popup that then reads the
    keys shows that URL, and takes it for a short URL of the instance in the
    first case only.  A popup that finds no prefill and takes the URL of
    the active tab is stricter: it also wants the URL to be longer than the
    base URL and one more character. *)
Theorem handleAction_prefill (w : World) (tab active : option Tab)
    (info : option OnClickData) (ui : Ui) :
  let url := getUrlForAction info tab in
  let base := sanitizeBaseUrl (storage_yourlsUrl w) in
  let managed := truthy_string base && startsWith url base in
  (exists ui' tr,
      run (handleAction w tab info ui) = (Ret ui', tr)
      /\ openPopup_called ui' = true
      /\ (url = "" ->
          tr = [] /\ yourls_prefill_long ui' = None /\ yourls_prefill_short ui' = None)
      /\ (url <> "" ->
          tr = [StorageGet]
          /\ yourls_prefill_long ui' = (if managed then None else Some url)
          /\ yourls_prefill_short ui' = (if managed then Some url else None)
          /\ exists isShort,
               getInitialUrl (settings_of w) active ui' = (VStr url, isShort)
               /\ truthy isShort = managed))
  /\ forall t,
       t <> "" -> startsWith t "about:" = false ->
       exists isShort,
         getInitialUrl (settings_of w) (Some (mkTab (Some t))) (mkUi true None None)
         = (VStr t, isShort)
         /\ truthy isShort
            = truthy_string base && startsWith t base
              && (String.length base + 1 <? String.length t).
Proof.
  intros url base managed. split.
  - unfold run, handleAction. fold url.
    destruct (truthy_string_cases url) as [(E & T) | (c & u & E & T)]; rewrite T.
    + eexists _, _. split; [reflexivity|]. split; [reflexivity|].
      split; [auto | congruence].
    + rewrite bind_getSettings. cbn [yourlsUrl settings_of app]. fold base. fold managed.
      destruct managed eqn:Mg.
      * eexists _, _. split; [reflexivity|]. split; [reflexivity|].
        split; [congruence|]. intros _. repeat split.
        unfold getInitialUrl. cbn [yourls_prefill_long yourls_prefill_short].
        rewrite E. eexists. split; reflexivity.
      * eexists _, _. split; [reflexivity|]. split; [reflexivity|].
        split; [congruence|]. intros _. repeat split.
        unfold getInitialUrl. cbn [yourls_prefill_long yourls_prefill_short yourlsUrl settings_of].
        rewrite E. fold base. eexists. split; [reflexivity|].
        unfold managed in Mg. rewrite E in Mg.
        destruct (truthy_string base) eqn:Tb; cbn [negb].
        -- cbn [andb] in Mg. rewrite Mg. reflexivity.
        -- destruct base; [reflexivity | discriminate].
  - intros t N Ab. destruct t as [|c t]; [congruence|].
    unfold getInitialUrl. cbn [yourls_prefill_long yourls_prefill_short Background.url
                                 yourlsUrl settings_of].
    rewrite Ab. cbn [negb]. fold base. eexists. split; [reflexivity|].
    destruct (truthy_string base) eqn:Tb; cbn [negb andb].
    + destruct (startsWith (String c t) base); reflexivity.
    + destruct base; [reflexivity | discriminate].
Qed.

End Prefill.

(* ================================================================== *)
(** * The buttons of the popup *)
(* ================================================================== *)

Section PopupFacts.
Context {B : Browser}.
Variable JSON_stringify : value -> value.
Variable i18n_getMessage_with : string -> list value -> string.

Lemma prefix_ci_append (a b s : string) :
  prefix_ci (a ++ b) s = prefix_ci a s && prefix_ci b (substring_from (String.length a) s).
Proof.
  revert s; induction a as [|x a IH]; intros s; [destruct s; reflexivity|].
  destruct s as [|c s]; [reflexivity|]. cbn [append prefix_ci String.length substring_from].
  rewrite IH. apply andb_assoc.
Qed.

(** [/^https?:\/\//i] accepts the texts that start with [http://] or
    [https://], in any case of the letters. *)
Lemma test_http_prefix (s : string) :
  test_at_start true re_http_prefix s = prefix_ci "http://" s || prefix_ci "https://" s.
Proof.
  unfold test_at_start, match_here, re_http_prefix. cbn [exec]. rewrite exec_word.
  change "http://" with ("http" ++ "://"). change "https://" with ("http" ++ "s://").
  rewrite !prefix_ci_append.
  destruct (prefix_ci "http" s); [|reflexivity]. cbn [andb String.length].
  destruct (substring_from 4 s) as [|c s1].
  - rewrite exec_word. reflexivity.
  - cbn [atom_match]. rewrite !exec_word.
    change (prefix_ci "s://" (String c s1))
      with (Ascii.eqb (upper c) (upper "s") && prefix_ci "://" s1).
    destruct (Ascii.eqb (upper c) (upper "s")) eqn:E; cbn [andb].
    + assert (prefix_ci "://" (String c s1) = false) as N.
      { apply Ascii.eqb_eq in E. cbn [prefix_ci]. rewrite E. reflexivity. }
      rewrite N. destruct (prefix_ci "://" s1); reflexivity.
    + rewrite orb_false_r. destruct (prefix_ci "://" (String c s1)); reflexivity.
Qed.

Lemma opt_prop_truthy_of (v : value) (k : string) :
  truthy v = true -> opt_prop v k = prop v k.
Proof. unfold opt_prop. intros T. rewrite (truthy_not_nullish v T). reflexivity. Qed.

Lemma onMessage_returns (w : World) (msg : value) :
  exists reply, run (onMessage w msg) = (Ret reply, snd (run (onMessage w msg))).
Proof.
  rewrite onMessage_caught. destruct (run (dispatch w msg)) as [[reply|e] tr]; cbn; eauto.
Qed.

Lemma bind_onMessage {A} (w : World) (msg : value) (k : value -> M A) :
  (forall r t, exists a, k r t = (Ret a, t)) ->
  exists reply a,
    run (onMessage w msg) = (Ret reply, snd (run (onMessage w msg)))
    /\ run (r <- onMessage w msg ;; k r) = (Ret a, snd (run (onMessage w msg)))
    /\ k reply (snd (run (onMessage w msg))) = (Ret a, snd (run (onMessage w msg))).
Proof.
  intros K. destruct (onMessage_returns w msg) as (reply & E).
  destruct (K reply (snd (run (onMessage w msg)))) as (a & Ka).
  exists reply, a. split; [exact E|]. split; [|exact Ka].
  unfold run, bind in *. rewrite E. exact Ka.
Qed.

Lemma toFormData_shorten (signature : string) (longUrl keyword title : value) :
  toFormData (shorten_payload signature longUrl
                (or_else keyword (VStr "")) (or_else title (VStr "")))
  = ([("action", "shorturl"); ("format", "json"); ("signature", signature)]
     ++ field (negb (nullish longUrl)) "url" longUrl
     ++ field (truthy keyword) "keyword" keyword
     ++ field (truthy title) "title" title)%list.
Proof.
  unfold shorten_payload. rewrite !toFormData_app.
  destruct (truthy_or_else_empty keyword) as (K1 & K2).
  destruct (truthy_or_else_empty title) as (T1 & T2).
  rewrite K1, T1. cbn [toFormData nullish ToString app]. unfold field.
  destruct (nullish longUrl); cbn [negb app];
    destruct (truthy keyword) eqn:K; destruct (truthy title) eqn:Ti;
    rewrite ?(K2 eq_refl), ?(T2 eq_refl);
    cbn [toFormData app]; rewrite ?(truthy_not_nullish _ K), ?(truthy_not_nullish _ Ti);
    reflexivity.
Qed.

Lemma run_bind_onMessage {A} (w : World) (msg : value) (k : value -> M A)
    (reply : value) (tr : trace) :
  run (onMessage w msg) = (Ret reply, tr) ->
  run (r <- onMessage w msg ;; k r) = k reply tr.
Proof. unfold run, bind. intros ->. reflexivity. Qed.

Lemma onMessage_reply (w : World) (msg : value) :
  exists reply tr, run (onMessage w msg) = (Ret reply, tr).
Proof.
  rewrite onMessage_caught. destruct (run (dispatch w msg)) as [[reply|e] tr]; cbn; eauto.
Qed.

(** X18. A click on the Shorten button.  When the text of the URL field, without
    its surrounding white space, does not start with [http://] or
    [https://] (in any case), the handler shows the invalid-URL message and
    calls nothing.  Otherwise its calls are those of the listener on one
    [SHORTEN_URL] message with the trimmed texts of the three fields; a
    reply that is not ok has its reason shown, and a reply that is ok has
    its short URL put in the two fields of the result, the Delete button
    being disabled when there is none.  A request that is sent carries the
    trimmed URL as [url], and the keyword and the title when they are not
    empty. *)
Theorem btnShorten_sends (w : World) (d : Dom) :
  let url := trim (text d "longUrl.value") in
  let keyword := trim (text d "keyword.value") in
  let title := trim (text d "title.value") in
  let valid := prefix_ci "http://" url || prefix_ci "https://" url in
  let msg := VObj [("type", VStr "SHORTEN_URL"); ("longUrl", VStr url);
                   ("keyword", VStr keyword); ("title", VStr title)] in
  let r := run (btnShorten_click JSON_stringify w d) in
  (valid = false -> r = (Ret (setMsg (i18n_getMessage "popupErrorInvalidUrl") "" d), []))
  /\ (valid = true ->
      exists reply tr d',
        run (onMessage w msg) = (Ret reply, tr)
        /\ r = (Ret d', tr)
        /\ (truthy (opt_prop reply "ok") = false ->
            d' "msg.textContent"
            = VStr (reason_or reply (i18n_getMessage "errorShortenFailed")))
        /\ (truthy reply = true -> truthy (prop reply "ok") = true ->
            d' "shortUrl.value" = VStr (ToString (or_else (prop reply "shortUrl") (VStr "")))
            /\ d' "statsInput.value" = d' "shortUrl.value"
            /\ d' "btnDelete.disabled" = VBool (negb (truthy (prop reply "shortUrl")))))
  /\ forall endpoint form,
       In (Fetch endpoint form) (snd r) ->
       valid = true
       /\ form = ([("action", "shorturl"); ("format", "json");
                   ("signature", storage_apiSignature w); ("url", url)]
                  ++ field (truthy_string keyword) "keyword" (VStr keyword)
                  ++ field (truthy_string title) "title" (VStr title))%list.
Proof.
  intros url keyword title valid msg r.
  assert (valid = false -> r = (Ret (setMsg (i18n_getMessage "popupErrorInvalidUrl") "" d), []))
    as G.
  { intros V. unfold r, run, btnShorten_click. fold url. rewrite test_http_prefix.
    fold valid. rewrite V. reflexivity. }
  destruct (onMessage_reply w msg) as (reply & tr & E).
  assert (valid = true ->
          r = (if negb (truthy reply) || negb (truthy (opt_prop reply "ok"))
               then ret (setMsg (reason_or reply (i18n_getMessage "errorShortenFailed")) ""
                           (toggleJson JSON_stringify false VUndefined
                              (setMsg (i18n_getMessage "popupStatusShortening") "" d)))
               else ret (setMsg (if truthy (prop reply "already")
                                 then i18n_getMessage "popupInfoAlreadyShortened"
                                 else i18n_getMessage "popupStatusCreated") "ok"
                           (set "btnDownloadQr.style.display" (VStr "none")
                              (set "qrcodeDisplay.style.display" (VStr "none")
                                 (set "btnDelete.disabled"
                                    (VBool (negb (truthy (prop reply "shortUrl"))))
                                    (set "statsInput.value"
                                       (VStr (ToString (or_else (prop reply "shortUrl")
                                                          (VStr ""))))
                                       (set "shortUrl.value"
                                          (VStr (ToString (or_else (prop reply "shortUrl")
                                                             (VStr ""))))
                                          (set "resultArea.style.display" (VStr "block")
                                             (toggleJson JSON_stringify false VUndefined
                                                (setMsg (i18n_getMessage
                                                           "popupStatusShortening") "" d))))))))))
                tr) as S.
  { intros V. unfold r, btnShorten_click. fold url. rewrite test_http_prefix.
    fold valid. rewrite V. cbn [negb].
    match goal with
    | |- context [bind (onMessage w ?m) ?k] =>
        change m with msg; rewrite (run_bind_onMessage w msg k reply tr E)
    end.
    reflexivity. }
  split; [exact G|]. split.
  - intros V. rewrite (S V). exists reply, tr.
    destruct (truthy reply) eqn:Tr; cbn [negb orb].
    + destruct (truthy (opt_prop reply "ok")) eqn:Ok; cbn [negb].
      * eexists. split; [exact E|]. split; [reflexivity|]. split; [discriminate|].
        intros _ _. repeat split.
      * eexists. split; [exact E|]. split; [reflexivity|]. split; [reflexivity|].
        intros _ Ok'. rewrite (opt_prop_truthy_of reply "ok" Tr) in Ok. congruence.
    + eexists. split; [exact E|]. split; [reflexivity|]. split; [reflexivity|]. discriminate.
  - intros endpoint form I. destruct valid eqn:V.
    + split; [reflexivity|]. rewrite (S eq_refl) in I.
      assert (In (Fetch endpoint form) tr) as I'.
      { destruct (negb (truthy reply) || _); exact I. }
      pose proof (onMessage_operation_of w msg "SHORTEN_URL" eq_refl) as (_ & C & _).
      rewrite E in C.
      cbn [prop lookup String.eqb Ascii.eqb Bool.eqb msg snd] in C.
      rewrite (calls_form _ _ _ _ _ _ C I'), toFormData_shorten.
      cbn [nullish negb field truthy ToString app]. reflexivity.
    + rewrite (G eq_refl) in I. destruct I.
Qed.


Lemma delete_request (w : World) (shortUrl : value) (endpoint : string)
    (form : list (string * string)) :
  let base := sanitizeBaseUrl (storage_yourlsUrl w) in
  In (Fetch endpoint form) (snd (run (apiDelete w shortUrl))) ->
  form = toFormData (delete_payload (storage_apiSignature w) (extractKeyword base shortUrl))
  /\ extractKeyword base shortUrl <> "".
Proof.
  intros base I. pose proof (apiDelete_run w shortUrl) as (C & _). fold base in C.
  split; [apply (calls_form _ _ _ _ _ _ C I)|].
  unfold run, apiDelete in I. rewrite bind_getSettings in I.
  cbn [yourlsUrl apiSignature settings_of app] in I. fold base in I.
  destruct (extractKeyword base shortUrl); [|discriminate].
  destruct I as [I | []]. discriminate.
Qed.

(** X19. A click on the Delete button.  With no link named in the fields, the
    handler shows a message and calls nothing.  With a link named, a first
    click calls nothing either: it marks the button for confirmation and
    sets a timer of 4000 ms whose callback removes the mark; the fields keep
    their texts.  A click on a marked button removes the mark and sends one
    [DELETE_SHORTURL] message for the trimmed text; a reply that is not ok
    has its reason shown, and a reply that is ok empties the two fields and
    disables the button.  A request is sent by a click on a marked button
    only, and carries a keyword that is not empty. *)
Theorem btnDelete_confirms (w : World) (d : Dom) :
  let v := link_named d in
  let marked := truthy (d "btnDelete.classList.confirm-delete") in
  let msg := VObj [("type", VStr "DELETE_SHORTURL"); ("shortUrl", VStr v)] in
  let kw := extractKeyword (sanitizeBaseUrl (storage_yourlsUrl w)) (VStr v) in
  let r := run (btnDelete_click w d) in
  (v = "" ->
   r = (Ret (setMsg (i18n_getMessage "popupErrorProvideUrlToDelete") "" d, None), []))
  /\ (v <> "" -> marked = false ->
      exists d',
        r = (Ret (d', Some 4000), [])
        /\ truthy (d' "btnDelete.classList.confirm-delete") = true
        /\ link_named d' = v
        /\ truthy (confirm_expired d' "btnDelete.classList.confirm-delete") = false
        /\ link_named (confirm_expired d') = v)
  /\ (v <> "" -> marked = true ->
      exists reply tr d',
        run (onMessage w msg) = (Ret reply, tr)
        /\ r = (Ret (d', None), tr)
        /\ truthy (d' "btnDelete.classList.confirm-delete") = false
        /\ (truthy (opt_prop reply "ok") = false ->
            d' "msg.textContent" = VStr (reason_or reply (i18n_getMessage "errorDeleteFailed"))
            /\ link_named d' = v)
        /\ (truthy reply = true -> truthy (prop reply "ok") = true ->
            link_named d' = "" /\ d' "btnDelete.disabled" = VBool true))
  /\ forall endpoint form,
       In (Fetch endpoint form) (snd r) ->
       marked = true
       /\ form = [("action", "delete"); ("format", "json");
                  ("signature", storage_apiSignature w); ("shorturl", kw)]
       /\ kw <> "".
Proof.
  intros v marked msg kw r.
  destruct (onMessage_reply w msg) as (reply & tr & E).
  assert (v = "" ->
          r = (Ret (setMsg (i18n_getMessage "popupErrorProvideUrlToDelete") "" d, None), []))
    as G.
  { intros V. unfold r, run, btnDelete_click. fold v. rewrite V. reflexivity. }
  assert (v <> "" -> truthy_string v = true) as Tv by (destruct v; [congruence | reflexivity]).
  assert (v <> "" -> marked = false ->
          r = (Ret (set "btnDelete.classList.confirm-delete" (VBool true)
                      (set "btnDelete.textContent"
                         (VStr (i18n_getMessage "popupBtnConfirmDelete")) d), Some 4000), []))
    as F.
  { intros V M. unfold r, run, btnDelete_click. fold v. rewrite (Tv V). fold marked.
    rewrite M. reflexivity. }
  assert (v <> "" -> marked = true ->
          r = (if negb (truthy reply) || negb (truthy (opt_prop reply "ok"))
               then ret (setMsg (reason_or reply (i18n_getMessage "errorDeleteFailed")) ""
                           (setMsg (i18n_getMessage "popupStatusDeleting") ""
                              (set "btnDelete.textContent"
                                 (VStr (i18n_getMessage "popupBtnDelete"))
                                 (set "btnDelete.classList.confirm-delete" (VBool false) d))),
                         None)
               else ret (set "btnDownloadQr.style.display" (VStr "none")
                           (set "qrcodeDisplay.style.display" (VStr "none")
                              (set "resultArea.style.display" (VStr "none")
                                 (set "btnDelete.disabled" (VBool true)
                                    (set "statsInput.value" (VStr "")
                                       (set "shortUrl.value" (VStr "")
                                          (setMsg (i18n_getMessage "popupStatusDeleted") "ok"
                                             (setMsg (i18n_getMessage "popupStatusDeleting") ""
                                                (set "btnDelete.textContent"
                                                   (VStr (i18n_getMessage "popupBtnDelete"))
                                                   (set "btnDelete.classList.confirm-delete"
                                                      (VBool false) d))))))))),
                         None)) tr) as S.
  { intros V M. unfold r, btnDelete_click. fold v. rewrite (Tv V). fold marked.
    rewrite M. cbn [negb].
    match goal with
    | |- context [bind (onMessage w ?m) ?k] =>
        change m with msg; rewrite (run_bind_onMessage w msg k reply tr E)
    end.
    reflexivity. }
  split; [exact G|]. split; [|split].
  - intros V M. eexists. split; [apply (F V M)|]. repeat split.
  - intros V M. rewrite (S V M). exists reply, tr.
    destruct (truthy reply) eqn:Tr; cbn [negb orb].
    + destruct (truthy (opt_prop reply "ok")) eqn:Ok; cbn [negb].
      * eexists. split; [exact E|]. split; [reflexivity|]. split; [reflexivity|].
        split; [discriminate|]. intros _ _. split; reflexivity.
      * eexists. split; [exact E|]. split; [reflexivity|]. split; [reflexivity|].
        split; [intros _; split; reflexivity|].
        intros _ Ok'. rewrite (opt_prop_truthy_of reply "ok" Tr) in Ok. congruence.
    + eexists. split; [exact E|]. split; [reflexivity|]. split; [reflexivity|].
      split; [intros _; split; reflexivity | discriminate].
  - intros endpoint form I.
    destruct (truthy_string_cases v) as [(V & _) | (c & t & V & _)].
    { rewrite (G V) in I. destruct I. }
    assert (v <> "") as Nv by (rewrite V; discriminate).
    destruct marked eqn:M; [|rewrite (F Nv eq_refl) in I; destruct I].
    split; [reflexivity|]. rewrite (S Nv eq_refl) in I.
    assert (In (Fetch endpoint form) tr) as I'.
    { destruct (negb (truthy reply) || _); exact I. }
    pose proof (onMessage_operation_of w msg "DELETE_SHORTURL" eq_refl) as (R & _).
    cbn [operation_of String.eqb Ascii.eqb Bool.eqb] in R.
    rewrite E in R.
    assert (tr = snd (run (apiDelete w (prop msg "shortUrl")))) as Et.
    { rewrite <- caught_calls, <- R. reflexivity. }
    rewrite Et in I'. apply delete_request in I'. exact I'.
Qed.

Lemma stats_request (w : World) (shortUrl : value) (endpoint : string)
    (form : list (string * string)) :
  let base := sanitizeBaseUrl (storage_yourlsUrl w) in
  In (Fetch endpoint form) (snd (run (apiStats w shortUrl))) ->
  form = toFormData (url_stats_payload (storage_apiSignature w) (extractKeyword base shortUrl)).
Proof.
  intros base I. pose proof (apiStats_run w shortUrl) as (C & _).
  apply (calls_form _ _ _ _ _ _ C I).
Qed.

(** X20. A click on the Stats button.  With no link named in the fields, the
    handler shows a message and calls nothing.  Otherwise it sends one
    [GET_STATS] message for the trimmed text; a reply that is not ok has its
    reason shown and leaves the details hidden; a reply that is ok has its
    data put, as JSON text, in the box of the details, which stays closed
    while its button becomes visible.  A request that is sent asks for the
    keyword of the trimmed text. *)
Theorem btnStats_sends (w : World) (d : Dom) :
  let q := link_named d in
  let msg := VObj [("type", VStr "GET_STATS"); ("shortUrl", VStr q)] in
  let kw := extractKeyword (sanitizeBaseUrl (storage_yourlsUrl w)) (VStr q) in
  let r := run (btnStats_click JSON_stringify i18n_getMessage_with w d) in
  (q = "" -> r = (Ret (setMsg (i18n_getMessage "popupErrorEnterUrlForStats") "" d), []))
  /\ (q <> "" ->
      exists reply tr d',
        run (onMessage w msg) = (Ret reply, tr)
        /\ r = (Ret d', tr)
        /\ d' "jsonBox.style.display" = VStr "none"
        /\ (truthy (opt_prop reply "ok") = false ->
            d' "msg.textContent" = VStr (reason_or reply (i18n_getMessage "errorStatsFailed"))
            /\ d' "btnDetails.style.visibility" = VStr "hidden")
        /\ (truthy reply = true -> truthy (prop reply "ok") = true ->
            d' "jsonBox.textContent" = VStr (ToString (JSON_stringify (prop reply "data")))
            /\ d' "btnDetails.style.visibility" = VStr "visible"))
  /\ forall endpoint form,
       In (Fetch endpoint form) (snd r) ->
       q <> ""
       /\ form = [("action", "url-stats"); ("format", "json");
                  ("signature", storage_apiSignature w); ("shorturl", kw)].
Proof.
  intros q msg kw r.
  destruct (onMessage_reply w msg) as (reply & tr & E).
  assert (q = "" -> r = (Ret (setMsg (i18n_getMessage "popupErrorEnterUrlForStats") "" d), []))
    as G.
  { intros V. unfold r, run, btnStats_click. fold q. rewrite V. reflexivity. }
  assert (q <> "" -> truthy_string q = true) as Tq by (destruct q; [congruence | reflexivity]).
  assert (q <> "" ->
          exists d',
            r = (Ret d', tr)
            /\ d' "jsonBox.style.display" = VStr "none"
            /\ (truthy (opt_prop reply "ok") = false ->
                d' "msg.textContent"
                = VStr (reason_or reply (i18n_getMessage "errorStatsFailed"))
                /\ d' "btnDetails.style.visibility" = VStr "hidden")
            /\ (truthy reply = true -> truthy (prop reply "ok") = true ->
                d' "jsonBox.textContent" = VStr (ToString (JSON_stringify (prop reply "data")))
                /\ d' "btnDetails.style.visibility" = VStr "visible")) as S.
  { intros V. unfold r, btnStats_click. fold q. rewrite (Tq V). cbn [negb].
    match goal with
    | |- context [bind (onMessage w ?m) ?k] =>
        change m with msg; rewrite (run_bind_onMessage w msg k reply tr E)
    end.
    destruct (truthy reply) eqn:Tr; cbn [negb orb].
    + destruct (truthy (opt_prop reply "ok")) eqn:Ok; cbn [negb].
      * eexists. split; [reflexivity|]. split.
        { match goal with
          | |- context [if ?c then _ else _] => destruct c
          end; reflexivity. }
        split; [discriminate|]. intros _ _. split; reflexivity.
      * eexists. split; [reflexivity|]. split; [reflexivity|]. split; [split; reflexivity|].
        intros _ Ok'. rewrite (opt_prop_truthy_of reply "ok" Tr) in Ok. congruence.
    + eexists. split; [reflexivity|]. split; [reflexivity|]. split; [split; reflexivity|].
      discriminate. }
  split; [exact G|]. split.
  - intros V. destruct (S V) as (d' & H). exists reply, tr, d'. split; [exact E | exact H].
  - intros endpoint form I.
    destruct (truthy_string_cases q) as [(V & _) | (c & t & V & _)].
    { rewrite (G V) in I. destruct I. }
    assert (q <> "") as Nq by (rewrite V; discriminate).
    split; [exact Nq|]. destruct (S Nq) as (d' & R & _). rewrite R in I. cbn [snd] in I.
    pose proof (onMessage_operation_of w msg "GET_STATS" eq_refl) as (_ & C & _).
    rewrite E in C. cbn [snd] in C.
    apply (calls_form _ _ _ _ _ _ C I).
Qed.

End PopupFacts.

(* ================================================================== *)
(** * The replies of the listener *)
(* ================================================================== *)

Section Replies.
Context {B : Browser}.

Lemma returns_shape (m : M value) :
  (forall t, match m t with (Ret reply, _) => reply_shape reply | (Throw _, _) => True end) ->
  forall reply tr, caught (run m) = (Ret reply, tr) -> reply_shape reply.
Proof.
  intros H reply tr. unfold run. specialize (H []).
  destruct (m []) as [[r|e] t]; cbn; intros E; inversion E; subst; [exact H|].
  left. eauto.
Qed.

Ltac shape := first [ left; eexists; reflexivity | right; eexists; reflexivity ].

Lemma after_client (w : World) (base : string) (payload : list (string * value))
    (post : Response * string * value -> M value) (t : trace) :
  (forall r t', match post r t' with (Ret reply, _) => reply_shape reply | _ => True end) ->
  match bind (yourlsFetch w base payload) post t with
  | (Ret reply, _) => reply_shape reply
  | (Throw _, _) => True
  end.
Proof.
  intros H. unfold bind. destruct (yourlsFetch w base payload t) as [[r|e] t']; [apply H | exact I].
Qed.

Lemma onMessage_shape (w : World) (msg : value) (reply : value) (tr : trace) :
  run (onMessage w msg) = (Ret reply, tr) -> reply_shape reply.
Proof.
  rewrite onMessage_caught. apply returns_shape. intros t. unfold dispatch.
  destruct (nullish msg); [exact I|].
  change (bind (ret tt) ?k t) with (k tt t). cbv beta.
  repeat match goal with
         | |- context [if strict_eq_string ?v ?s then _ else _] =>
             destruct (strict_eq_string v s)
         end.
  - unfold apiCheck. rewrite bind_getSettings. cbn [yourlsUrl apiSignature settings_of].
    destruct (negb _ || negb _); [shape|].
    unfold bind, try_catch.
    destruct (yourlsFetch w _ _ _) as [[[[res text] json]|e] t']; cbn.
    + destruct (ok res && truthy json); shape.
    + shape.
  - unfold apiShorten. rewrite bind_getSettings. cbn [yourlsUrl apiSignature settings_of].
    destruct (negb _ || negb _); [exact I|].
    apply after_client. intros [[res text] json] t'.
    destruct (truthy json && _); [shape|].
    destruct (ok res && truthy json && _); [shape|].
    destruct (strict_eq_string _ _ && _); exact I.
  - unfold bind at 1. unfold apiStats. rewrite bind_getSettings.
    cbn [yourlsUrl apiSignature settings_of]. unfold bind.
    destruct (yourlsFetch w _ _ _) as [[[[res text] json]|e] t']; [|exact I].
    destruct (negb (ok res)); [destruct (status res =? 404); exact I | shape].
  - unfold apiDelete. rewrite bind_getSettings. cbn [yourlsUrl apiSignature settings_of].
    destruct (negb _); [exact I|].
    apply after_client. intros [[res text] json] t'.
    destruct (ok res && isSuccess json); [shape | exact I].
  - unfold bind at 1. unfold apiDbStats. rewrite bind_getSettings.
    cbn [yourlsUrl apiSignature settings_of]. unfold bind.
    destruct (yourlsFetch w _ _ _) as [[[[res text] json]|e] t']; [|exact I].
    destruct (negb (ok res) || negb (truthy json)); [exact I | shape].
  - shape.
Qed.


(** X21. The listener replies to every message with an object whose [ok] is
    [true], or with [{ ok: false, reason }] where the reason is a string;
    of such a failure the popup shows the reason, and its own fallback text
    only when the reason is empty. *)
Theorem onMessage_reply_shape (w : World) (msg : value) :
  exists reply tr,
    run (onMessage w msg) = (Ret reply, tr)
    /\ ((exists fields, reply = VObj (("ok", VBool true) :: fields))
        \/ (exists reason,
              reply = VObj [("ok", VBool false); ("reason", VStr reason)]
              /\ truthy reply = true
              /\ truthy (opt_prop reply "ok") = false
              /\ forall fallback,
                   reason_or reply fallback
                   = if truthy_string reason then reason else fallback)).
Proof.
  destruct (onMessage_reply w msg) as (reply & tr & E). exists reply, tr. split; [exact E|].
  destruct (onMessage_shape w msg reply tr E) as [(reason & ->) | (fields & ->)].
  - right. exists reason. repeat split. intros fallback.
    unfold reason_or, failure, or_else, opt_prop. cbn. destruct reason; reflexivity.
  - left. eauto.
Qed.

End Replies.

(* ================================================================== *)
(** * Links of the redirect services on the reference browser *)
(* ================================================================== *)

Section Redirects.
Import Reference.
#[local] Existing Instance browser.

Ltac all_chars c :=
  destruct c as [[] [] [] [] [] [] [] []]; vm_compute; try reflexivity; try discriminate.

Lemma component_char_facts (c : ascii) :
  component_char c = true ->
  negb (is_c0_or_space c) = true /\ negb (is_tab_or_newline c) = true
  /\ negb (Ascii.eqb c "#") = true /\ negb (Ascii.eqb c "&") = true
  /\ negb (Ascii.eqb c "=") = true.
Proof. all_chars c; intros _; repeat split. Qed.

Lemma encode_char_component (c : ascii) :
  forall_string component_char (percent_encode_char (fun c => negb (uri_unreserved c)) c) = true.
Proof. all_chars c. Qed.

Lemma encodeURIComponent_chars (t : string) :
  forall_string component_char (encodeURIComponent t) = true.
Proof.
  unfold encodeURIComponent. induction t as [|c t IH]; [reflexivity|].
  cbn [percent_encode]. rewrite forall_string_app, encode_char_component. exact IH.
Qed.

Lemma encode_char_cases (c : ascii) :
  is_ascii c = true ->
  let x := hex_digit (code c / 16) in
  let y := hex_digit (code c mod 16) in
  (percent_encode_char (fun c => negb (uri_unreserved c)) c = String c ""
   /\ Ascii.eqb c "+" = false /\ Ascii.eqb c "%" = false)
  \/ (percent_encode_char (fun c => negb (uri_unreserved c)) c
      = String "%" (String x (String y ""))
      /\ hex_value x = Some (code c / 16) /\ hex_value y = Some (code c mod 16)
      /\ ascii_of_nat (16 * (code c / 16) + code c mod 16) = c).
Proof.
  all_chars c; intros _;
    first [ left; repeat split; reflexivity | right; repeat split; reflexivity ].
Qed.

Lemma decode_encode_char (c : ascii) (rest : string) :
  is_ascii c = true ->
  form_decode (percent_encode_char (fun c => negb (uri_unreserved c)) c ++ rest)
  = String c (form_decode rest).
Proof.
  intros A.
  destruct (encode_char_cases c A) as [(E & P & Q) | (E & X & Y & C)];
    rewrite E; cbn [append form_decode].
  - rewrite P, Q. reflexivity.
  - change (Ascii.eqb "%" "+") with false. change (Ascii.eqb "%" "%") with true.
    cbv iota. rewrite X, Y, C. reflexivity.
Qed.

(** The decoding of a query undoes [encodeURIComponent], on ASCII text. *)
Lemma form_decode_encode (t : string) :
  forall_string is_ascii t = true -> form_decode (encodeURIComponent t) = t.
Proof.
  unfold encodeURIComponent. induction t as [|c t IH]; [reflexivity|].
  cbn [forall_string percent_encode]. intros H. apply andb_prop in H. destruct H as [Hc Ht].
  rewrite (decode_encode_char c _ Hc), (IH Ht). reflexivity.
Qed.

Lemma split_without (sep : ascii) (s : string) :
  forall_string (fun c => negb (Ascii.eqb c sep)) s = true -> split sep s = [s].
Proof.
  induction s as [|c s IH]; [reflexivity|]. cbn [forall_string split]. intros H.
  apply andb_prop in H. destruct H as [Hc Hs]. rewrite (IH Hs).
  destruct (Ascii.eqb c sep); [discriminate | reflexivity].
Qed.

Lemma preprocess_clean (s : string) :
  forall_string clean_char s = true ->
  filter_string (fun c => negb (is_tab_or_newline c))
    (drop_while_end is_c0_or_space (drop_while is_c0_or_space s)) = s.
Proof.
  intros H.
  rewrite drop_while_none, drop_while_end_none, filter_string_all; auto;
    apply (forall_string_impl clean_char); auto; intros c Hc;
    unfold clean_char in Hc; apply andb_prop in Hc; apply Hc.
Qed.

(** The URL of a link to a redirect service, parsed. *)
Lemma parse_redirect (h pathstr param e : string) (segs : list string) :
  parse_authority true "https" h = Some (h, None, "") ->
  forall_string clean_char ("https://" ++ h ++ pathstr ++ "?" ++ param ++ "=") = true ->
  truthy_string pathstr = true ->
  starts_path pathstr ->
  forall_string not_query_or_fragment pathstr = true ->
  path_after_authority true pathstr = segs ->
  forall_string component_char param = true ->
  forall_string component_char e = true ->
  truthy_string (param ++ "=" ++ e) = true ->
  parse ("https://" ++ h ++ pathstr ++ "?" ++ param ++ "=" ++ e)
  = Some (mkURL ("https://" ++ h) h (pathname_of segs) [(form_decode param, form_decode e)]).
Proof.
  intros A Cl Tp Sp Nq Ps Cp Ce Tr.
  assert (forall f, (forall c, component_char c = true -> f c = true) ->
                    forall_string f param = true /\ forall_string f e = true) as Both.
  { intros f F. split; [apply (forall_string_impl component_char f param F Cp)
                       | apply (forall_string_impl component_char f e F Ce)]. }
  unfold parse, basic_parse. rewrite preprocess_clean.
  2:{ replace ("https://" ++ h ++ pathstr ++ "?" ++ param ++ "=" ++ e)
        with (("https://" ++ h ++ pathstr ++ "?" ++ param ++ "=") ++ e)
        by (rewrite !append_assoc; reflexivity).
      rewrite forall_string_app, Cl. cbn [andb].
      apply (forall_string_impl component_char); [|exact Ce].
      intros c Hc. unfold clean_char. destruct (component_char_facts c Hc) as (F1 & F2 & _).
      rewrite F1, F2. reflexivity. }
  destruct (tuple_scheme_facts "https" eq_refl) as (PS & _).
  change ("https://" ++ h ++ pathstr ++ "?" ++ param ++ "=" ++ e)
    with ("https" ++ String ":" (String "/" (String "/"
            (h ++ pathstr ++ "?" ++ param ++ "=" ++ e)))).
  rewrite PS. unfold parse_after_scheme.
  change (String.eqb "https" "file") with false. change (is_special "https") with true.
  cbv iota.
  destruct (parse_authority_stable "https" h h None "" (pathstr ++ "?" ++ param ++ "=" ++ e) A)
    as (A' & _ & Th & Ch).
  { destruct pathstr; [discriminate Tp | exact Sp]. }
  change (h ++ port_string None ++ ?t) with (h ++ t) in A'.
  rewrite (drop_slashes_host _ _ Th Ch), A'.
  rewrite (span_app not_query_or_fragment pathstr ("?" ++ param ++ "=" ++ e) Nq eq_refl).
  rewrite Ps. cbn [parse_query append].
  assert (span (fun c => negb (Ascii.eqb c "#")) (param ++ "=" ++ e)
          = (param ++ "=" ++ e, "")) as Sq.
  { rewrite <- (append_empty_r (param ++ "=" ++ e)) at 1. apply span_app; [|exact I].
    destruct (Both (fun c => negb (Ascii.eqb c "#"))) as (B1 & B2);
      [intros c Hc; apply (component_char_facts c Hc)|].
    rewrite !forall_string_app, B1, B2. reflexivity. }
  change (param ++ String "=" e) with (param ++ "=" ++ e). rewrite Sq. cbn [fst].
  f_equal. unfold get_origin, get_hostname, get_pathname, get_searchParams.
  cbn [scheme host port path query]. change (tuple_scheme "https") with true. cbv iota.
  unfold tuple_origin, get_hostname. cbn [scheme host port port_string].
  rewrite append_empty_r. f_equal.
  unfold form_parse.
  rewrite split_without.
  2:{ destruct (Both (fun c => negb (Ascii.eqb c "&"))) as (B1 & B2);
        [intros c Hc; apply (component_char_facts c Hc)|].
      rewrite !forall_string_app, B1, B2. reflexivity. }
  cbn [filter]. rewrite Tr. cbn [map]. unfold form_pair.
  rewrite (span_app (fun c => negb (Ascii.eqb c "=")) param ("=" ++ e)); [reflexivity | | reflexivity].
  destruct (Both (fun c => negb (Ascii.eqb c "="))) as (B1 & _);
    [intros c Hc; apply (component_char_facts c Hc) | exact B1].
Qed.


Lemma encodeURIComponent_truthy (t : string) :
  t <> "" -> forall_string is_ascii t = true ->
  truthy_string t = true /\ form_decode (encodeURIComponent t) = t.
Proof.
  intros N A. split; [destruct t; [congruence | reflexivity] | apply form_decode_encode, A].
Qed.

Ltac redirect h pathstr param segs e :=
  unfold cleanLink; cbn [URL_parse browser];
  rewrite (parse_redirect h pathstr param e segs);
  [ | vm_compute; reflexivity | vm_compute; reflexivity | reflexivity | reflexivity
    | vm_compute; reflexivity | vm_compute; reflexivity | vm_compute; reflexivity
    | apply encodeURIComponent_chars | apply truthy_append_cons ].

(** X22. On the reference browser, a link to one of the four redirect services
    that carries its target as [encodeURIComponent] writes it gives the
    target back, for a target that is not empty and is ASCII text.  The
    link of Bing loses the prefix [a1] of the target, when it has one, and
    nothing else. *)
Theorem cleanLink_decodes (t : string) :
  t <> "" ->
  forall_string is_ascii t = true ->
  cleanLink ("https://www.google.com/url?url=" ++ encodeURIComponent t) = t
  /\ cleanLink ("https://www.bing.com/ck/a?u=" ++ encodeURIComponent t)
     = (if startsWith t "a1" then substring_from 2 t else t)
  /\ cleanLink ("https://duckduckgo.com/l/?uddg=" ++ encodeURIComponent t) = t
  /\ cleanLink ("https://www.youtube.com/redirect?q=" ++ encodeURIComponent t) = t.
Proof.
  intros N A. destruct (encodeURIComponent_truthy t N A) as (T & D).
  set (e := encodeURIComponent t) in *.
  repeat apply conj.
  - change ("https://www.google.com/url?url=" ++ e)
      with ("https://" ++ "www.google.com" ++ "/url" ++ "?" ++ "url" ++ "=" ++ e).
    redirect "www.google.com" "/url" "url" ["url"] e.
    rewrite D. unfold REDIRECT_PATTERNS.
    cbn [clean_with host_prefix Background.path param prefix_to_strip hostname pathname
           searchParams].
    change (startsWith "www.google.com" "www.google.") with true.
    change (startsWith (pathname_of ["url"]) "/url") with true.
    change (form_decode "url") with "url".
    cbn [andb searchParams_get String.eqb Ascii.eqb Bool.eqb]. rewrite T. reflexivity.
  - change ("https://www.bing.com/ck/a?u=" ++ e)
      with ("https://" ++ "www.bing.com" ++ "/ck/a" ++ "?" ++ "u" ++ "=" ++ e).
    redirect "www.bing.com" "/ck/a" "u" ["ck"; "a"] e.
    rewrite D. unfold REDIRECT_PATTERNS.
    cbn [clean_with host_prefix Background.path param prefix_to_strip hostname pathname
           searchParams].
    change (startsWith "www.bing.com" "www.google.") with false.
    change (startsWith "www.bing.com" "www.bing.com") with true.
    change (startsWith (pathname_of ["ck"; "a"]) "/ck/a") with true.
    change (form_decode "u") with "u".
    cbn [andb searchParams_get String.eqb Ascii.eqb Bool.eqb truthy_string String.length].
    rewrite T. reflexivity.
  - change ("https://duckduckgo.com/l/?uddg=" ++ e)
      with ("https://" ++ "duckduckgo.com" ++ "/l/" ++ "?" ++ "uddg" ++ "=" ++ e).
    redirect "duckduckgo.com" "/l/" "uddg" ["l"; ""] e.
    rewrite D. unfold REDIRECT_PATTERNS.
    cbn [clean_with host_prefix Background.path param prefix_to_strip hostname pathname
           searchParams].
    change (startsWith "duckduckgo.com" "www.google.") with false.
    change (startsWith "duckduckgo.com" "www.bing.com") with false.
    change (startsWith "duckduckgo.com" "duckduckgo.com") with true.
    change (startsWith (pathname_of ["l"; ""]) "/l/") with true.
    change (form_decode "uddg") with "uddg".
    cbn [andb searchParams_get String.eqb Ascii.eqb Bool.eqb]. rewrite T. reflexivity.
  - change ("https://www.youtube.com/redirect?q=" ++ e)
      with ("https://" ++ "www.youtube.com" ++ "/redirect" ++ "?" ++ "q" ++ "=" ++ e).
    redirect "www.youtube.com" "/redirect" "q" ["redirect"] e.
    rewrite D. unfold REDIRECT_PATTERNS.
    cbn [clean_with host_prefix Background.path param prefix_to_strip hostname pathname
           searchParams].
    change (startsWith "www.youtube.com" "www.google.") with false.
    change (startsWith "www.youtube.com" "www.bing.com") with false.
    change (startsWith "www.youtube.com" "duckduckgo.com") with false.
    change (startsWith "www.youtube.com" "www.youtube.com") with true.
    change (startsWith (pathname_of ["redirect"]) "/redirect") with true.
    change (form_decode "q") with "q".
    cbn [andb searchParams_get String.eqb Ascii.eqb Bool.eqb]. rewrite T. reflexivity.
Qed.

End Redirects.

(* ================================================================== *)
(** * The short URL of a message *)
(* ================================================================== *)

Section ShortUrlPattern.

Ltac all_chars c :=
  destruct c as [[] [] [] [] [] [] [] []]; vm_compute; try reflexivity; try discriminate.

Lemma search_inv (i : bool) (r : regex) (s : string) (m : found) :
  search i r s = Some m ->
  exists t f,
    s = before m ++ t /\ match_here i r t = Some f
    /\ after f = after m /\ capture f = capture m.
Proof.
  revert m; induction s as [|c s IH]; intros m; cbn [search].
  - destruct (match_here i r "") as [f|] eqn:E; [|discriminate].
    intros H; inversion H; subst. exists "", m.
    rewrite (match_here_before _ _ _ _ E). auto.
  - destruct (match_here i r (String c s)) as [f|] eqn:E.
    + intros H; inversion H; subst. exists (String c s), m.
      rewrite (match_here_before _ _ _ _ E). auto.
    + destruct (search i r s) as [m'|]; [|discriminate].
      intros H; inversion H; subst. cbn [before after capture].
      destruct (IH m' eq_refl) as (t & f & Es & Em & Ea & Ec).
      exists t, f. cbn [append]. rewrite <- Es. auto.
Qed.

(** A greedy repetition that fails has no repetition after which the
    continuation succeeds. *)
Lemma repeat_greedy_none {X} (p : ascii -> bool) (k : string -> option X) (s b r : string) :
  repeat_greedy p s k = None -> s = b ++ r -> forall_string p b = true -> k r = None.
Proof.
  revert b r; induction s as [|d s IH]; intros b r G E F.
  - destruct b; [|discriminate]. cbn in E. subst r. exact G.
  - cbn [repeat_greedy] in G. destruct b as [|d' b].
    + cbn in E. subst r. destruct (p d); [|exact G].
      destruct (repeat_greedy p s k); [discriminate | exact G].
    + cbn in E, F. inversion E; subst. apply andb_prop in F. destruct F as [Fd Fb].
      rewrite Fd in G. destruct (repeat_greedy p _ k) eqn:G'; [discriminate|].
      apply (IH b r); auto.
Qed.

(** A greedy repetition that succeeds stops at the longest repetition after
    which the continuation succeeds. *)
Lemma repeat_greedy_longest {X} (p : ascii -> bool) (s : string) (k : string -> option X)
    (x : X) :
  repeat_greedy p s k = Some x ->
  exists a r,
    s = a ++ r /\ forall_string p a = true /\ k r = Some x
    /\ forall b r', r = b ++ r' -> b <> "" -> forall_string p b = true -> k r' = None.
Proof.
  induction s as [|c s IH]; cbn [repeat_greedy].
  - intros H. exists "", "". repeat split; auto.
    intros [|? ?] r' E N; [congruence | discriminate].
  - destruct (p c) eqn:Pc.
    + destruct (repeat_greedy p s k) as [y|] eqn:R.
      * intros H; inversion H; subst y.
        destruct (IH eq_refl) as (a & r & -> & Fa & Kr & L).
        exists (String c a), r. cbn. rewrite Pc, Fa. auto.
      * intros H. exists "", (String c s). repeat split; auto.
        intros [|d b] r' E N Fb; [congruence|]. cbn in E. inversion E; subst.
        cbn in Fb. apply andb_prop in Fb. apply (repeat_greedy_none p k _ b r' R); auto.
        apply Fb.
    + intros H. exists "", (String c s). repeat split; auto.
      intros [|d b] r' E N Fb; [congruence|]. cbn in E, Fb. inversion E; subst.
      rewrite Pc in Fb. discriminate.
Qed.

Lemma paren_ci (c : ascii) : Ascii.eqb (upper c) (upper ")") = Ascii.eqb c ")".
Proof. all_chars c. Qed.


Lemma map_string_app (f : ascii -> ascii) (a b : string) :
  map_string f (a ++ b) = map_string f a ++ map_string f b.
Proof. induction a as [|c a IH]; cbn; congruence. Qed.

Lemma eq_ci_app (a a' b b' : string) :
  eq_ci a a' = true -> eq_ci b b' = true -> eq_ci (a ++ b) (a' ++ b') = true.
Proof.
  unfold eq_ci. rewrite !String.eqb_eq, !map_string_app. congruence.
Qed.

Lemma exec_word_split {X} (w s : string) (cap : option string)
    (k : string -> option string -> option X) (x : X) :
  exec true (word w) s cap k = Some x ->
  exists lit rest, s = lit ++ rest /\ eq_ci lit w = true /\ k rest cap = Some x.
Proof.
  rewrite exec_word. destruct (prefix_ci w s) eqn:P; [|discriminate].
  apply prefix_ci_split in P. destruct P as (lit & E & Q). intros K.
  exists lit, (substring_from (String.length w) s). auto.
Qed.

Lemma exec_opt_inv {X} (i : bool) (a : atom) (s : string) (cap : option string)
    (k : string -> option string -> option X) (x : X) :
  exec i (Opt a) s cap k = Some x ->
  (exists c s', s = String c s' /\ atom_match i a c = true /\ k s' cap = Some x)
  \/ k s cap = Some x.
Proof.
  cbn [exec]. destruct s as [|c s]; [auto|].
  destruct (atom_match i a c) eqn:A; [|auto].
  destruct (k s cap) as [y|] eqn:K; [|auto].
  intros H. left. exists c, s. repeat split; congruence.
Qed.

Lemma exec_plus_inv {X} (i : bool) (a : atom) (s : string) (cap : option string)
    (k : string -> option string -> option X) (x : X) :
  exec i (Plus a) s cap k = Some x ->
  exists c s',
    s = String c s' /\ atom_match i a c = true
    /\ repeat_greedy (atom_match i a) s' (fun rest => k rest cap) = Some x.
Proof.
  cbn [exec]. destruct s as [|c s]; [discriminate|].
  destruct (atom_match i a c) eqn:A; [|discriminate]. eauto.
Qed.

Lemma exec_one_inv {X} (i : bool) (a : atom) (s : string) (cap : option string)
    (k : string -> option string -> option X) :
  exec i (One a) s cap k
  = match s with
    | String c s' => if atom_match i a c then k s' cap else None
    | EmptyString => None
    end.
Proof. reflexivity. Qed.

(** A match of [/\(short URL: (https?:\/\/\S+)\)/i] at the start of [t]. *)
Lemma match_here_short_url (t : string) (f : found) :
  match_here true re_short_url t = Some f ->
  exists lit scheme rest,
    t = lit ++ (scheme ++ rest) ++ ")" ++ after f
    /\ eq_ci lit "(short URL: " = true
    /\ (eq_ci scheme "http://" = true \/ eq_ci scheme "https://" = true)
    /\ rest <> "" /\ forall_string nonspace rest = true
    /\ capture f = Some (scheme ++ rest)
    /\ forall b r', after f = b ++ ")" ++ r' -> forall_string nonspace b = false.
Proof.
  unfold match_here, re_short_url.
  change (exec true (Cat ?a ?b) ?s ?c ?k)
    with (exec true a s c (fun s1 cap1 => exec true b s1 cap1 k)).
  intros H. apply exec_word_split in H. destruct H as (lit & t1 & -> & Ql & H).
  change (exec true (Cat ?a ?b) ?s ?c ?k)
    with (exec true a s c (fun s1 cap1 => exec true b s1 cap1 k)) in H.
  change (exec true (Group ?a) ?s ?c ?k)
    with (exec true a s c (fun s1 _ => k s1 (Some (consumed s s1)))) in H.
  change (exec true (Cat ?a ?b) ?s ?c ?k)
    with (exec true a s c (fun s1 cap1 => exec true b s1 cap1 k)) in H.
  apply exec_word_split in H. destruct H as (x4 & t2 & E1 & Q4 & H).
  change (exec true (Cat ?a ?b) ?s ?c ?k)
    with (exec true a s c (fun s1 cap1 => exec true b s1 cap1 k)) in H.
  assert (exists sc t3,
             t2 = sc ++ t3
             /\ (sc = "" \/ exists c, sc = String c "" /\ eq_ci sc "s" = true)
             /\ exec true (Cat (word "://") (Plus NonSpace)) t3 None
                  (fun s1 _ =>
                     exec true (One (Chr ")")) s1 (Some (consumed t1 s1))
                       (fun rest cap => Some (mkFound "" rest cap))) = Some f)
    as (sc & t3 & E2 & Sc & K).
  { apply exec_opt_inv in H. destruct H as [(c & s' & -> & A & H) | H].
    - exists (String c ""), s'. split; [reflexivity|]. split; [|exact H].
      right. exists c. split; [reflexivity|]. unfold eq_ci. cbn.
      cbn in A. apply Ascii.eqb_eq in A. rewrite A. reflexivity.
    - exists "", t2. auto. }
  clear H.
  change (exec true (Cat ?a ?b) ?s ?c ?k)
    with (exec true a s c (fun s1 cap1 => exec true b s1 cap1 k)) in K.
  apply exec_word_split in K. destruct K as (x3 & t4 & E3 & Q3 & K).
  apply exec_plus_inv in K. destruct K as (c0 & t5 & -> & N0 & K).
  apply repeat_greedy_longest in K. destruct K as (a & r & E4 & Fa & K & L).
  rewrite exec_one_inv in K. destruct r as [|p r]; [discriminate|].
  cbn [atom_match] in K. rewrite paren_ci in K.
  destruct (Ascii.eqb p ")") eqn:P; [|discriminate]. apply Ascii.eqb_eq in P. subst p.
  inversion K; subst f. cbn [after capture]. clear K.
  exists lit, (x4 ++ sc ++ x3), (String c0 a).
  assert (t1 = (x4 ++ sc ++ x3) ++ String c0 a ++ String ")" r) as Et.
  { rewrite E1, E2, E3, E4. rewrite !append_assoc. reflexivity. }
  split; [rewrite Et, !append_assoc; reflexivity|]. split; [exact Ql|]. split.
  { destruct Sc as [-> | (c & -> & Qs)].
    - left. apply (eq_ci_app x4 "http" x3 "://"); assumption.
    - right. apply (eq_ci_app x4 "http" (String c "" ++ x3) "s://"); [assumption|].
      apply (eq_ci_app (String c "") "s" x3 "://"); assumption. }
  split; [discriminate|]. split.
  { cbn [forall_string]. unfold nonspace at 1. cbn [atom_match] in N0. rewrite N0. exact Fa. }
  split.
  { f_equal. rewrite Et.
    replace ((x4 ++ sc ++ x3) ++ String c0 a ++ String ")" r)
      with (((x4 ++ sc ++ x3) ++ String c0 a) ++ String ")" r)
      by (rewrite !append_assoc; reflexivity).
    apply consumed_app. }
  intros b r' Er. destruct (forall_string nonspace b) eqn:Fb; [|reflexivity].
  exfalso. specialize (L (String ")" b) (String ")" r')).
  rewrite exec_one_inv in L. cbn [atom_match] in L. rewrite paren_ci in L.
  cbn [Ascii.eqb Bool.eqb] in L. discriminate L.
  - rewrite Er. reflexivity.
  - discriminate.
  - cbn [forall_string]. rewrite andb_true_iff. split; [reflexivity | exact Fb].
Qed.

(** X23. What [match[1]] is for the pattern of the short URL in a message: the
    message holds [(short URL: ], in any case of the letters, then the
    capture and a closing parenthesis; the capture starts with [http://] or
    [https://], in any case, has no white space, and ends before the last
    closing parenthesis that comes before the next white space. *)
Theorem short_url_capture (message u : string) :
  match1 true re_short_url message = Some u ->
  exists pre lit scheme rest post,
    message = pre ++ lit ++ u ++ ")" ++ post
    /\ eq_ci lit "(short URL: " = true
    /\ u = scheme ++ rest
    /\ (eq_ci scheme "http://" = true \/ eq_ci scheme "https://" = true)
    /\ rest <> "" /\ forall_string nonspace rest = true
    /\ forall b r', post = b ++ ")" ++ r' -> forall_string nonspace b = false.
Proof.
  unfold match1. destruct (search true re_short_url message) as [m|] eqn:S; [|discriminate].
  intros C. apply search_inv in S. destruct S as (t & f & E & M & Ea & Ec).
  apply match_here_short_url in M.
  destruct M as (lit & scheme & rest & Et & Ql & Sc & Nr & Fr & Cf & L).
  assert (u = scheme ++ rest) as Eu by congruence. subst u.
  exists (before m), lit, scheme, rest, (after f).
  split; [rewrite E, Et; reflexivity|]. auto 10.
Qed.

End ShortUrlPattern.

(* ================================================================== *)
(** * The further properties, at work *)
(* ================================================================== *)

(** A request for the statistics of the database: one request, to the
    endpoint of the instance. *)
Lemma onMessage_requests_witness :
  "https://go.example/yourls-api.php"
  = sanitizeBaseUrl (B := Reference.browser) "https://go.example/" ++ "/yourls-api.php"
  /\ In ("signature", "secret")
        [("action", "stats"); ("format", "json"); ("signature", "secret")].
Proof.
  destruct (onMessage_requests (B := Reference.browser)
              (Reference.world "https://go.example/" "secret" true
                 (Reference.answers 200 "{}"))
              (Reference.message "GET_DB_STATS" [])) as (_ & _ & H).
  destruct (H "https://go.example/yourls-api.php"
              [("action", "stats"); ("format", "json"); ("signature", "secret")])
    as (E & _ & S & _).
  - vm_compute. auto.
  - split; [exact E | exact S].
Defined.

(** The notification of a created short URL comes with a reply that is
    ok. *)
Lemma onMessage_notifications_witness :
  exists reply,
    fst (run (onMessage (B := Reference.browser)
                (Reference.world "https://go.example/" "secret" true
                   (Reference.answers 200
                      ("{" ++ Reference.quoted "shorturl" ++ ":"
                       ++ Reference.quoted "https://go.example/zzz" ++ "}")))
                (Reference.message "SHORTEN_URL"
                   [("longUrl", VStr "https://example.com/page")])))
    = Ret reply
    /\ prop reply "ok" = VBool true.
Proof.
  apply (onMessage_notifications (B := Reference.browser)
           (Reference.world "https://go.example/" "secret" true
              (Reference.answers 200
                 ("{" ++ Reference.quoted "shorturl" ++ ":"
                  ++ Reference.quoted "https://go.example/zzz" ++ "}")))
           (Reference.message "SHORTEN_URL" [("longUrl", VStr "https://example.com/page")])
           "__MSG_extensionName__" "__MSG_toastUrlCreated__").
  vm_compute. auto 6.
Defined.

(** A request to delete by short URL carries the keyword. *)
Lemma onMessage_forms_witness :
  extractKeyword (B := Reference.browser) "https://go.example"
    (VStr "https://go.example/abc123") <> "".
Proof.
  destruct (onMessage_forms (B := Reference.browser)
              (Reference.world "https://go.example/" "secret" true
                 (Reference.answers 200 "{}"))
              (Reference.message "DELETE_SHORTURL"
                 [("shortUrl", VStr "https://go.example/abc123")])
              "https://go.example/yourls-api.php"
              [("action", "delete"); ("format", "json"); ("signature", "secret");
               ("shorturl", "abc123")])
    as [(_ & F) | [(T & _) | [(_ & _ & K) | (T & _)]]].
  - vm_compute. auto.
  - discriminate F.
  - discriminate T.
  - exact K.
  - discriminate T.
Defined.

(** An instance without links reports a total of 0. *)
Lemma apiCheck_outcome_witness :
  exists tr,
    run (apiCheck (B := Reference.browser)
           (Reference.world "https://go.example/" "secret" true
              (Reference.answers 200 ("{" ++ Reference.quoted "total_links" ++ ":0}"))))
    = (Ret (VObj [("ok", VBool true); ("total", VNum 0)]), tr)
    /\ existsb is_notification tr = false.
Proof.
  apply (apiCheck_outcome (B := Reference.browser)
           (Reference.world "https://go.example/" "secret" true
              (Reference.answers 200 ("{" ++ Reference.quoted "total_links" ++ ":0}")))
           (mkResponse 200 (Some ("{" ++ Reference.quoted "total_links" ++ ":0}")))).
  - reflexivity.
  - reflexivity.
  - exists (mkURL "https://go.example" "go.example" "/" []). repeat split; reflexivity.
Defined.

(** A message of a successful deletion, and the same words on two lines. *)
Lemma two_word_patterns_witness :
  test true re_success_deleted "Success: the link was deleted" = true.
Proof.
  apply (two_word_patterns "Success: the link was deleted").
  exists "", "Success", ": the link was ", "deleted", "". repeat split.
Defined.

(** A server that refuses a keyword in those words. *)
Lemma shorten_keyword_taken_witness :
  exists shortUrl tr,
    run (onMessage (B := Reference.browser)
           (Reference.world "https://go.example/" "secret" true
              (Reference.answers 200
                 ("{" ++ Reference.quoted "status" ++ ":" ++ Reference.quoted "fail" ++ ","
                  ++ Reference.quoted "message" ++ ":"
                  ++ Reference.quoted "The keyword abc already exists" ++ "}")))
           (Reference.message "SHORTEN_URL"
              [("longUrl", VStr "https://example.com/page"); ("keyword", VStr "abc")]))
    = (Ret (VObj [("ok", VBool true); ("shortUrl", shortUrl); ("already", VBool true)]),
       (tr ++ [Notification "__MSG_extensionName__" "__MSG_toastUrlExists__"])%list).
Proof.
  apply (shorten_keyword_taken (B := Reference.browser)
           (Reference.world "https://go.example/" "secret" true
              (Reference.answers 200
                 ("{" ++ Reference.quoted "status" ++ ":" ++ Reference.quoted "fail" ++ ","
                  ++ Reference.quoted "message" ++ ":"
                  ++ Reference.quoted "The keyword abc already exists" ++ "}")))
           (Reference.message "SHORTEN_URL"
              [("longUrl", VStr "https://example.com/page"); ("keyword", VStr "abc")])
           (mkResponse 200
              (Some ("{" ++ Reference.quoted "status" ++ ":" ++ Reference.quoted "fail" ++ ","
                     ++ Reference.quoted "message" ++ ":"
                     ++ Reference.quoted "The keyword abc already exists" ++ "}")))
           "The keyword abc already exists").
  - reflexivity.
  - reflexivity.
  - reflexivity.
  - exists (mkURL "https://go.example" "go.example" "/" []). repeat split; reflexivity.
  - vm_compute. reflexivity.
  - vm_compute. reflexivity.
Defined.

(** A URL in the middle of a selection. *)
Lemma getUrlForAction_selection_witness :
  getUrlForAction (B := Reference.browser)
    (Some (mkInfo None (Some "see https://example.com/a?b=1 for more")))
    (Some (mkTab (Some "https://tab.example/")))
  = "https://example.com/a?b=1".
Proof.
  pose proof (getUrlForAction_selection (B := Reference.browser)
                (mkInfo None (Some "see https://example.com/a?b=1 for more"))
                (Some (mkTab (Some "https://tab.example/")))
                "see https://example.com/a?b=1 for more"
                (or_introl eq_refl) eq_refl) as H.
  cbn [find_url url_at after_prefix until_space Ascii.eqb Bool.eqb isWhiteSpace
         code nat_of_ascii] in H.
  vm_compute find_url in H. apply H.
Defined.

(** A keyword under a base URL with a path. *)
Lemma keyword_round_trip_witness :
  extractShort (VObj [("keyword", VStr "abc_1")])
    (sanitizeBaseUrl (B := Reference.browser) "https://go.example/yourls/")
  = VStr "https://go.example/yourls/abc_1"
  /\ extractKeyword (B := Reference.browser)
       (sanitizeBaseUrl (B := Reference.browser) "https://go.example/yourls/")
       (VStr "abc_1") = "abc_1".
Proof.
  destruct (keyword_round_trip "https://go.example/yourls/"
              (Reference.mkParsed "https" (Some "go.example") None (inr ["yourls"]) None)
              "abc_1") as (S & _ & K); [reflexivity | reflexivity | reflexivity |].
  split; [exact S | exact K].
Defined.

(** Deleting by short URL and by keyword. *)
Lemma short_url_or_keyword_witness :
  run (apiDelete (B := Reference.browser)
         (Reference.world "https://go.example/" "secret" true Reference.offline)
         (VStr (sanitizeBaseUrl (B := Reference.browser) "https://go.example/" ++ "/" ++ "abc")))
  = run (apiDelete (B := Reference.browser)
           (Reference.world "https://go.example/" "secret" true Reference.offline)
           (VStr "abc")).
Proof.
  apply (short_url_or_keyword
           (Reference.world "https://go.example/" "secret" true Reference.offline)
           (Reference.mkParsed "https" (Some "go.example") None (inr [""]) None)
           "abc"); reflexivity.
Defined.

(** The request of a base URL with a port and a path. *)
Lemma request_within_permission_witness :
  exists rest,
    "https://go.example:8443/yourls/yourls-api.php" = "https://go.example:8443" ++ "/" ++ rest.
Proof.
  apply (request_within_permission
           (Reference.world "https://go.example:8443/yourls/" "secret" true
              (Reference.answers 200 "{}"))
           (Reference.message "GET_DB_STATS" [])
           (Reference.mkParsed "https" (Some "go.example") (Some 8443%N) (inr ["yourls"]) None)
           "https://go.example:8443/yourls/yourls-api.php"
           [("action", "stats"); ("format", "json"); ("signature", "secret")]).
  - reflexivity.
  - reflexivity.
  - vm_compute. auto.
Defined.

(** The toolbar button on a page of the instance, then the popup. *)
Lemma handleAction_prefill_witness :
  exists ui' tr,
    run (handleAction (B := Reference.browser)
           (Reference.world "https://go.example/" "secret" true Reference.offline)
           (Some (mkTab (Some "https://go.example/abc"))) None (mkUi false (Some "old") None))
    = (Ret ui', tr)
    /\ yourls_prefill_long ui' = None
    /\ yourls_prefill_short ui' = Some "https://go.example/abc".
Proof.
  destruct (handleAction_prefill (B := Reference.browser)
              (Reference.world "https://go.example/" "secret" true Reference.offline)
              (Some (mkTab (Some "https://go.example/abc"))) None None
              (mkUi false (Some "old") None)) as ((ui' & tr & R & _ & _ & H) & _).
  destruct H as (_ & L & S & _); [discriminate|].
  exists ui', tr. split; [exact R|]. split; [exact L | exact S].
Defined.

(** A document whose fields are empty but for the ones given. *)
Lemma btnShorten_sends_witness :
  run (btnShorten_click (B := Reference.browser) (fun v => v)
         (Reference.world "https://go.example/" "secret" true Reference.offline)
         (set "longUrl.value" (VStr " example.com/page ") (fun _ => VStr "")))
  = (Ret (setMsg "__MSG_popupErrorInvalidUrl__" ""
            (set "longUrl.value" (VStr " example.com/page ") (fun _ => VStr ""))), []).
Proof.
  apply (btnShorten_sends (B := Reference.browser) (fun v => v)
           (Reference.world "https://go.example/" "secret" true Reference.offline)
           (set "longUrl.value" (VStr " example.com/page ") (fun _ => VStr ""))).
  reflexivity.
Defined.

Lemma btnDelete_confirms_witness :
  exists d',
    run (btnDelete_click (B := Reference.browser)
           (Reference.world "https://go.example/" "secret" true Reference.offline)
           (set "statsInput.value" (VStr "https://go.example/abc") (fun _ => VStr "")))
    = (Ret (d', Some 4000), [])
    /\ truthy (d' "btnDelete.classList.confirm-delete") = true.
Proof.
  destruct (btnDelete_confirms (B := Reference.browser)
              (Reference.world "https://go.example/" "secret" true Reference.offline)
              (set "statsInput.value" (VStr "https://go.example/abc") (fun _ => VStr "")))
    as (_ & H & _).
  destruct H as (d' & R & M & _); [discriminate | reflexivity |].
  exists d'. split; [exact R | exact M].
Defined.

Lemma btnStats_sends_witness :
  run (btnStats_click (B := Reference.browser) (fun v => v) (fun key _ => key)
         (Reference.world "https://go.example/" "secret" true Reference.offline)
         (set "statsInput.value" (VStr "  ") (fun _ => VStr "")))
  = (Ret (setMsg "__MSG_popupErrorEnterUrlForStats__" ""
            (set "statsInput.value" (VStr "  ") (fun _ => VStr ""))), []).
Proof.
  apply (btnStats_sends (B := Reference.browser) (fun v => v) (fun key _ => key)
           (Reference.world "https://go.example/" "secret" true Reference.offline)
           (set "statsInput.value" (VStr "  ") (fun _ => VStr ""))).
  reflexivity.
Defined.

(** A target with a query and a fragment, behind a link of DuckDuckGo. *)
Lemma cleanLink_decodes_witness :
  cleanLink (B := Reference.browser)
    "https://duckduckgo.com/l/?uddg=https%3A%2F%2Fexample.com%2Fa%3Fb%3D1%26c%3D2%23top"
  = "https://example.com/a?b=1&c=2#top".
Proof.
  destruct (cleanLink_decodes "https://example.com/a?b=1&c=2#top") as (_ & _ & H & _);
    [discriminate | reflexivity | exact H].
Defined.

(** A short URL with parentheses of its own, in upper case. *)
Lemma short_url_capture_witness :
  exists pre lit scheme rest post,
    "It already exists (Short URL: HTTPS://go.example/a(b)) in the database"
    = pre ++ lit ++ "HTTPS://go.example/a(b)" ++ ")" ++ post
    /\ eq_ci lit "(short URL: " = true
    /\ "HTTPS://go.example/a(b)" = scheme ++ rest
    /\ (eq_ci scheme "http://" = true \/ eq_ci scheme "https://" = true)
    /\ rest <> "" /\ forall_string nonspace rest = true
    /\ forall b r', post = b ++ ")" ++ r' -> forall_string nonspace b = false.
Proof.
  apply (short_url_capture
           "It already exists (Short URL: HTTPS://go.example/a(b)) in the database"
           "HTTPS://go.example/a(b)").
  vm_compute. reflexivity.
Defined.
